(** * Smart Buy Assistant: extractor, suggestion service and popup

    A shallow embedding of the browser extension's scripts:

    - the content script (extractor) of [content.js], lines 1-91;
    - the background service worker of [content.js], lines 94-171;
    - the two popup scripts of [popup.js]: the accessible popup that
      delegates to the background worker (lines 1-374) and the
      hard-coded-key popup that calls the endpoint itself (lines 375-584).

    JavaScript strings are sequences of UTF-16 code units, modelled as
    lists of [N].  Exceptions are modelled by the [Res] type: only the
    [message] of an error is ever observed by the scripts.  The browser
    (DOM, tabs, identity, network, storage, clock) is an explicit input
    of every function that consults it. *)

From Stdlib Require Import String Ascii DecimalString.
From Stdlib Require Import NArith ZArith Bool Arith Lia List.
From Stdlib Require QArith.
Import ListNotations.

Set Implicit Arguments.

(* ================================================================== *)
(** * The host language: strings, results, regular expressions *)
(* ================================================================== *)

Module JS.

Definition cu := N.
Definition jsstring := list cu.

(** An ASCII literal as a sequence of code units. *)
Definition js (s : string) : jsstring :=
  map N_of_ascii (list_ascii_of_string s).

Definition dq : jsstring := [34%N].        (* the double quote character *)
Definition nl : cu := 10%N.                (* the line feed of '\n' *)

Definition cu_eqb (a b : cu) : bool := N.eqb a b.

Fixpoint str_eqb (a b : jsstring) : bool :=
  match a, b with
  | [], [] => true
  | x :: a', y :: b' => cu_eqb x y && str_eqb a' b'
  | _, _ => false
  end.

(** Truthiness of a string: every string but the empty one. *)
Definition nonempty (s : jsstring) : bool :=
  match s with [] => false | _ :: _ => true end.

(** ** Results of fallible code *)

Inductive Res (A : Type) : Type :=
| Ok (a : A)
| Throw (msg : jsstring).
Arguments Ok {A} a.
Arguments Throw {A} msg.

Definition rbind {A B} (m : Res A) (f : A -> Res B) : Res B :=
  match m with
  | Ok a => f a
  | Throw e => Throw e
  end.

Definition try_catch {A} (m : Res A) (h : jsstring -> Res A) : Res A :=
  match m with
  | Ok a => Ok a
  | Throw e => h e
  end.

(** ** Character classes *)

Definition is_digit (c : cu) : bool := ((48 <=? c) && (c <=? 57))%N.
Definition is_period (c : cu) : bool := (c =? 46)%N.
Definition is_comma (c : cu) : bool := (c =? 44)%N.
Definition is_dollar (c : cu) : bool := (c =? 36)%N.
Definition is_blank (c : cu) : bool := (c =? 32)%N.
Definition is_hyphen (c : cu) : bool := (c =? 45)%N.

Definition is_line_terminator (c : cu) : bool :=
  ((c =? 10) || (c =? 13) || (c =? 8232) || (c =? 8233))%N.

(** WhiteSpace of the language definition (TAB, VT, FF, SP, NBSP, ZWNBSP
    and the space separators). *)
Definition is_white_space (c : cu) : bool :=
  ((c =? 9) || (c =? 11) || (c =? 12) || (c =? 32) || (c =? 160)
   || (c =? 5760) || ((8192 <=? c) && (c <=? 8202))
   || (c =? 8239) || (c =? 8287) || (c =? 12288) || (c =? 65279))%N.

(** What [String.prototype.trim] strips. *)
Definition is_trimmed_char (c : cu) : bool :=
  is_white_space c || is_line_terminator c.

(** ** String methods *)

Fixpoint dropWhile (p : cu -> bool) (s : jsstring) : jsstring :=
  match s with
  | [] => []
  | c :: s' => if p c then dropWhile p s' else s
  end.

Definition trimStart (s : jsstring) : jsstring := dropWhile is_trimmed_char s.
Definition trimEnd (s : jsstring) : jsstring :=
  rev (dropWhile is_trimmed_char (rev s)).
Definition trim (s : jsstring) : jsstring := trimEnd (trimStart s).

Fixpoint startsWith (s prefix : jsstring) : bool :=
  match prefix, s with
  | [], _ => true
  | x :: p', y :: s' => cu_eqb x y && startsWith s' p'
  | _ :: _, [] => false
  end.

Fixpoint includes (s needle : jsstring) : bool :=
  startsWith s needle ||
  match s with
  | [] => false
  | _ :: s' => includes s' needle
  end.

(** [s.split('\n')]: never the empty list; the empty string gives one
    empty line. *)
Fixpoint split_lines (s : jsstring) : list jsstring :=
  match s with
  | [] => [[]]
  | c :: s' =>
      if cu_eqb c nl then [] :: split_lines s'
      else match split_lines s' with
           | l :: ls => (c :: l) :: ls
           | [] => [[c]]
           end
  end.

(** Decimal rendering of a non-negative integer, as template literals
    do for numbers. *)
Definition digits_of (n : N) : jsstring :=
  js (NilEmpty.string_of_uint (N.to_uint n)).

(** ** Regular expressions

    The fragment the scripts use: character classes, greedy
    quantifiers over a class, the two anchors (no multiline flag) and
    concatenation.  The matcher is a backtracking matcher in
    continuation-passing style; [bol] records whether the current
    position is the start of the input. *)

Inductive regex : Type :=
| Cls (p : cu -> bool)
| Star (p : cu -> bool)
| Opt (p : cu -> bool)
| UpTo (n : nat) (p : cu -> bool)
| Bol
| Eol
| Cat (r1 r2 : regex).

Definition Plus (p : cu -> bool) : regex := Cat (Cls p) (Star p).

Definition cont := bool -> jsstring -> option jsstring.

Fixpoint star (p : cu -> bool) (k : cont) (bol : bool) (s : jsstring)
  : option jsstring :=
  match s with
  | c :: s' =>
      if p c then
        match star p k false s' with
        | Some e => Some e
        | None => k bol s
        end
      else k bol s
  | [] => k bol []
  end.

Fixpoint upto (n : nat) (p : cu -> bool) (k : cont) (bol : bool)
  (s : jsstring) : option jsstring :=
  match n, s with
  | S n', c :: s' =>
      if p c then
        match upto n' p k false s' with
        | Some e => Some e
        | None => k bol s
        end
      else k bol s
  | _, _ => k bol s
  end.

Fixpoint run (r : regex) (k : cont) (bol : bool) (s : jsstring)
  : option jsstring :=
  match r with
  | Cls p =>
      match s with
      | c :: s' => if p c then k false s' else None
      | [] => None
      end
  | Star p => star p k bol s
  | Opt p => upto 1 p k bol s
  | UpTo n p => upto n p k bol s
  | Bol => if bol then k bol s else None
  | Eol => match s with [] => k bol s | _ :: _ => None end
  | Cat r1 r2 => run r1 (run r2 k) bol s
  end.

(** A match anchored at the current position; the result is what
    follows the match. *)
Definition matchAt (r : regex) (bol : bool) (s : jsstring) : option jsstring :=
  run r (fun _ rest => Some rest) bol s.

(** The leftmost match: what precedes it, the match, what follows. *)
Fixpoint exec_from (r : regex) (bol : bool) (s : jsstring)
  : option (jsstring * jsstring * jsstring) :=
  match matchAt r bol s with
  | Some rest => Some ([], firstn (length s - length rest) s, rest)
  | None =>
      match s with
      | [] => None
      | c :: s' =>
          match exec_from r false s' with
          | Some (pre, m, post) => Some (c :: pre, m, post)
          | None => None
          end
      end
  end.

Definition exec (r : regex) (s : jsstring) := exec_from r true s.

(** [r.test(s)] *)
Definition test (r : regex) (s : jsstring) : bool :=
  match exec r s with Some _ => true | None => false end.

(** [s.match(r)[0]] for a regex without the global flag; [None] is the
    [null] of a failed match. *)
Definition match0 (r : regex) (s : jsstring) : option jsstring :=
  match exec r s with
  | Some (_, m, _) => Some m
  | None => None
  end.

(** [s.replace(r, sub)] without the global flag. *)
Definition replace (r : regex) (sub : jsstring) (s : jsstring) : jsstring :=
  match exec r s with
  | Some (pre, _, post) => pre ++ sub ++ post
  | None => s
  end.

(** [s.replace(r, sub)] with the global flag: after a match the search
    resumes where the match ended, one code unit further after an
    empty match. *)
Fixpoint replaceAll_from (fuel : nat) (r : regex) (sub : jsstring)
  (bol : bool) (s : jsstring) : jsstring :=
  match fuel with
  | O => s
  | S fuel' =>
      match matchAt r bol s with
      | Some rest =>
          if length rest <? length s
          then sub ++ replaceAll_from fuel' r sub false rest
          else match s with
               | [] => sub
               | c :: s' => sub ++ c :: replaceAll_from fuel' r sub false s'
               end
      | None =>
          match s with
          | [] => []
          | c :: s' => c :: replaceAll_from fuel' r sub false s'
          end
      end
  end.

Definition replaceAll (r : regex) (sub : jsstring) (s : jsstring) : jsstring :=
  replaceAll_from (S (length s)) r sub true s.

End JS.

(* ================================================================== *)
(** * The content script: product extraction ([content.js], 1-91) *)
(* ================================================================== *)

Module Content.
Import JS.

#[local] Notation "x <- m ;; k" := (rbind m (fun x => k))
  (at level 61, m at next level, right associativity).

(** What the extractor reads of an element; [None] is [undefined]
    (an element that is not an HTML element has no [innerText], one
    that is not an image has no [src]). *)
Record Element : Type := {
  innerText : option jsstring;
  src : option jsstring;
  content : option jsstring
}.

(** The subtree under [document.body], as far as a text walker sees
    it: text nodes with their [textContent], and every other node
    with its children. *)
#[warnings="-register-all"] Inductive Node : Type :=
| Text (data : jsstring)
| Elem (children : list Node).

(** The page the script is injected in.  Any selector query may raise,
    and [document.body] may be [null]. *)
Record Page : Type := {
  href : jsstring;                                  (* window.location.href *)
  doc_title : jsstring;                             (* document.title *)
  querySelector : jsstring -> Res (option Element);
  body : option Node
}.

Record ProductRecord : Type := {
  title : jsstring;
  price : jsstring;
  image : jsstring;
  url : jsstring
}.

(** [v || d] for a value [v] that is a string or [undefined]. *)
Definition or_else (v : option jsstring) (d : jsstring) : jsstring :=
  match v with
  | Some (c :: s) => c :: s
  | _ => d
  end.

Definition truthy (v : option jsstring) : bool :=
  match v with
  | Some (_ :: _) => true
  | _ => false
  end.

(** [document.querySelector(sel)?.innerText.trim()] *)
Definition innerText_trim (pg : Page) (sel : jsstring) : Res (option jsstring) :=
  q <- querySelector pg sel ;;
  match q with
  | None => Ok None
  | Some e =>
      match innerText e with
      | Some t => Ok (Some (trim t))
      | None => Throw (js "Cannot read properties of undefined (reading 'trim')")
      end
  end.

(** [document.querySelector(sel)?.innerText?.trim()] *)
Definition innerText_opt_trim (pg : Page) (sel : jsstring)
  : Res (option jsstring) :=
  q <- querySelector pg sel ;;
  match q with
  | None => Ok None
  | Some e => Ok (option_map trim (innerText e))
  end.

(** [document.querySelector(sel)?.src] and [...?.content] *)
Definition attribute (f : Element -> option jsstring) (pg : Page)
  (sel : jsstring) : Res (option jsstring) :=
  q <- querySelector pg sel ;;
  match q with
  | None => Ok None
  | Some e => Ok (f e)
  end.

(** Text nodes under a node, in document order. *)
Fixpoint textNodes (n : Node) : list jsstring :=
  match n with
  | Text d => [d]
  | Elem cs =>
      (fix under (l : list Node) : list jsstring :=
         match l with
         | [] => []
         | c :: l' => textNodes c ++ under l'
         end) cs
  end.

(** [/\$[\d,]+\.?\d{0,2}/] *)
Definition is_digit_or_comma (c : cu) : bool := is_digit c || is_comma c.

Definition priceRe : regex :=
  Cat (Cls is_dollar)
      (Cat (Plus is_digit_or_comma) (Cat (Opt is_period) (UpTo 2 is_digit))).

(** The loop of [findPrice] over the nodes the walker still has to
    yield. *)
Fixpoint scanNodes (nodes : list jsstring) : jsstring :=
  match nodes with
  | [] => []
  | t :: rest =>
      match match0 priceRe t with
      | Some m => m
      | None => scanNodes rest
      end
  end.

(** [findPrice] (lines 75-88).  Creating a walker on a [null] root
    raises. *)
Definition findPrice (pg : Page) : Res jsstring :=
  match body pg with
  | None =>
      Throw (js "Failed to execute 'createTreeWalker' on 'Document': parameter 1 is not of type 'Node'.")
  | Some b => Ok (scanNodes (textNodes b))
  end.

(** [/[^0-9]/g], [/[^0-9.]/g] and [/ - .*$/] *)
Definition not_digit (c : cu) : bool := negb (is_digit c).
Definition not_digit_nor_period (c : cu) : bool :=
  negb (is_digit c || is_period c).
Definition not_line_terminator (c : cu) : bool := negb (is_line_terminator c).

Definition suffixRe : regex :=
  Cat (Cls is_blank)
      (Cat (Cls is_hyphen) (Cat (Cls is_blank) (Cat (Star not_line_terminator) Eol))).

(** The cleaning of the price (line 56); [price] is a string there. *)
Definition normalizePrice (price : jsstring) : jsstring :=
  replaceAll (Cls not_digit_nor_period) [] price.

(** The site dispatch of [extractProduct] (lines 23-53): the title,
    the raw price and the image of the page. *)
Definition extractFields (pg : Page) : Res (jsstring * jsstring * jsstring) :=
  let url := href pg in
  if includes url (js "amazon.com") then
    t <- innerText_trim pg (js "#productTitle") ;;
    w <- innerText_opt_trim pg (js ".a-price-whole") ;;
    f <- innerText_opt_trim pg (js ".a-price-fraction") ;;
    let whole := or_else w [] in
    let fraction := or_else f [] in
    let price :=
      if nonempty whole || nonempty fraction
      then whole ++ (if nonempty fraction
                     then js "." ++ replaceAll (Cls not_digit) [] fraction
                     else [])
      else [] in
    i <- attribute src pg (js "#landingImage") ;;
    img <- (if truthy i then Ok (or_else i [])
            else i' <- attribute src pg (js ".imgTagWrapper img") ;;
                 Ok (or_else i' [])) ;;
    Ok (or_else t [], price, img)
  else if includes url (js "ebay.com") then
    t <- innerText_trim pg
           (js "h1[data-testid=" ++ dq ++ js "x-price-primary" ++ dq ++ js "] ~ h1") ;;
    ttl <- (if truthy t then Ok (or_else t [])
            else t' <- innerText_trim pg (js "h1") ;; Ok (or_else t' [])) ;;
    p <- innerText_trim pg
           (js "[data-testid=" ++ dq ++ js "x-price-primary" ++ dq ++ js "]") ;;
    i <- attribute src pg (js ".s-item__image-img") ;;
    Ok (ttl, or_else p [], or_else i [])
  else if includes url (js "walmart.com") then
    t <- innerText_trim pg (js "h1") ;;
    p <- innerText_trim pg (js ".w_iUH7") ;;
    i <- attribute src pg
           (js "[data-automation-id=" ++ dq ++ js "product-image" ++ dq ++ js "]") ;;
    Ok (or_else t [], or_else p [], or_else i [])
  else
    t <- innerText_trim pg
           (js "h1, [itemprop=" ++ dq ++ js "name" ++ dq ++ js "], .product-title") ;;
    let ttl := if truthy t then or_else t []
               else replace suffixRe [] (doc_title pg) in
    p <- findPrice pg ;;
    i <- attribute content pg
           (js "meta[property=" ++ dq ++ js "og:image" ++ dq ++ js "]") ;;
    Ok (ttl, p, or_else i []).

(** [extractProduct] (lines 21-70): the whole body runs under one
    [try]; the handler logs to the console and returns [null]. *)
Definition extractProduct (pg : Page) : Res (option ProductRecord) :=
  try_catch
    (f <- extractFields pg ;;
     let '(ttl, raw, img) := f in
     let cleaned := normalizePrice raw in
     if negb (nonempty ttl) || negb (nonempty cleaned) then Ok None
     else Ok (Some {| title := ttl; price := cleaned;
                      image := img; url := href pg |}))
    (fun _ => Ok None).

(** The message listener (lines 9-15): what is sent back for a
    message, if anything. *)
Definition onMessage (pg : Page) (action : jsstring)
  : Res (option (option ProductRecord)) :=
  if str_eqb action (js "extractProduct") then
    product <- extractProduct pg ;;
    Ok (Some product)
  else Ok None.

End Content.

(* ================================================================== *)
(** * Stateful fallible code *)
(* ================================================================== *)

Module Effects.
Import JS.

(** A computation over a state [S] that returns or raises; what it did
    to the state before raising stays done. *)
Definition Eff (S A : Type) : Type := S -> Res A * S.

Definition ret {S A} (a : A) : Eff S A := fun s => (Ok a, s).

Definition bind {S A B} (m : Eff S A) (f : A -> Eff S B) : Eff S B :=
  fun s =>
    match m s with
    | (Ok a, s') => f a s'
    | (Throw e, s') => (Throw e, s')
    end.

Definition throw {S A} (msg : jsstring) : Eff S A := fun s => (Throw msg, s).

Definition catch {S A} (m : Eff S A) (h : jsstring -> Eff S A) : Eff S A :=
  fun s =>
    match m s with
    | (Ok a, s') => (Ok a, s')
    | (Throw e, s') => h e s'
    end.

Definition lift {S A} (r : Res A) : Eff S A := fun s => (r, s).

Definition get {S} : Eff S S := fun s => (Ok s, s).

Definition modify {S} (f : S -> S) : Eff S unit := fun s => (Ok tt, f s).

Definition when {S} (b : bool) (m : Eff S unit) : Eff S unit :=
  if b then m else ret tt.

End Effects.

(* ================================================================== *)
(** * Parsed JSON and the generation endpoint *)
(* ================================================================== *)

Module Net.
Import JS.

(** Values as [JSON.parse] produces them, with [undefined] for what a
    property access may yield. *)
#[warnings="-register-all"] Inductive value : Type :=
| VUndef
| VNull
| VBool (b : bool)
| VNum (q : QArith_base.Q)
| VStr (s : jsstring)
| VArr (items : list value)
| VObj (fields : list (jsstring * value)).

Inductive key : Type :=
| Name (n : jsstring)
| Index (i : nat).

Definition nullish (v : value) : bool :=
  match v with
  | VUndef | VNull => true
  | _ => false
  end.

Definition truthy (v : value) : bool :=
  match v with
  | VUndef | VNull => false
  | VBool b => b
  | VNum q => negb (Z.eqb (QArith_base.Qnum q) 0)
  | VStr s => nonempty s
  | VArr _ | VObj _ => true
  end.

Fixpoint lookup (fields : list (jsstring * value)) (n : jsstring) : value :=
  match fields with
  | [] => VUndef
  | (k, v) :: rest => if str_eqb k n then v else lookup rest n
  end.

(** The property [k] of a value that is neither [null] nor
    [undefined].  The names the scripts read ([candidates], [content],
    [parts], [text]) are no built-in property of any value. *)
Definition member (v : value) (k : key) : value :=
  match v, k with
  | VObj fs, Name n => lookup fs n
  | VObj fs, Index i => lookup fs (digits_of (N.of_nat i))
  | VArr xs, Index i => nth i xs VUndef
  | VStr s, Index i =>
      match nth_error s i with
      | Some c => VStr [c]
      | None => VUndef
      end
  | _, _ => VUndef
  end.

Definition key_name (k : key) : jsstring :=
  match k with
  | Name n => n
  | Index i => digits_of (N.of_nat i)
  end.

(** [v.k] and [v[k]]; reading a property of [null] or [undefined]
    raises, and the message names which of the two it was. *)
Definition prop (v : value) (k : key) : Res value :=
  match v with
  | VUndef =>
      Throw (js "Cannot read properties of undefined (reading '"
             ++ key_name k ++ js "')")
  | VNull =>
      Throw (js "Cannot read properties of null (reading '"
             ++ key_name k ++ js "')")
  | _ => Ok (member v k)
  end.

(** [v?.k] and [v?.[k]] at the end of a chain, or followed by optional
    links only. *)
Definition opt (v : value) (k : key) : value :=
  if nullish v then VUndef else member v k.

Record Request : Type := {
  req_url : jsstring;
  req_method : jsstring;
  req_headers : list (jsstring * jsstring);
  req_body : value                  (* the value given to JSON.stringify *)
}.

Record Response : Type := {
  status : N;
  bodyText : Res jsstring;          (* resp.text() *)
  bodyJson : Res value              (* resp.json() *)
}.

(** [resp.ok]: the status is in the range 200-299. *)
Definition ok (r : Response) : bool :=
  ((200 <=? status r) && (status r <=? 299))%N.

Definition endpoint : jsstring :=
  js "https://generativelanguage.googleapis.com/v1beta/models/gemini-1.5-flash-latest:generateContent".

Definition generateContent (prompt : jsstring) (maxOutputTokens : Z) : value :=
  VObj [ (js "contents",
          VArr [ VObj [ (js "role", VStr (js "user"));
                        (js "parts", VArr [ VObj [ (js "text", VStr prompt) ] ]) ] ]);
         (js "generationConfig",
          VObj [ (js "maxOutputTokens", VNum (QArith_base.Qmake maxOutputTokens 1));
                 (js "temperature", VNum (QArith_base.Qmake 7 10)) ]) ].

End Net.

(* ================================================================== *)
(** * The background service worker ([content.js], 94-171) *)
(* ================================================================== *)

Module Background.
Import JS Effects Net.

#[local] Notation "x <- m ;; k" := (bind m (fun x => k))
  (at level 61, m at next level, right associativity).
#[local] Notation "m ;;; k" := (bind m (fun _ => k))
  (at level 61, right associativity).

(** What the worker's browser answers: the token and the error flag
    the identity callback sees, and the outcome of a request (a
    rejected [fetch] raises). *)
Record Browser : Type := {
  authToken : option jsstring;
  lastError : bool;
  fetch : Request -> Res Response
}.

(** What the worker does to the outside. *)
Inductive Event : Type :=
| GetAuthToken (interactive : bool)
| Fetch (req : Request).

Definition Trace := list Event.

Definition emit (e : Event) : Eff Trace unit := modify (fun t => t ++ [e]).

Definition is_fetch (e : Event) : bool :=
  match e with
  | Fetch _ => true
  | GetAuthToken _ => false
  end.

(** [getTokenSilent] (lines 164-171) *)
Definition getTokenSilent (br : Browser) : Eff Trace (option jsstring) :=
  emit (GetAuthToken false) ;;;
  match authToken br with
  | Some (c :: tk) => if lastError br then ret None else ret (Some (c :: tk))
  | _ => ret None
  end.

Definition prompt (product : Content.ProductRecord) : jsstring :=
  js "Analyze this product: " ++ dq ++ Content.title product ++ dq
  ++ js " priced at $" ++ Content.price product
  ++ js " from " ++ Content.url product ++ js "." ++ [nl; nl]
  ++ js "Provide 3-5 actionable shopping suggestions:" ++ [nl]
  ++ js "- Better or cheaper alternatives" ++ [nl]
  ++ js "- Where to buy (specific stores/sites)" ++ [nl]
  ++ js "- Estimated prices" ++ [nl]
  ++ js "- Why each alternative is better" ++ [nl; nl]
  ++ js "Keep suggestions concise, helpful, and unbiased. Format as a numbered list.".

(** [data?.candidates?.[0]?.content?.parts?.[0]?.text] *)
Definition candidateText (data : value) : value :=
  opt (opt (opt (opt (opt (opt data (Name (js "candidates"))) (Index 0))
                     (Name (js "content")))
                (Name (js "parts")))
           (Index 0))
      (Name (js "text")).

Definition notSignedIn : jsstring :=
  js "Not signed in. Please sign in with Google to enable AI suggestions.".

Definition unexpectedFormat : jsstring := js "Unexpected API response format".

(** The request of lines 137-151. *)
Definition request (token : jsstring) (product : Content.ProductRecord)
  : Request :=
  {| req_url := endpoint;
     req_method := js "POST";
     req_headers :=
       [ (js "Content-Type", js "application/json");
         (js "Authorization", js "Bearer " ++ token) ];
     req_body := generateContent (prompt product) 500 |}.

(** [handleAnalyze] (lines 130-162) *)
Definition handleAnalyze (br : Browser) (product : Content.ProductRecord)
  : Eff Trace jsstring :=
  token <- getTokenSilent br ;;
  match token with
  | Some (c :: tk) =>
      let req := request (c :: tk) product in
      emit (Fetch req) ;;;
      resp <- lift (fetch br req) ;;
      if negb (ok resp) then
        text <- lift (bodyText resp) ;;
        throw (js "API error " ++ digits_of (status resp) ++ js ": " ++ text)
      else
        data <- lift (bodyJson resp) ;;
        let text := candidateText data in
        if negb (truthy text) then throw unexpectedFormat
        else match text with
             | VStr s => ret (trim s)
             | _ => throw (js "text.trim is not a function")
             end
  | _ => throw notSignedIn
  end.

(** What the listener answers to [analyzeWithAI] (lines 98-101). *)
Inductive Reply : Type :=
| Suggestions (text : jsstring)
| Error (message : jsstring).

Definition onAnalyzeWithAI (br : Browser) (product : Content.ProductRecord)
  : Eff Trace Reply :=
  catch (result <- handleAnalyze br product ;; ret (Suggestions result))
        (fun message => ret (Error message)).

End Background.

(* ================================================================== *)
(** * What the two popup scripts share ([popup.js]) *)
(* ================================================================== *)

Module UI.
Import JS Effects.

(** A product with the time it was viewed:
    [{ ...productData, timestamp: Date.now() }]. *)
Record HistoryEntry : Type := {
  product : Content.ProductRecord;
  timestamp : N
}.

(** What the output panel shows, block by block.  The markup of a
    block is left out: a block is what [renderProduct],
    [renderSuggestions], [showMessage] or [showError] was given. *)
Inductive Fragment : Type :=
| ProductInfo (data : Content.ProductRecord)
| SuggestionList (items : list jsstring)
| Message (msg : jsstring)
| ErrorMessage (msg : jsstring).

Inductive ViewState : Type := initial | loading | results | error.

(** What a popup does to the outside, in the order it does it. *)
Inductive Event : Type :=
| Worker (e : Background.Event)          (* done by the background worker *)
| Post (req : Net.Request)               (* a fetch of the popup's own *)
| StorageSet (hist : list HistoryEntry)  (* chrome.storage.local.set({ hist }) *)
| Announce (msg : jsstring)
| ConsoleError (msg : jsstring)
| Panel (shown : list Fragment).         (* the panel after a write to it *)

Record State : Type := {
  isTrackingEnabled : bool;
  history : list HistoryEntry;
  currentState : ViewState;
  outputDiv : list Fragment;               (* outputDiv.innerHTML *)
  busy : bool;                             (* spinner shown, button disabled *)
  trace : list Event
}.

Definition with_history (h : list HistoryEntry) (st : State) : State :=
  {| isTrackingEnabled := isTrackingEnabled st; history := h;
     currentState := currentState st; outputDiv := outputDiv st;
     busy := busy st; trace := trace st |}.

Definition with_currentState (v : ViewState) (st : State) : State :=
  {| isTrackingEnabled := isTrackingEnabled st; history := history st;
     currentState := v; outputDiv := outputDiv st;
     busy := busy st; trace := trace st |}.

Definition with_busy (b : bool) (st : State) : State :=
  {| isTrackingEnabled := isTrackingEnabled st; history := history st;
     currentState := currentState st; outputDiv := outputDiv st;
     busy := b; trace := trace st |}.

Definition with_output (o : list Fragment) (st : State) : State :=
  {| isTrackingEnabled := isTrackingEnabled st; history := history st;
     currentState := currentState st; outputDiv := o;
     busy := busy st; trace := trace st ++ [Panel o] |}.

Definition with_event (e : Event) (st : State) : State :=
  {| isTrackingEnabled := isTrackingEnabled st; history := history st;
     currentState := currentState st; outputDiv := outputDiv st;
     busy := busy st; trace := trace st ++ [e] |}.

Definition emit (e : Event) : Eff State unit := modify (with_event e).

(** [outputDiv.innerHTML = ...] and [outputDiv.innerHTML += ...] *)
Definition setOutput (o : list Fragment) : Eff State unit :=
  modify (with_output o).
Definition appendOutput (f : Fragment) : Eff State unit :=
  modify (fun st => with_output (outputDiv st ++ [f]) st).

Definition showLoading (show : bool) : Eff State unit := modify (with_busy show).
Definition showMessage (msg : jsstring) : Eff State unit := setOutput [Message msg].
Definition showError (msg : jsstring) : Eff State unit :=
  setOutput [ErrorMessage msg].
Definition renderProduct (data : Content.ProductRecord) : Eff State unit :=
  appendOutput (ProductInfo data).

(** [a.unshift(x)] and [a.splice(n)], as the array they leave. *)
Definition unshift {A} (x : A) (a : list A) : list A := x :: a.
Definition splice {A} (n : nat) (a : list A) : list A := firstn n a.

(** A tab as the popup meets it: its id, if it has one, and the page
    the content script runs in, if it runs there. *)
Record Tab : Type := {
  tab_id : option N;
  tab_page : option Content.Page
}.

(** What the browser answers during one click on Analyze. *)
Record Env : Type := {
  tabsQuery : Res (list Tab);       (* chrome.tabs.query({ active, currentWindow }) *)
  now : N;                          (* Date.now() *)
  storageSet : Res unit;            (* outcome of chrome.storage.local.set *)
  location : jsstring               (* window.location.href of the popup *)
}.

(** [const [tab] = await chrome.tabs.query(...)] followed by the test
    of [tab.id]. *)
Definition activeTab (env : Env) (noTab : jsstring) : Eff State (N * Tab) :=
  bind (lift (tabsQuery env)) (fun tabs =>
  match tabs with
  | [] => throw (js "Cannot read properties of undefined (reading 'id')")
  | tab :: _ =>
      match tab_id tab with
      | Some id => if N.eqb id 0 then throw noTab else ret (id, tab)
      | None => throw noTab
      end
  end).

(** [chrome.tabs.sendMessage(tab.id, { action: 'extractProduct' })] *)
Definition requestExtraction (tab : Tab) : Eff State (option Content.ProductRecord) :=
  match tab_page tab with
  | None =>
      throw (js "Could not establish connection. Receiving end does not exist.")
  | Some pg =>
      match Content.onMessage pg (js "extractProduct") with
      | Ok (Some response) => ret response
      | Ok None => ret None
      | Throw _ =>
          throw (js "The message port closed before a response was received.")
      end
  end.

(** The history step of [analyzeProduct] (lines 177-181 and 457-461). *)
Definition logHistory (env : Env) (productData : Content.ProductRecord)
  : Eff State unit :=
  bind get (fun st =>
  when (isTrackingEnabled st)
    (bind (modify (fun st =>
             with_history
               (splice 50 (unshift {| product := productData;
                                      timestamp := now env |} (history st))) st))
       (fun _ =>
     bind get (fun st' =>
     bind (emit (StorageSet (history st'))) (fun _ =>
     lift (storageSet env)))))).

End UI.

(* ================================================================== *)
(** * The accessible popup ([popup.js], 1-374) *)
(* ================================================================== *)

Module Popup.
Import JS Effects UI.

#[local] Notation "x <- m ;; k" := (bind m (fun x => k))
  (at level 61, m at next level, right associativity).
#[local] Notation "m ;;; k" := (bind m (fun _ => k))
  (at level 61, right associativity).

(** One click on Analyze.  [GEMINI_API_KEY] is read by the script but
    declared outside it: it is an input here.  [runtimeLastError] is
    [chrome.runtime.lastError] in the callback of the message to the
    worker. *)
Record World : Type := {
  env : Env;
  GEMINI_API_KEY : jsstring;
  runtimeLastError : option jsstring;
  worker : Background.Browser
}.

Definition announceToScreenReader (msg : jsstring) : Eff State unit :=
  emit (Announce msg).

(** [/^\d+\./] and [/^[-•*]/] *)
Definition is_bullet (c : cu) : bool :=
  ((c =? 45) || (c =? 8226) || (c =? 42))%N.
Definition numberedRe : regex := Cat Bol (Cat (Plus is_digit) (Cls is_period)).
Definition bulletRe : regex := Cat Bol (Cls is_bullet).

(** The lines [renderSuggestions] shows (lines 298-301). *)
Definition suggestionLines (text : jsstring) : list jsstring :=
  let lines := filter (fun line => nonempty (trim line)) (split_lines text) in
  filter (fun line =>
            test numberedRe (trim line) || test bulletRe (trim line)
            || (10 <? length line))
         lines.

(** [renderSuggestions] (lines 296-310) *)
Definition renderSuggestions (text : jsstring) : Eff State unit :=
  appendOutput (SuggestionList (suggestionLines text)).

(** [getDemoSuggestions] (lines 339-345) *)
Definition getDemoSuggestions : jsstring :=
  js "1. Check eBay for similar items - Often 20-30% cheaper" ++ [nl]
  ++ js "2. Wait for Amazon Prime Day - Significant discounts expected" ++ [nl]
  ++ js "3. Compare at Walmart.com - Price match guarantee available" ++ [nl]
  ++ js "4. Consider refurbished options - Save 40% with warranty" ++ [nl]
  ++ js "5. Check CamelCamelCamel for price history - Buy at optimal time".

(** [callBackgroundAI] (lines 218-227): the worker handles the message
    unless the runtime reports an error. *)
Definition callBackgroundAI (w : World) (product : Content.ProductRecord)
  : Eff State jsstring :=
  match runtimeLastError w with
  | Some message => throw message
  | None =>
      let '(reply, events) := Background.onAnalyzeWithAI (worker w) product [] in
      modify (fun st => fold_left (fun s e => with_event (Worker e) s) events st) ;;;
      match reply with
      | Throw _ => throw (js "No response from background")
      | Ok (Background.Error (c :: m)) => throw (c :: m)
      | Ok (Background.Error []) => ret []
      | Ok (Background.Suggestions text) => ret text
      end
  end.

Definition demoProduct (w : World) : Content.ProductRecord :=
  {| Content.title := js "Demo Product (API Error)";
     Content.price := js "29.99";
     Content.image := [];
     Content.url := location (env w) |}.

Definition demoNotice : jsstring :=
  [9888%N; 65039%N] ++ js " Using demo mode. Check your API key configuration.".

Definition noProduct : jsstring :=
  js "No product detected. Try an e-commerce site like Amazon, eBay, or Walmart.".

(** The [try] block of [analyzeProduct] (lines 159-191) *)
Definition analyzeTry (w : World) : Eff State unit :=
  when (negb (nonempty (GEMINI_API_KEY w))
        || negb (startsWith (GEMINI_API_KEY w) (js "AIza")))
       (throw (js "API key not configured. Please check your .env file.")) ;;;
  t <- activeTab (env w) (js "No active tab found.") ;;
  productData <- requestExtraction (snd t) ;;
  match productData with
  | None => throw noProduct
  | Some data =>
      if negb (nonempty (Content.title data)) then throw noProduct
      else
        logHistory (env w) data ;;;
        suggestions <- callBackgroundAI w data ;;
        modify (with_currentState results) ;;;
        renderProduct data ;;;
        renderSuggestions suggestions ;;;
        showLoading false ;;;
        announceToScreenReader (js "Analysis complete")
  end.

(** The [catch] block of [analyzeProduct] (lines 193-212) *)
Definition analyzeCatch (w : World) (message : jsstring) : Eff State unit :=
  modify (with_currentState error) ;;;
  emit (ConsoleError message) ;;;
  (if includes message (js "API key") || includes message (js "API error")
   then
     renderProduct (demoProduct w) ;;;
     renderSuggestions getDemoSuggestions ;;;
     showMessage demoNotice
   else showError (js "Analysis failed: " ++ message)) ;;;
  showLoading false ;;;
  announceToScreenReader (js "Analysis failed").

(** [analyzeProduct] (lines 153-213) *)
Definition analyzeProduct (w : World) : Eff State unit :=
  modify (with_currentState loading) ;;;
  showLoading true ;;;
  setOutput [] ;;;
  announceToScreenReader (js "Analyzing product") ;;;
  catch (analyzeTry w) (analyzeCatch w).

End Popup.

(* ================================================================== *)
(** * The popup with the hard-coded key ([popup.js], 375-584) *)
(* ================================================================== *)

Module PopupDemo.
Import JS Effects Net UI.

#[local] Notation "x <- m ;; k" := (bind m (fun x => k))
  (at level 61, m at next level, right associativity).
#[local] Notation "m ;;; k" := (bind m (fun _ => k))
  (at level 61, right associativity).

(** One click on Analyze; this popup issues the request itself. *)
Record World : Type := {
  env : Env;
  fetch : Request -> Res Response
}.

Definition apiKey : jsstring := js "AIzaYourFreeGeminiKeyFromEnvHere".

(** [renderSuggestions] (lines 542-546) *)
Definition suggestionLines (text : jsstring) : list jsstring :=
  filter (fun line => nonempty (trim line) && negb (startsWith line (js "-")))
         (split_lines text).

Definition renderSuggestions (text : jsstring) : Eff State unit :=
  appendOutput (SuggestionList (suggestionLines text)).

Definition prompt (product : Content.ProductRecord) : jsstring :=
  js "Analyze this product: " ++ dq ++ Content.title product ++ dq
  ++ js " for $" ++ Content.price product
  ++ js " at " ++ Content.url product ++ js "." ++ [nl]
  ++ js "  Suggest 3-5 better or cheaper alternatives (include why, est. price, where to buy). Keep concise, helpful, unbiased.".

Definition unexpectedResponse : jsstring :=
  js "Unexpected API response" ++ [8212%N] ++ js "try a fresh key.".

(** [data.candidates[0]?.content?.parts[0]?.text], for a [data] whose
    [candidates] is truthy. *)
Definition candidateText (data : value) : Res value :=
  rbind (prop data (Name (js "candidates"))) (fun candidates =>
  rbind (prop candidates (Index 0)) (fun first =>
  if nullish first then Ok VUndef
  else
    let content := member first (Name (js "content")) in
    if nullish content then Ok VUndef
    else
      rbind (prop (member content (Name (js "parts"))) (Index 0)) (fun part =>
      Ok (opt part (Name (js "text")))))).

(** The request of lines 492-509. *)
Definition request (product : Content.ProductRecord) : Request :=
  {| req_url := endpoint ++ js "?key=" ++ apiKey;
     req_method := js "POST";
     req_headers := [ (js "Content-Type", js "application/json") ];
     req_body := generateContent (prompt product) 300 |}.

(** [callGeminiAPI] (lines 487-522) *)
Definition callGeminiAPI (w : World) (product : Content.ProductRecord)
  : Eff State jsstring :=
  let req := request product in
  emit (Post req) ;;;
  response <- lift (fetch w req) ;;
  if negb (ok response) then
    errText <- lift (bodyText response) ;;
    throw (js "API error: " ++ digits_of (status response) ++ js " (" ++ errText
           ++ js ") - Check key/limits at aistudio.google.com")
  else
    data <- lift (bodyJson response) ;;
    candidates <- lift (prop data (Name (js "candidates"))) ;;
    if negb (truthy candidates) then throw unexpectedResponse
    else
      text <- lift (candidateText data) ;;
      if negb (truthy text) then throw unexpectedResponse
      else match text with
           | VStr s => ret (trim s)
           | _ =>
               throw (js "data.candidates[0].content.parts[0].text.trim is not a function")
           end.

Definition demoProduct (w : World) : Content.ProductRecord :=
  {| Content.title := js "Demo Product";
     Content.price := js "N/A";
     Content.image := [];
     Content.url := location (env w) |}.

Definition demoSuggestions : jsstring :=
  js "Demo Suggestion 1: Cheaper alt on eBay for $15 (better reviews)." ++ [nl]
  ++ js "Demo Suggestion 2: Similar on Walmart, save 20% with bundle.".

Definition noProduct : jsstring :=
  js "No product detected on this page. Try an e-commerce site like Amazon.".

(** The [try] block of [analyzeProduct] (lines 439-470) *)
Definition analyzeTry (w : World) : Eff State unit :=
  when (negb (nonempty apiKey) || negb (startsWith apiKey (js "AIza")))
       (throw (js "Demo mode: API key not set" ++ [8212%N]
               ++ js "using mock suggestions. (Check popup.js for .env swap.)")) ;;;
  t <- activeTab (env w) (js "No active tab found.") ;;
  productData <- requestExtraction (snd t) ;;
  match productData with
  | None => throw noProduct
  | Some data =>
      if negb (nonempty (Content.title data)) then throw noProduct
      else
        logHistory (env w) data ;;;
        suggestions <- callGeminiAPI w data ;;
        renderProduct data ;;;
        renderSuggestions suggestions ;;;
        showLoading false
  end.

(** The [catch] block of [analyzeProduct] (lines 471-480) *)
Definition analyzeCatch (w : World) (message : jsstring) : Eff State unit :=
  (if includes message (js "Demo mode") || includes message (js "API error")
   then
     renderProduct (demoProduct w) ;;;
     renderSuggestions demoSuggestions
   else showError (js "Analysis failed: " ++ message)) ;;;
  showLoading false.

(** [analyzeProduct] (lines 435-481) *)
Definition analyzeProduct (w : World) : Eff State unit :=
  showLoading true ;;;
  setOutput [] ;;;
  catch (analyzeTry w) (analyzeCatch w).

End PopupDemo.

(* ================================================================== *)
(** * Properties *)
(* ================================================================== *)

Module Spec.
Import JS Effects Net UI.

(** ** Prices *)

(** What the cleaning of a price keeps. *)
Definition kept_in_price (c : cu) : bool := is_digit c || is_period c.

Fixpoint takeWhile (p : cu -> bool) (s : jsstring) : jsstring :=
  match s with
  | [] => []
  | c :: s' => if p c then c :: takeWhile p s' else []
  end.

Fixpoint take_upto (n : nat) (p : cu -> bool) (s : jsstring) : jsstring :=
  match n, s with
  | S n', c :: s' => if p c then c :: take_upto n' p s' else []
  | _, _ => []
  end.

Fixpoint drop_upto (n : nat) (p : cu -> bool) (s : jsstring) : jsstring :=
  match n, s with
  | S n', c :: s' => if p c then drop_upto n' p s' else s
  | _, _ => s
  end.

(** A match of [/\$[\d,]+\.?\d{0,2}/], as the pattern is written: the
    dollar sign, one or more characters each a digit or a comma in any
    mix, an optional period, at most two digits.  No digit is asked
    for: "$," is one, and so are "$1." and "$1.5". *)
Definition price_shaped (m : jsstring) : Prop :=
  exists ds dot frac,
    m = 36%N :: ds ++ dot ++ frac
    /\ ds <> [] /\ forallb Content.is_digit_or_comma ds = true
    /\ (dot = [] \/ dot = [46%N])
    /\ length frac <= 2 /\ forallb is_digit frac = true.

Definition has_price (t : jsstring) : Prop :=
  exists a m z, t = a ++ m ++ z /\ price_shaped m.

(** [m] is a currency amount of [t], none starts before it, and none
    that starts where it starts is longer. *)
Definition first_price (t m : jsstring) : Prop :=
  exists a z,
    t = a ++ m ++ z /\ price_shaped m
    /\ (forall a' m' z', t = a' ++ m' ++ z' -> price_shaped m' ->
                         length a <= length a')
    /\ (forall m' z', m ++ z = m' ++ z' -> price_shaped m' ->
                      length m' <= length m).

(** The currency pattern in the words of the specification: the
    symbol, digits with optional thousands separators, an optional
    fraction of two decimals.  The reading is the widest one: the
    digits open with a digit and separators may stand anywhere after
    it. *)
Definition claimed_amount (m : jsstring) : Prop :=
  exists d ds frac,
    m = 36%N :: d :: ds ++ frac
    /\ is_digit d = true /\ forallb Content.is_digit_or_comma ds = true
    /\ (frac = []
        \/ exists d1 d2,
             frac = [46%N; d1; d2]
             /\ is_digit d1 = true /\ is_digit d2 = true).

(** Document order: the text nodes under a node, each subtree before
    its following siblings. *)
Inductive doc_order : Content.Node -> list jsstring -> Prop :=
| order_text d : doc_order (Content.Text d) [d]
| order_elem cs l : doc_order_all cs l -> doc_order (Content.Elem cs) l
with doc_order_all : list Content.Node -> list jsstring -> Prop :=
| order_none : doc_order_all [] []
| order_next c cs a b :
    doc_order c a -> doc_order_all cs b -> doc_order_all (c :: cs) (a ++ b).

(** The string holds a dollar sign with a digit right after it, as
    every amount in the words of the specification does. *)
Fixpoint dollar_then_digit (s : jsstring) : bool :=
  match s with
  | c :: (d :: _) as r => (is_dollar c && is_digit d) || dollar_then_digit r
  | _ => false
  end.

(** What the matcher leaves of a string that opens with an amount. *)
Definition price_rest (s : jsstring) : option jsstring :=
  match s with
  | c :: d :: s2 =>
      if is_dollar c && Content.is_digit_or_comma d
      then Some (drop_upto 2 is_digit
                   (drop_upto 1 is_period
                      (dropWhile Content.is_digit_or_comma s2)))
      else None
  | _ => None
  end.

(** ** Suggestion lines *)

(** A line that opens with one or more digits and a period. *)
Definition starts_numbered (s : jsstring) : Prop :=
  exists ds rest,
    s = ds ++ 46%N :: rest /\ ds <> [] /\ forallb is_digit ds = true.

(** A line that opens with one of the glyphs of [/^[-•*]/]. *)
Definition starts_bullet (s : jsstring) : Prop :=
  exists c rest, s = c :: rest /\ (c = 45%N \/ c = 8226%N \/ c = 42%N).

(** A line that looks like a list item once trimmed, or is longer than
    ten code units as it stands. *)
Definition listed (line : jsstring) : Prop :=
  starts_numbered (trim line) \/ starts_bullet (trim line) \/ 10 < length line.

Definition after_period (s : jsstring) : option jsstring :=
  match s with
  | c :: r => if is_period c then Some r else None
  | [] => None
  end.

Definition numbered (s : jsstring) : bool :=
  match s with
  | c :: s' =>
      is_digit c &&
      match after_period (dropWhile is_digit s') with
      | Some _ => true
      | None => false
      end
  | [] => false
  end.

(** The two filters of the accessible popup, as one test. *)
Definition kept_line (line : jsstring) : bool :=
  nonempty (trim line)
  && (test Popup.numberedRe (trim line) || test Popup.bulletRe (trim line)
      || (10 <? length line)).

(** The filter of the popup with the hard-coded key. *)
Definition demo_kept_line (line : jsstring) : bool :=
  nonempty (trim line) && negb (startsWith line (js "-")).

Fixpoint join_lines (ls : list jsstring) : jsstring :=
  match ls with
  | [] => []
  | [l] => l
  | l :: ls' => l ++ nl :: join_lines ls'
  end.

(** ** The suggestion service *)

(** No character that [trim] strips at either end. *)
Definition trimmed (s : jsstring) : Prop :=
  (forall c rest, s = c :: rest -> is_trimmed_char c = false)
  /\ (forall c init, s = init ++ [c] -> is_trimmed_char c = false).

(** The success shape of the endpoint,
    [{candidates: [{content: {parts: [{text}]}}]}], with [text] the
    first candidate's text; other fields, candidates and parts may be
    present. *)
Definition candidate_shape (data : value) (text : jsstring) : Prop :=
  exists top cand cands content part parts,
    data = VObj top
    /\ lookup top (js "candidates") = VArr (VObj cand :: cands)
    /\ lookup cand (js "content") = VObj content
    /\ lookup content (js "parts") = VArr (VObj part :: parts)
    /\ lookup part (js "text") = VStr text.

(** The identity lookup hands the worker a token. *)
Definition signed_in (br : Background.Browser) (token : jsstring) : Prop :=
  Background.authToken br = Some token /\ token <> []
  /\ Background.lastError br = false.

(** The message of the error raised for a refusal, in each script. *)
Definition api_error (code : N) (body : jsstring) : jsstring :=
  js "API error " ++ digits_of code ++ js ": " ++ body.

Definition demo_api_error (code : N) (body : jsstring) : jsstring :=
  js "API error: " ++ digits_of code ++ js " (" ++ body
  ++ js ") - Check key/limits at aistudio.google.com".

(** The endpoint answers the worker's request with a status outside
    200-299 and the body [body]. *)
Definition endpoint_refuses (br : Background.Browser)
  (data : Content.ProductRecord) (code : N) (body : jsstring) : Prop :=
  exists token resp,
    signed_in br token
    /\ Background.fetch br (Background.request token data) = Ok resp
    /\ ok resp = false /\ status resp = code /\ bodyText resp = Ok body.

Definition demo_refuses (w : PopupDemo.World)
  (data : Content.ProductRecord) (code : N) (body : jsstring) : Prop :=
  exists resp,
    PopupDemo.fetch w (PopupDemo.request data) = Ok resp
    /\ ok resp = false /\ status resp = code /\ bodyText resp = Ok body.

(** ** The popups *)

(** The active tab runs the content script on a page where it finds
    the product [data]. *)
Definition shows_product (env : Env) (data : Content.ProductRecord) : Prop :=
  exists tab rest id pg,
    tabsQuery env = Ok (tab :: rest)
    /\ tab_id tab = Some id /\ id <> 0%N
    /\ tab_page tab = Some pg
    /\ Content.extractProduct pg = Ok (Some data).

(** The entry a click logs. *)
Definition entry (env : Env) (data : Content.ProductRecord) : HistoryEntry :=
  {| product := data; timestamp := now env |}.

(** One click leaves the history alone or, with tracking enabled, puts
    one entry in front of its first 49 entries. *)
Definition logs_at_most_one (env : Env) (st st' : State) : Prop :=
  isTrackingEnabled st' = isTrackingEnabled st
  /\ (history st' = history st
      \/ (isTrackingEnabled st = true
          /\ exists data, history st' = entry env data :: firstn 49 (history st))).

(** A computation that leaves the history and the tracking flag alone. *)
Definition Keeps {A} (m : Eff State A) : Prop :=
  forall st, history (snd (m st)) = history st
             /\ isTrackingEnabled (snd (m st)) = isTrackingEnabled st.

(** A computation that logs at most one entry. *)
Definition Logs {A} (env : Env) (m : Eff State A) : Prop :=
  forall st, logs_at_most_one env st (snd (m st)).

(** The key the accessible popup was given passes its check. *)
Definition key_configured (w : Popup.World) : Prop :=
  Popup.GEMINI_API_KEY w <> []
  /\ startsWith (Popup.GEMINI_API_KEY w) (js "AIza") = true.

(** A sequence of clicks on Analyze, each with what the browser
    answers during it. *)
Definition clicks (ws : list Popup.World) (st : State) : State :=
  fold_left (fun s w => snd (Popup.analyzeProduct w s)) ws st.

Definition demo_clicks (ws : list PopupDemo.World) (st : State) : State :=
  fold_left (fun s w => snd (PopupDemo.analyzeProduct w s)) ws st.

(** The state in which the [try] block of [analyzeProduct] starts. *)
Definition started (st : State) : State :=
  with_event (Announce (js "Analyzing product"))
    (with_output [] (with_busy true (with_currentState loading st))).

Definition demo_started (st : State) : State :=
  with_output [] (with_busy true st).

(** The click gets as far as the worker's answer about [data]. *)
Definition asks_worker (w : Popup.World) (st : State)
  (data : Content.ProductRecord) : Prop :=
  key_configured w
  /\ shows_product (Popup.env w) data
  /\ (isTrackingEnabled st = true -> storageSet (Popup.env w) = Ok tt)
  /\ Popup.runtimeLastError w = None.

(** The click gets as far as the request about [data]. *)
Definition asks_endpoint (w : PopupDemo.World) (st : State)
  (data : Content.ProductRecord) : Prop :=
  shows_product (PopupDemo.env w) data
  /\ (isTrackingEnabled st = true -> storageSet (PopupDemo.env w) = Ok tt).

(** The demo product followed by the demo suggestions, in each popup. *)
Definition fallback_panel (w : Popup.World) : list Fragment :=
  [ProductInfo (Popup.demoProduct w);
   SuggestionList (Popup.suggestionLines Popup.getDemoSuggestions)].

Definition demo_panel (w : PopupDemo.World) : list Fragment :=
  [ProductInfo (PopupDemo.demoProduct w);
   SuggestionList (PopupDemo.suggestionLines PopupDemo.demoSuggestions)].

(** The panel showed the demo product followed by the demo
    suggestions at some point of the run. *)
Definition showed_demo (w : Popup.World) (st : State) : Prop :=
  In (Panel (fallback_panel w)) (trace st).

End Spec.

(* ================================================================== *)
(** * A sample page and sample runs *)
(* ================================================================== *)

Module Sample.
Import JS Net UI.

Definition heading : Content.Element :=
  {| Content.innerText := Some (js "  Acme Widget ");
     Content.src := None;
     Content.content := None |}.

Definition page : Content.Page :=
  {| Content.href := js "https://shop.example/item/42";
     Content.doc_title := js "Acme Widget - Example Shop";
     Content.querySelector := fun sel =>
       if startsWith sel (js "h1, ") then Ok (Some heading) else Ok None;
     Content.body :=
       Some (Content.Elem
               [ Content.Elem [Content.Text (js "Acme Widget")];
                 Content.Text (js "Now only $1,234.56 (was $1,500)") ]) |}.

(** A page whose first text node holds a dollar sign and a comma, and
    whose second holds an amount. *)
Definition commaPage : Content.Page :=
  {| Content.href := js "https://shop.example/item/43";
     Content.doc_title := js "Acme Widget";
     Content.querySelector := fun sel =>
       if startsWith sel (js "h1, ") then Ok (Some heading) else Ok None;
     Content.body :=
       Some (Content.Elem
               [ Content.Elem [Content.Text (js "Save $, today")];
                 Content.Text (js "Now $5.00") ]) |}.

(** A page whose every query raises. *)
Definition brokenPage : Content.Page :=
  {| Content.href := js "https://shop.example/item/42";
     Content.doc_title := js "Acme Widget";
     Content.querySelector := fun _ => Throw (js "Illegal invocation");
     Content.body := None |}.

Definition widget : Content.ProductRecord :=
  {| Content.title := js "Acme Widget";
     Content.price := js "1234.56";
     Content.image := [];
     Content.url := js "https://shop.example/item/42" |}.

Definition env : Env :=
  {| tabsQuery := Ok [ {| tab_id := Some 7%N; tab_page := Some page |} ];
     now := 1700000000000%N;
     storageSet := Ok tt;
     location := js "chrome-extension://easy-shop/popup.html" |}.

Definition fresh : State :=
  {| isTrackingEnabled := true; history := []; currentState := initial;
     outputDiv := []; busy := false; trace := [] |}.

Definition tooManyRequests : Response :=
  {| status := 429%N;
     bodyText := Ok (js "quota exceeded");
     bodyJson := Throw (js "Unexpected token q in JSON at position 0") |}.

Definition answer (text : jsstring) : Response :=
  {| status := 200%N;
     bodyText := Ok [];
     bodyJson :=
       Ok (VObj [ (js "candidates",
                   VArr [ VObj [ (js "content",
                     VObj [ (js "parts",
                             VArr [ VObj [ (js "text", VStr text) ] ]) ]) ] ]) ]) |}.

Definition twoItems : jsstring := js "1. Try X" ++ [nl] ++ js "2. Try Y".

Definition signedOut : Background.Browser :=
  {| Background.authToken := None;
     Background.lastError := true;
     Background.fetch := fun _ => Ok (answer twoItems) |}.

Definition signedIn (resp : Response) : Background.Browser :=
  {| Background.authToken := Some (js "ya29.sample");
     Background.lastError := false;
     Background.fetch := fun _ => Ok resp |}.

Definition world (br : Background.Browser) : Popup.World :=
  {| Popup.env := env;
     Popup.GEMINI_API_KEY := js "AIzaSample";
     Popup.runtimeLastError := None;
     Popup.worker := br |}.

Definition demoWorld (resp : Response) : PopupDemo.World :=
  {| PopupDemo.env := env;
     PopupDemo.fetch := fun _ => Ok resp |}.

End Sample.

(* ================================================================== *)
(** * The worker's message listener ([content.js], 97-128) *)
(* ================================================================== *)

Module Worker.
Import JS Effects Net.

(** What the interactive [getAuthToken] hands its callback: the token,
    and the message of [chrome.runtime.lastError] when it is set. *)
Record Consent : Type := {
  granted : option jsstring;
  refusal : option jsstring
}.

(** The browser of the worker: the answers to the silent lookup and to
    requests, and the answer to the interactive lookup. *)
Record Chrome : Type := {
  silent : Background.Browser;
  consent : Consent
}.

(** What the listener does to the outside. *)
Inductive Call : Type :=
| Did (e : Background.Event)
| RemoveCachedAuthToken (token : jsstring).

(** What the listener passes to [sendResponse]. *)
Inductive Response : Type :=
| Analysis (reply : Background.Reply)      (* { suggestions } or { error } *)
| SignInResult (success : bool) (error : option jsstring)
| SignOutResult (success : bool)
| SignedIn (signed : bool).                (* { signed } *)

(** The branch for [signIn] (lines 103-109). *)
Definition signIn (c : Chrome) : list Call * Response :=
  ([Did (Background.GetAuthToken true)],
   match refusal (consent c), granted (consent c) with
   | None, Some (_ :: _) => SignInResult true None
   | _, _ => SignInResult false (refusal (consent c))
   end).

(** The branch for [signOut] (lines 111-119). *)
Definition signOut (c : Chrome) : list Call * Response :=
  match Background.lastError (silent c), Background.authToken (silent c) with
  | false, Some (ch :: tk) =>
      ([Did (Background.GetAuthToken false); RemoveCachedAuthToken (ch :: tk)],
       SignOutResult true)
  | _, _ => ([Did (Background.GetAuthToken false)], SignOutResult true)
  end.

(** The branch for [isSignedIn] (lines 121-127):
    [!!token && !chrome.runtime.lastError]. *)
Definition isSignedIn (c : Chrome) : list Call * Response :=
  ([Did (Background.GetAuthToken false)],
   SignedIn (match Background.authToken (silent c) with
             | Some (_ :: _) => negb (Background.lastError (silent c))
             | _ => false
             end)).

(** The listener: the calls it makes and the response it sends, if
    any, for a message with this [action] and [product]. *)
Definition onMessage (c : Chrome) (action : jsstring)
  (product : Content.ProductRecord) : list Call * option Response :=
  if str_eqb action (js "analyzeWithAI") then
    match Background.onAnalyzeWithAI (silent c) product [] with
    | (Ok reply, events) => (map Did events, Some (Analysis reply))
    | (Throw _, events) => (map Did events, None)
    end
  else if str_eqb action (js "signIn") then
    let '(calls, r) := signIn c in (calls, Some r)
  else if str_eqb action (js "signOut") then
    let '(calls, r) := signOut c in (calls, Some r)
  else if str_eqb action (js "isSignedIn") then
    let '(calls, r) := isSignedIn c in (calls, Some r)
  else ([], None).

End Worker.

(* ================================================================== *)
(** * Escaping and the other views of the popups ([popup.js]) *)
(* ================================================================== *)

Module Markup.
Import JS.

(** How the serialisation of a text node writes one code unit. *)
Definition entity (c : cu) : jsstring :=
  if (c =? 38)%N then js "&amp;"
  else if (c =? 60)%N then js "&lt;"
  else if (c =? 62)%N then js "&gt;"
  else if (c =? 160)%N then js "&nbsp;"
  else [c].

(** [escapeHtml] (lines 367-371): the text becomes the only child of a
    fresh element, and the result is that element's [innerHTML]. *)
Definition escapeHtml (text : jsstring) : jsstring := flat_map entity text.

End Markup.

Module PopupView.
Import JS Effects UI.

(** [resetToInitial] (lines 144-148) *)
Definition resetToInitial : Eff State unit :=
  bind (modify (with_currentState initial)) (fun _ =>
  bind (setOutput []) (fun _ =>
  showLoading false)).

Definition is_initial (v : ViewState) : bool :=
  match v with
  | initial => true
  | _ => false
  end.

(** [handleKeyboardNavigation] (lines 122-126), for the [key] of the
    event. *)
Definition handleKeyboardNavigation (key : jsstring) : Eff State unit :=
  bind get (fun st =>
  if str_eqb key (js "Escape") && negb (is_initial (currentState st))
  then resetToInitial
  else ret tt).

(** What [showHistory] puts in the panel: a message block, or the
    list of recent views with the entries it renders. *)
Inductive HistoryPanel : Type :=
| NoHistory (block : Fragment)
| RecentViews (items : list HistoryEntry).

Definition noHistoryYet : jsstring :=
  js "No history yet" ++ [8212%N] ++ js "browse with tracking enabled!".

(** [showHistory] (lines 315-334) *)
Definition showHistory (st : State) : HistoryPanel :=
  match history st with
  | [] => NoHistory (Message noHistoryYet)
  | _ :: _ => RecentViews (firstn 10 (history st))
  end.

End PopupView.

Module PopupDemoView.
Import JS Effects UI.

Definition noHistoryYet : jsstring :=
  js "No history yet" ++ [8212%N] ++ js "browse with tracking on!".

(** [showHistory] (lines 551-565) *)
Definition showHistory (st : State) : PopupView.HistoryPanel :=
  match history st with
  | [] => PopupView.NoHistory (ErrorMessage noHistoryYet)
  | _ :: _ => PopupView.RecentViews (firstn 10 (history st))
  end.

End PopupDemoView.

Module PopupAuth.
Import JS Effects UI.

#[local] Notation "m ;;; k" := (bind m (fun _ => k))
  (at level 61, right associativity).

(** What [chrome.runtime.sendMessage] hands the popup's callback for a
    message to the worker: nothing when the runtime reports an error,
    else what the worker's listener sent. *)
Definition deliver (c : Worker.Chrome) (lastError : option jsstring)
  (action : jsstring) (product : Content.ProductRecord)
  : option Worker.Response :=
  match lastError with
  | Some _ => None
  | None => snd (Worker.onMessage c action product)
  end.

(** [resp && resp.success] and [resp && resp.signed] *)
Definition success (resp : option Worker.Response) : bool :=
  match resp with
  | Some (Worker.SignInResult b _) => b
  | Some (Worker.SignOutResult b) => b
  | _ => false
  end.

Definition signed (resp : option Worker.Response) : bool :=
  match resp with
  | Some (Worker.SignedIn b) => b
  | _ => false
  end.

(** What [updateAuthStatus] (lines 259-266) shows for the answer to
    [isSignedIn]: the status text and which button is displayed. *)
Record AuthView : Type := {
  authStatus : jsstring;
  signInBtn : bool;
  signOutBtn : bool
}.

Definition updateAuthStatus (resp : option Worker.Response) : AuthView :=
  {| authStatus := if signed resp then js "Signed in" else js "Not signed in";
     signInBtn := negb (signed resp);
     signOutBtn := signed resp |}.

(** The callback of [signIn] (lines 230-246): what it writes to the
    panel and what the promise resolves to.  The refresh of the status
    line is [updateAuthStatus]. *)
Definition signIn (lastError : option jsstring)
  (resp : option Worker.Response) : Eff State bool :=
  match lastError with
  | Some message => showError (js "Sign-in failed: " ++ message) ;;; ret false
  | None =>
      if success resp
      then showMessage (js "Signed in successfully") ;;; ret true
      else showError (js "Sign-in failed") ;;; ret false
  end.

(** The callback of [signOut] (lines 248-257); it refreshes the status
    line first, see [updateAuthStatus]. *)
Definition signOut (resp : option Worker.Response) : Eff State bool :=
  (if success resp then showMessage (js "Signed out")
   else showMessage (js "Signed out (cache cleared)")) ;;;
  ret true.

(** [saveApiKey] (lines 271-276), for the value of the input element
    if there is one: it shows a notice and returns the new
    [GEMINI_API_KEY]. *)
Definition saveApiKey (input : option jsstring) : Eff State jsstring :=
  let val := match input with
             | Some v => trim v
             | None => []
             end in
  showMessage (if nonempty val then js "API key saved locally."
               else js "API key cleared.") ;;;
  ret val.

(** The world of a click once [GEMINI_API_KEY] holds [key]. *)
Definition with_key (key : jsstring) (w : Popup.World) : Popup.World :=
  {| Popup.env := Popup.env w;
     Popup.GEMINI_API_KEY := key;
     Popup.runtimeLastError := Popup.runtimeLastError w;
     Popup.worker := Popup.worker w |}.

End PopupAuth.

(* ================================================================== *)
(** * Further properties and samples *)
(* ================================================================== *)

Module Props.
Import JS Effects Net UI.

(** ** The extractor *)

(** A run of digits that may be empty, then nothing more or a period
    with at most two digits: "19.99" and "1500", and also "." and
    ".5". *)
Definition digits_then_fraction (p : jsstring) : Prop :=
  exists ds frac,
    p = ds ++ frac /\ forallb is_digit ds = true
    /\ (frac = []
        \/ exists fd, frac = 46%N :: fd /\ forallb is_digit fd = true
                      /\ length fd <= 2).

(** The page is of none of the three sites the extractor knows. *)
Definition unknown_site (pg : Content.Page) : Prop :=
  includes (Content.href pg) (js "amazon.com") = false
  /\ includes (Content.href pg) (js "ebay.com") = false
  /\ includes (Content.href pg) (js "walmart.com") = false.

(** The separator of [/ - .*$/]. *)
Definition separator : jsstring := js " - ".

Definition no_line_terminator (s : jsstring) : Prop :=
  forallb Content.not_line_terminator s = true.

(** What the matcher leaves of a string that opens with the title
    suffix. *)
Definition suffix_rest (s : jsstring) : option jsstring :=
  match s with
  | a :: b :: c :: r =>
      if is_blank a && is_hyphen b && is_blank c
         && forallb Content.not_line_terminator r
      then Some []
      else None
  | _ => None
  end.

Definition priceSelector : jsstring :=
  js "[data-testid=" ++ dq ++ js "x-price-primary" ++ dq ++ js "]".

(** ** Escaping *)

(** The character a name after an ampersand stands for, with the
    length of the name up to its semicolon. *)
Definition named (r : jsstring) : option (cu * nat) :=
  if startsWith r (js "amp;") then Some (38%N, 4)
  else if startsWith r (js "lt;") then Some (60%N, 3)
  else if startsWith r (js "gt;") then Some (62%N, 3)
  else if startsWith r (js "nbsp;") then Some (160%N, 5)
  else None.

(** Reading a text back from its markup: the four named characters
    are decoded, everything else stands for itself.  [skip] counts the
    code units of a name still to pass. *)
Fixpoint unescape (skip : nat) (s : jsstring) : jsstring :=
  match s with
  | [] => []
  | c :: r =>
      match skip with
      | S k => unescape k r
      | O =>
          if (c =? 38)%N then
            match named r with
            | Some (d, n) => d :: unescape n r
            | None => c :: unescape 0 r
            end
          else c :: unescape 0 r
      end
  end.

(** The code units that open or close a tag. *)
Definition is_angle (c : cu) : bool := ((c =? 60) || (c =? 62))%N.

(** The code units [escapeHtml] leaves as they are. *)
Definition is_plain (c : cu) : bool :=
  negb ((c =? 38) || (c =? 60) || (c =? 62) || (c =? 160))%N.

(** ** The worker's listener *)


(** ** One click, as a sequence of effects *)

(** The events a run from [st] to [st'] added to the trace. *)
Definition new_events (st st' : State) : list Event :=
  skipn (length (trace st)) (trace st').

(** Events that only show something: a write to the panel, an
    announcement, a line on the console. *)
Definition is_display (e : Event) : bool :=
  match e with
  | Announce _ | ConsoleError _ | Panel _ => true
  | _ => false
  end.

(** The state once the events of the worker are on the trace. *)
Definition worker_events (ws : list Background.Event) (st : State) : State :=
  fold_left (fun s e => with_event (Worker e) s) ws st.

(** The active tab runs the content script on a page where it finds
    no product. *)
Definition shows_no_product (env : Env) : Prop :=
  exists tab rest id pg,
    tabsQuery env = Ok (tab :: rest)
    /\ tab_id tab = Some id /\ id <> 0%N
    /\ tab_page tab = Some pg
    /\ Content.extractProduct pg = Ok None.

(** A 2xx response of the expected shape whose first candidate text is
    [text], not empty. *)
Definition answers (resp : Response) (text : jsstring) : Prop :=
  ok resp = true
  /\ exists data,
       bodyJson resp = Ok data /\ Spec.candidate_shape data text
       /\ text <> [].

(** The key given to the accessible popup fails its check. *)
Definition key_rejected (w : Popup.World) : Prop :=
  Popup.GEMINI_API_KEY w = []
  \/ startsWith (Popup.GEMINI_API_KEY w) (js "AIza") = false.

End Props.

(* ================================================================== *)
(** * Sessions: loading, toggling, clicking, reopening ([popup.js]) *)
(* ================================================================== *)

Module Session.
Import JS Effects UI.

#[local] Notation "m ;;; k" := (bind m (fun _ => k))
  (at level 61, right associativity).

(** What [chrome.storage.local] holds under the two keys both popups
    load and store, each as the popups write it. *)
Record Store : Type := {
  tracking : option bool;
  hist : option (list HistoryEntry)
}.

Definition with_tracking (b : bool) (st : State) : State :=
  {| isTrackingEnabled := b; history := history st;
     currentState := currentState st; outputDiv := outputDiv st;
     busy := busy st; trace := trace st |}.

(** [tracking || false] and [hist || []] *)
Definition loaded_tracking (s : Store) : bool :=
  match tracking s with
  | Some b => b
  | None => false
  end.

Definition loaded_hist (s : Store) : list HistoryEntry :=
  match hist s with
  | Some h => h
  | None => []
  end.

(** The state a popup script starts in (lines 20-22 and 394-395). *)
Definition blank : State :=
  {| isTrackingEnabled := false; history := []; currentState := initial;
     outputDiv := []; busy := false; trace := [] |}.

(** [init] (lines 27-70 and 400-418).  [got] is what
    [chrome.storage.local.get] resolves to; [wiring] is the outcome of
    the statements after the two assignments, which set up the
    document and the listeners. *)
Definition init (got : Res Store) (wiring : Res unit) : Eff State unit :=
  catch (bind (lift got) (fun s =>
         modify (fun st => with_history (loaded_hist s)
                             (with_tracking (loaded_tracking s) st)) ;;;
         lift wiring))
        (fun message => showError (js "Storage load failed: " ++ message)).

Definition trackingEnabled : jsstring :=
  js "Tracking enabled" ++ [8212%N]
  ++ js "your views will inform future suggestions.".

(** [toggleTracking] of the accessible popup (lines 75-85), for the
    state of the checkbox. *)
Definition toggleTracking (checked : bool) : Eff State unit :=
  modify (with_tracking checked) ;;;
  showMessage (if checked then [10003%N] ++ js " " ++ trackingEnabled
               else js "Tracking disabled").

(** [toggleTracking] of the popup with the hard-coded key (lines
    423-430) *)
Definition demoToggleTracking (checked : bool) : Eff State unit :=
  modify (with_tracking checked) ;;;
  when checked (showMessage trackingEnabled).

(** A popup with the storage behind it. *)
Record Session : Type := {
  popup : State;
  stored : Store
}.

(** What happens to a session: a click on Analyze or a change of the
    checkbox in either popup, or the popup being closed and opened
    again.  [saved] tells whether the write of the flag reached the
    storage. *)
Inductive Step : Type :=
| Analyze (w : Popup.World)
| DemoAnalyze (w : PopupDemo.World)
| Toggle (checked saved : bool)
| DemoToggle (checked saved : bool)
| Reopen.

(** The storage after the writes of the history among [evs]. *)
Definition persist (evs : list Event) (s : Store) : Store :=
  fold_left (fun s e =>
               match e with
               | StorageSet h => {| tracking := tracking s; hist := Some h |}
               | _ => s
               end) evs s.

Definition after_click (env : Env) (st st' : State) (s : Store) : Store :=
  match storageSet env with
  | Ok _ => persist (Props.new_events st st') s
  | Throw _ => s
  end.

Definition after_toggle (checked saved : bool) (s : Store) : Store :=
  if saved then {| tracking := Some checked; hist := hist s |} else s.

Definition step (x : Step) (s : Session) : Session :=
  match x with
  | Analyze w =>
      let st' := snd (Popup.analyzeProduct w (popup s)) in
      {| popup := st';
         stored := after_click (Popup.env w) (popup s) st' (stored s) |}
  | DemoAnalyze w =>
      let st' := snd (PopupDemo.analyzeProduct w (popup s)) in
      {| popup := st';
         stored := after_click (PopupDemo.env w) (popup s) st' (stored s) |}
  | Toggle checked saved =>
      {| popup := snd (toggleTracking checked (popup s));
         stored := after_toggle checked saved (stored s) |}
  | DemoToggle checked saved =>
      {| popup := snd (demoToggleTracking checked (popup s));
         stored := after_toggle checked saved (stored s) |}
  | Reopen =>
      {| popup := snd (init (Ok (stored s)) (Ok tt) blank);
         stored := stored s |}
  end.

Definition run (steps : list Step) (s : Session) : Session :=
  fold_left (fun s x => step x s) steps s.

(** Every write of the step reaches the storage. *)
Definition saves (x : Step) : bool :=
  match x with
  | Analyze w =>
      match storageSet (Popup.env w) with Ok _ => true | Throw _ => false end
  | DemoAnalyze w =>
      match storageSet (PopupDemo.env w) with
      | Ok _ => true
      | Throw _ => false
      end
  | Toggle _ saved | DemoToggle _ saved => saved
  | Reopen => true
  end.

(** The popup holds what the storage would load. *)
Definition synced (s : Session) : Prop :=
  isTrackingEnabled (popup s) = loaded_tracking (stored s)
  /\ history (popup s) = loaded_hist (stored s).

End Session.

Module Sample2.
Import JS Net UI.

(** A page of no known site whose text holds a dollar sign followed by
    a comma and a period, and no digit. *)
Definition dotPage : Content.Page :=
  {| Content.href := js "https://shop.example/item/44";
     Content.doc_title := js "Acme Widget";
     Content.querySelector := fun sel =>
       if startsWith sel (js "h1, ") then Ok (Some Sample.heading)
       else Ok None;
     Content.body := Some (Content.Elem [Content.Text (js "from $,. up")]) |}.

(** A product page of the first known site: a title, no price element,
    and an amount in the text of the body. *)
Definition amazonWithoutPrice : Content.Page :=
  {| Content.href := js "https://www.amazon.com/dp/B000000000";
     Content.doc_title := js "Acme Widget";
     Content.querySelector := fun sel =>
       if str_eqb sel (js "#productTitle") then Ok (Some Sample.heading)
       else Ok None;
     Content.body := Some (Content.Elem [Content.Text (js "Only $19.99 today")]) |}.

(** The same site with the price in two fragments, the first ending
    with its own period. *)
Definition amazonPage : Content.Page :=
  {| Content.href := js "https://www.amazon.com/dp/B000000000";
     Content.doc_title := js "Acme Widget";
     Content.querySelector := fun sel =>
       if str_eqb sel (js "#productTitle") then Ok (Some Sample.heading)
       else if str_eqb sel (js ".a-price-whole") then
         Ok (Some {| Content.innerText := Some (js "1,299.");
                     Content.src := None; Content.content := None |})
       else if str_eqb sel (js ".a-price-fraction") then
         Ok (Some {| Content.innerText := Some (js "99");
                     Content.src := None; Content.content := None |})
       else Ok None;
     Content.body := None |}.

(** An entry logged earlier, and a popup whose history is at the cap
    of 50 entries. *)
Definition oldEntry : HistoryEntry :=
  {| product := {| Content.title := js "Old Gadget";
                   Content.price := js "9.99";
                   Content.image := [];
                   Content.url := js "https://shop.example/item/1" |};
     timestamp := 1600000000000%N |}.

Definition crowded : State :=
  {| isTrackingEnabled := true; history := repeat oldEntry 50;
     currentState := initial; outputDiv := []; busy := false; trace := [] |}.

(** The popup with tracking switched off. *)
Definition untracked : State :=
  {| isTrackingEnabled := false; history := []; currentState := initial;
     outputDiv := []; busy := false; trace := [] |}.

(** The active tab shows a page on which every query raises. *)
Definition brokenEnv : Env :=
  {| tabsQuery := Ok [ {| tab_id := Some 7%N;
                          tab_page := Some Sample.brokenPage |} ];
     now := 1700000000000%N;
     storageSet := Ok tt;
     location := js "chrome-extension://easy-shop/popup.html" |}.

(** The storage refuses the write. *)
Definition fullStore : Env :=
  {| tabsQuery := tabsQuery Sample.env;
     now := now Sample.env;
     storageSet := Throw (js "QUOTA_BYTES quota exceeded");
     location := location Sample.env |}.

(** Worlds of the accessible popup: no key; a page without product;
    a storage that refuses. *)
Definition keyless : Popup.World :=
  {| Popup.env := Sample.env;
     Popup.GEMINI_API_KEY := [];
     Popup.runtimeLastError := None;
     Popup.worker := Sample.signedIn (Sample.answer Sample.twoItems) |}.

Definition onBrokenPage : Popup.World :=
  {| Popup.env := brokenEnv;
     Popup.GEMINI_API_KEY := js "AIzaSample";
     Popup.runtimeLastError := None;
     Popup.worker := Sample.signedIn (Sample.answer Sample.twoItems) |}.

Definition onFullStore : Popup.World :=
  {| Popup.env := fullStore;
     Popup.GEMINI_API_KEY := js "AIzaSample";
     Popup.runtimeLastError := None;
     Popup.worker := Sample.signedIn (Sample.answer Sample.twoItems) |}.

End Sample2.

(* ================================================================== *)
(** * Strings and regular expressions: facts *)
(* ================================================================== *)

Module StringFacts.
Import JS Spec.

Lemma nonempty_true (s : jsstring) : s <> [] -> nonempty s = true.
Proof. destruct s; [congruence | reflexivity]. Qed.

Lemma nonempty_iff (s : jsstring) : nonempty s = true <-> s <> [].
Proof. destruct s; cbn; split; congruence. Qed.

Lemma startsWith_app p r : startsWith (p ++ r) p = true.
Proof.
  induction p as [|c p IH]; [now destruct r|]. cbn.
  unfold cu_eqb. now rewrite N.eqb_refl.
Qed.

Lemma includes_unfold s needle :
  includes s needle =
  startsWith s needle
  || match s with [] => false | _ :: s' => includes s' needle end.
Proof. now destruct s. Qed.

Lemma includes_prefix p r : includes (p ++ r) p = true.
Proof. now rewrite includes_unfold, startsWith_app. Qed.

(** ** Global replacement of one character class *)

Lemma matchAt_Cls p bol s :
  matchAt (Cls p) bol s =
  match s with
  | c :: s' => if p c then Some s' else None
  | [] => None
  end.
Proof. reflexivity. Qed.

Lemma replaceAll_from_Cls p fuel bol s :
  length s < fuel ->
  replaceAll_from fuel (Cls p) [] bol s = filter (fun c => negb (p c)) s.
Proof.
  revert bol s. induction fuel as [|fuel IH]; intros bol s Hlen; [lia|].
  destruct s as [|c s']; [reflexivity|].
  simpl in Hlen. cbn [replaceAll_from]. rewrite matchAt_Cls.
  cbn [filter]. destruct (p c); cbn [negb].
  - replace (length s' <? length (c :: s')) with true
      by (symmetry; apply Nat.ltb_lt; simpl; lia).
    cbn [app]. apply IH. lia.
  - f_equal. apply IH. lia.
Qed.

Lemma replaceAll_Cls p s :
  replaceAll (Cls p) [] s = filter (fun c => negb (p c)) s.
Proof. unfold replaceAll. apply replaceAll_from_Cls. lia. Qed.

(** ** Greedy quantifiers before a continuation that cannot fail *)

Lemma star_total p (k : cont) g :
  (forall b r, k b r = Some (g r)) ->
  forall bol s, star p k bol s = Some (g (dropWhile p s)).
Proof.
  intros Hk bol s. revert bol.
  induction s as [|c s IH]; intro bol; cbn [star dropWhile]; [apply Hk|].
  destruct (p c); [|apply Hk]. now rewrite IH.
Qed.

Lemma upto_total n p (k : cont) g :
  (forall b r, k b r = Some (g r)) ->
  forall bol s, upto n p k bol s = Some (g (drop_upto n p s)).
Proof.
  intros Hk. induction n as [|n IH]; intros bol s.
  - destruct s; apply Hk.
  - destruct s as [|c s]; cbn [upto drop_upto]; [apply Hk|].
    destruct (p c); [|apply Hk]. now rewrite IH.
Qed.

Lemma take_drop_while p s : s = takeWhile p s ++ dropWhile p s.
Proof.
  induction s as [|c s IH]; [reflexivity|]. cbn.
  destruct (p c); [cbn; now f_equal | reflexivity].
Qed.

Lemma takeWhile_all p s : forallb p (takeWhile p s) = true.
Proof.
  induction s as [|c s IH]; [reflexivity|]. cbn.
  destruct (p c) eqn:E; [cbn; now rewrite E | reflexivity].
Qed.

Lemma take_drop_upto n p s : s = take_upto n p s ++ drop_upto n p s.
Proof.
  revert s. induction n as [|n IH]; intros [|c s]; try reflexivity.
  cbn. destruct (p c); [cbn; now f_equal | reflexivity].
Qed.

Lemma take_upto_all n p s : forallb p (take_upto n p s) = true.
Proof.
  revert s. induction n as [|n IH]; intros [|c s]; try reflexivity.
  cbn. destruct (p c) eqn:E; [cbn; now rewrite E, IH | reflexivity].
Qed.

Lemma take_upto_length n p s : length (take_upto n p s) <= n.
Proof.
  revert s. induction n as [|n IH]; intros [|c s]; cbn; try lia.
  destruct (p c); cbn; [specialize (IH s) |]; lia.
Qed.

Lemma dropWhile_app_stop p a c z :
  forallb p a = true -> p c = false -> dropWhile p (a ++ c :: z) = c :: z.
Proof.
  induction a as [|x a IH]; cbn; intros Ha Hc.
  - now rewrite Hc.
  - apply andb_prop in Ha as [Hx Ha]. rewrite Hx. now apply IH.
Qed.

Lemma firstn_match (m rest : jsstring) :
  firstn (length (m ++ rest) - length rest) (m ++ rest) = m.
Proof.
  rewrite length_app, Nat.add_sub. rewrite firstn_app, Nat.sub_diag.
  rewrite firstn_all. cbn. apply app_nil_r.
Qed.

(** ** A pattern anchored at the start of the input *)

Lemma matchAt_Bol r bol s :
  matchAt (Cat Bol r) bol s = if bol then matchAt r bol s else None.
Proof. reflexivity. Qed.

Lemma exec_from_Bol_later r s : exec_from (Cat Bol r) false s = None.
Proof.
  induction s as [|c s IH]; cbn [exec_from]; rewrite matchAt_Bol;
    [reflexivity | now rewrite IH].
Qed.

Lemma test_Bol r s :
  test (Cat Bol r) s
  = match matchAt r true s with Some _ => true | None => false end.
Proof.
  unfold test, exec. destruct s as [|c s]; cbn [exec_from];
    rewrite matchAt_Bol; destruct (matchAt r true _); try reflexivity.
  now rewrite exec_from_Bol_later.
Qed.

(** ** Trimming *)

Lemma dropWhile_head p s c rest : dropWhile p s = c :: rest -> p c = false.
Proof.
  induction s as [|x s IH]; cbn; [discriminate|].
  destruct (p x) eqn:E; [exact IH|]. now intros [= <- _].
Qed.

Lemma dropWhile_fixed p s :
  (forall c rest, s = c :: rest -> p c = false) -> dropWhile p s = s.
Proof.
  destruct s as [|c s]; [reflexivity|]. intros H. cbn.
  now rewrite (H c s eq_refl).
Qed.

Lemma dropWhile_suffix p s : exists a, s = a ++ dropWhile p s.
Proof.
  induction s as [|x s (a & IH)]; [now exists []|]. cbn.
  destruct (p x); [|now exists []].
  exists (x :: a). cbn. now f_equal.
Qed.

Lemma trimEnd_last s c init :
  trimEnd s = init ++ [c] -> is_trimmed_char c = false.
Proof.
  unfold trimEnd. intros H. apply (f_equal (@rev cu)) in H.
  rewrite rev_involutive, rev_app_distr in H. cbn in H.
  now apply dropWhile_head in H.
Qed.

Lemma trimEnd_prefix s : exists z, s = trimEnd s ++ z.
Proof.
  unfold trimEnd.
  destruct (dropWhile_suffix is_trimmed_char (rev s)) as (a & Ha).
  exists (rev a). rewrite <- rev_app_distr, <- Ha. symmetry. apply rev_involutive.
Qed.

Lemma trimEnd_head s c rest :
  (forall c' rest', s = c' :: rest' -> is_trimmed_char c' = false) ->
  trimEnd s = c :: rest -> is_trimmed_char c = false.
Proof.
  intros Hs H. destruct (trimEnd_prefix s) as (z & Hz).
  rewrite H in Hz. apply (Hs c (rest ++ z)). exact Hz.
Qed.

Lemma trim_trimmed s : trimmed (trim s).
Proof.
  unfold trim, trimStart. split.
  - intros c rest. apply trimEnd_head. intros c' rest'. apply dropWhile_head.
  - intros c init. apply trimEnd_last.
Qed.

(** ** Lines *)

Lemma split_lines_cons s : exists l ls, split_lines s = l :: ls.
Proof.
  induction s as [|c s (l & ls & IH)]; cbn; [eauto|].
  destruct (cu_eqb c nl); [eauto|]. rewrite IH. eauto.
Qed.

Lemma join_split s : join_lines (split_lines s) = s.
Proof.
  induction s as [|c s IH]; [reflexivity|]. cbn [split_lines].
  destruct (split_lines_cons s) as (l & ls & E). rewrite E in *.
  destruct (cu_eqb c nl) eqn:Hc.
  - apply N.eqb_eq in Hc. subst c.
    change (join_lines ([] :: l :: ls)) with (nl :: join_lines (l :: ls)).
    now rewrite IH.
  - destruct ls; cbn in *; now rewrite <- IH.
Qed.

Lemma split_lines_no_nl s line : In line (split_lines s) -> ~ In nl line.
Proof.
  revert line. induction s as [|c s IH]; intros line.
  - cbn. now intros [<-|[]].
  - cbn [split_lines]. destruct (split_lines_cons s) as (l & ls & E).
    rewrite E in *. destruct (cu_eqb c nl) eqn:Hc.
    + intros [<-|H]; [now intros [] | now apply IH].
    + intros [<-|H].
      * intros [->|H]; [now rewrite N.eqb_refl in Hc|].
        apply (IH l); [now left | assumption].
      * apply IH. now right.
Qed.

Lemma filter_filter {A} (f g : A -> bool) l :
  filter g (filter f l) = filter (fun x => f x && g x) l.
Proof.
  induction l as [|x l IH]; [reflexivity|]. cbn.
  destruct (f x); cbn; [destruct (g x); now rewrite IH | apply IH].
Qed.

End StringFacts.

(* ================================================================== *)
(** * The extractor: facts *)
(* ================================================================== *)

Module ContentFacts.
Import JS Content Spec StringFacts.

Lemma normalizePrice_filter s : normalizePrice s = filter kept_in_price s.
Proof.
  unfold normalizePrice. rewrite replaceAll_Cls.
  apply filter_ext. intro c. unfold not_digit_nor_period, kept_in_price.
  apply negb_involutive.
Qed.

(** The end of [extractProduct], after the site dispatch. *)
Lemma extractProduct_fields pg t raw img :
  extractFields pg = Ok (t, raw, img) ->
  extractProduct pg =
  if nonempty t && nonempty (normalizePrice raw)
  then Ok (Some {| title := t; price := normalizePrice raw;
                   image := img; url := href pg |})
  else Ok None.
Proof.
  intros H. unfold extractProduct. rewrite H. cbn [rbind try_catch].
  destruct (nonempty t); cbn [negb orb andb]; [|reflexivity].
  now destruct (nonempty (normalizePrice raw)).
Qed.

Lemma extractProduct_Some pg data :
  extractProduct pg = Ok (Some data) ->
  nonempty (title data) = true /\ nonempty (price data) = true.
Proof.
  destruct (extractFields pg) as [[[t p] i]|msg] eqn:E.
  - rewrite (extractProduct_fields pg E).
    destruct (nonempty t) eqn:Et; cbn [andb]; [|discriminate].
    destruct (nonempty (normalizePrice p)) eqn:Ep; [|discriminate].
    intros [= <-]. cbn [title price]. auto.
  - unfold extractProduct. rewrite E. discriminate.
Qed.

(** C1.  [extractProduct] returns a record only when both the title
    and the cleaned price are non-empty; when either is empty the
    result is [null], and otherwise the record carries all four
    fields. *)
Theorem extractProduct_complete_record pg :
  (forall r, extractProduct pg = Ok (Some r) -> title r <> [] /\ price r <> [])
  /\ (forall t raw img,
         extractFields pg = Ok (t, raw, img) ->
         t = [] \/ normalizePrice raw = [] ->
         extractProduct pg = Ok None)
  /\ (forall t raw img,
         extractFields pg = Ok (t, raw, img) ->
         t <> [] -> normalizePrice raw <> [] ->
         extractProduct pg
         = Ok (Some {| title := t; price := normalizePrice raw;
                       image := img; url := href pg |})).
Proof.
  split; [|split].
  - intros r H. destruct (extractProduct_Some pg H) as [Ht Hp].
    now rewrite <- !nonempty_iff.
  - intros t raw img H [->| Hp]; rewrite (extractProduct_fields pg H).
    + reflexivity.
    + rewrite Hp. now destruct (nonempty t).
  - intros t raw img H Ht Hp. rewrite (extractProduct_fields pg H).
    now rewrite (nonempty_true Ht), (nonempty_true Hp).
Qed.

Lemma extractProduct_complete_record_witness :
  title Sample.widget <> [] /\ price Sample.widget <> [].
Proof.
  apply (proj1 (extractProduct_complete_record Sample.page) Sample.widget).
  vm_compute. reflexivity.
Defined.

(** C2.  The cleaning of the price keeps the digits and periods of the
    raw string, in order, and nothing else; ["$1,234.56"] becomes
    ["1234.56"]. *)
Theorem normalizePrice_strips :
  (forall raw, normalizePrice raw = filter kept_in_price raw)
  /\ normalizePrice (js "$1,234.56") = js "1234.56".
Proof. split; [apply normalizePrice_filter | reflexivity]. Qed.

Lemma extractFields_faulty pg :
  (forall sel, exists msg, querySelector pg sel = Throw msg) ->
  exists msg, extractFields pg = Throw msg.
Proof.
  intros H. unfold extractFields, innerText_trim.
  repeat match goal with
         | |- context [if ?b then _ else _] => destruct b
         end;
    match goal with
    | |- context [rbind (querySelector pg ?sel) _] =>
        destruct (H sel) as (msg & ->); exists msg; reflexivity
    end.
Qed.

(** C8.  [extractProduct] never raises: whatever the page does, the
    result is a record or [null]; an exception of the site dispatch,
    such as a query that raises, becomes [null], and the listener
    always has a response to send. *)
Theorem extractProduct_never_throws pg :
  (forall msg, extractProduct pg <> Throw msg)
  /\ (forall msg, extractFields pg = Throw msg -> extractProduct pg = Ok None)
  /\ ((forall sel, exists msg, querySelector pg sel = Throw msg) ->
      extractProduct pg = Ok None)
  /\ (exists response,
         onMessage pg (js "extractProduct") = Ok (Some response)).
Proof.
  assert (Hthrow : forall msg, extractFields pg = Throw msg ->
                               extractProduct pg = Ok None).
  { intros msg H. unfold extractProduct. now rewrite H. }
  assert (Hok : exists r, extractProduct pg = Ok r).
  { destruct (extractFields pg) as [[[t p] i]|msg] eqn:E.
    - rewrite (extractProduct_fields pg E).
      destruct (nonempty t && nonempty (normalizePrice p)); eauto.
    - rewrite (Hthrow msg eq_refl). eauto. }
  repeat split.
  - intros msg. destruct Hok as (r & ->). discriminate.
  - exact Hthrow.
  - intros H. destruct (extractFields_faulty pg H) as (msg & Hm).
    now apply (Hthrow msg).
  - destruct Hok as (r & Hr). exists r. unfold onMessage.
    replace (str_eqb (js "extractProduct") (js "extractProduct")) with true
      by reflexivity.
    now rewrite Hr.
Qed.

Lemma extractProduct_never_throws_witness :
  extractProduct Sample.brokenPage = Ok None.
Proof.
  apply (proj1 (proj2 (proj2 (extractProduct_never_throws Sample.brokenPage)))).
  intros sel. exists (js "Illegal invocation"). reflexivity.
Defined.

(** ** The price pattern *)

Lemma matchAt_priceRe bol s : matchAt priceRe bol s = price_rest s.
Proof.
  unfold matchAt, priceRe, Plus, price_rest. cbn [run].
  destruct s as [|c s1]; [reflexivity|].
  destruct (is_dollar c); cbn [andb].
  2:{ now destruct s1. }
  destruct s1 as [|d s2]; [reflexivity|].
  destruct (is_digit_or_comma d); [|reflexivity].
  apply star_total
    with (g := fun r => drop_upto 2 is_digit (drop_upto 1 is_period r)).
  intros b r.
  apply upto_total with (g := fun r => drop_upto 2 is_digit r).
  intros b' r'. now apply upto_total with (g := fun r => r).
Qed.

Lemma take_upto_period s :
  take_upto 1 is_period s = [] \/ take_upto 1 is_period s = [46%N].
Proof.
  destruct s as [|c s]; [now left|]. cbn.
  destruct (is_period c) eqn:E; [right | now left].
  apply N.eqb_eq in E. now subst.
Qed.

Lemma price_rest_sound s rest :
  price_rest s = Some rest -> exists m, s = m ++ rest /\ price_shaped m.
Proof.
  destruct s as [|c [|d s2]]; try discriminate. cbn [price_rest].
  destruct (is_dollar c) eqn:Hc; [|discriminate].
  destruct (is_digit_or_comma d) eqn:Hd; [|discriminate].
  cbn [andb]. intros H.
  assert (Hr : rest = drop_upto 2 is_digit
                        (drop_upto 1 is_period (dropWhile is_digit_or_comma s2)))
    by congruence.
  clear H. subst rest. apply N.eqb_eq in Hc. subst c.
  set (r1 := dropWhile is_digit_or_comma s2).
  set (r2 := drop_upto 1 is_period r1).
  exists (36%N :: (d :: takeWhile is_digit_or_comma s2)
            ++ take_upto 1 is_period r1 ++ take_upto 2 is_digit r2).
  split.
  - cbn [app]. do 2 f_equal. rewrite <- !app_assoc.
    rewrite <- (take_drop_upto 2 is_digit r2).
    unfold r2. rewrite <- (take_drop_upto 1 is_period r1).
    apply take_drop_while.
  - exists (d :: takeWhile is_digit_or_comma s2),
      (take_upto 1 is_period r1), (take_upto 2 is_digit r2).
    repeat split.
    + discriminate.
    + cbn. now rewrite Hd, takeWhile_all.
    + apply take_upto_period.
    + apply take_upto_length.
    + apply take_upto_all.
Qed.

Lemma price_rest_complete m z : price_shaped m -> price_rest (m ++ z) <> None.
Proof.
  intros (ds & dot & frac & -> & Hne & Hds & _).
  destruct ds as [|d ds]; [congruence|].
  cbn in Hds. apply andb_prop in Hds as [Hd _].
  cbn. now rewrite Hd.
Qed.

Lemma dropWhile_length p s : length (dropWhile p s) <= length s.
Proof.
  induction s as [|c s IH]; cbn; [lia|]. destruct (p c); cbn; lia.
Qed.

Lemma drop_upto_length n p s : length (drop_upto n p s) <= length s.
Proof.
  revert s. induction n as [|n IH]; intros [|c s]; cbn; try lia.
  destruct (p c); cbn; [specialize (IH s) |]; lia.
Qed.

Lemma dropWhile_app_all p a z :
  forallb p a = true -> dropWhile p (a ++ z) = dropWhile p z.
Proof.
  induction a as [|x a IH]; cbn; [reflexivity|]. intros H.
  apply andb_prop in H as [Hx Ha]. rewrite Hx. now apply IH.
Qed.

Lemma drop_upto_app n p a z :
  forallb p a = true -> length a <= n ->
  length (drop_upto n p (a ++ z)) <= length z.
Proof.
  revert a. induction n as [|n IH]; intros [|x a] Ha Hn; cbn in *; try lia.
  - destruct z as [|c z]; cbn; [lia|].
    destruct (p c); [|cbn; lia].
    pose proof (drop_upto_length n p z). lia.
  - apply andb_prop in Ha as [Hx Ha]. rewrite Hx. apply IH; [assumption | lia].
Qed.

Lemma digits_are_digit_or_comma frac :
  forallb is_digit frac = true -> forallb is_digit_or_comma frac = true.
Proof.
  induction frac as [|c frac IH]; [reflexivity|]. cbn. intros H.
  apply andb_prop in H as [Hc Hf]. unfold is_digit_or_comma at 1.
  now rewrite Hc, IH.
Qed.

(** The matcher is greedy: no amount at the same position is longer
    than the one it takes. *)
Lemma price_rest_longest m z rest :
  price_shaped m -> price_rest (m ++ z) = Some rest -> length rest <= length z.
Proof.
  intros (ds & dot & frac & -> & Hne & Hds & Hdot & Hlen & Hfrac).
  destruct ds as [|d ds]; [congruence|].
  cbn in Hds. apply andb_prop in Hds as [Hd Hds].
  cbn [app price_rest]. replace (is_dollar 36%N) with true by reflexivity.
  rewrite Hd. cbn [andb]. intros H.
  assert (Hr := f_equal (fun o : option jsstring =>
                           match o with Some r => r | None => [] end) H).
  cbv beta iota in Hr. clear H. subst rest. rewrite <- !app_assoc.
  destruct Hdot as [-> | ->]; cbn [app].
  - rewrite app_assoc, dropWhile_app_all
      by (rewrite forallb_app; apply andb_true_intro; split;
          [exact Hds | now apply digits_are_digit_or_comma]).
    pose proof (drop_upto_length 2 is_digit
                  (drop_upto 1 is_period (dropWhile is_digit_or_comma z))).
    pose proof (drop_upto_length 1 is_period (dropWhile is_digit_or_comma z)).
    pose proof (dropWhile_length is_digit_or_comma z). lia.
  - rewrite dropWhile_app_stop by (assumption || reflexivity).
    change (drop_upto 1 is_period (46%N :: frac ++ z)) with (frac ++ z).
    now apply drop_upto_app.
Qed.

Lemma exec_from_price_Some s :
  forall bol pre m post,
    exec_from priceRe bol s = Some (pre, m, post) ->
    s = pre ++ m ++ post /\ price_shaped m
    /\ (forall a m' z, s = a ++ m' ++ z -> price_shaped m' ->
                       length pre <= length a)
    /\ (forall m' z, m ++ post = m' ++ z -> price_shaped m' ->
                     length m' <= length m).
Proof.
  induction s as [|c s IH]; intros bol pre m post.
  - cbn [exec_from]. rewrite matchAt_priceRe. discriminate.
  - cbn [exec_from]. rewrite matchAt_priceRe.
    destruct (price_rest (c :: s)) as [rest|] eqn:E.
    + destruct (@price_rest_sound (c :: s) rest E) as (m0 & Hs & Hm0).
      rewrite Hs, firstn_match. intros [= <- <- <-].
      repeat split; auto.
      * cbn; lia.
      * intros m' z Heq Hm'. rewrite Hs, Heq in E.
        pose proof (@price_rest_longest m' z rest Hm' E) as Hl.
        apply (f_equal (@length cu)) in Heq. rewrite !length_app in Heq. lia.
    + destruct (exec_from priceRe false s) as [[[pre' m1] post1]|] eqn:E';
        [|discriminate].
      intros [= <- <- <-].
      destruct (IH false pre' m1 post1 E') as (Hs & Hm & Hleft & Hlong).
      repeat split; auto.
      * cbn. now f_equal.
      * intros a m' z Ha Hm'. destruct a as [|x a].
        -- exfalso. cbn in Ha. rewrite Ha in E.
           now apply (@price_rest_complete m' z Hm').
        -- cbn in Ha. injection Ha as _ Ha. cbn.
           apply le_n_S. now apply (Hleft a m' z).
Qed.

Lemma exec_from_price_None s :
  forall bol, exec_from priceRe bol s = None -> ~ has_price s.
Proof.
  induction s as [|c s IH]; intros bol.
  - intros _ (a & m & z & Ha & Hm).
    destruct Hm as (ds & dot & frac & -> & _).
    destruct a; discriminate.
  - cbn [exec_from]. rewrite matchAt_priceRe.
    destruct (price_rest (c :: s)) as [rest|] eqn:E; [discriminate|].
    destruct (exec_from priceRe false s) as [[[pre' m1] post1]|] eqn:E';
      [discriminate|].
    intros _ (a & m & z & Ha & Hm). destruct a as [|x a].
    + cbn in Ha. rewrite Ha in E. now apply (@price_rest_complete m z Hm).
    + cbn in Ha. injection Ha as _ Ha.
      apply (IH false E'). now exists a, m, z.
Qed.

Lemma match0_price_Some t m : match0 priceRe t = Some m -> first_price t m.
Proof.
  unfold match0, exec.
  destruct (exec_from priceRe true t) as [[[pre m1] post]|] eqn:E;
    [|discriminate].
  intros [= ->].
  destruct (@exec_from_price_Some t true pre m post E)
    as (Hs & Hm & Hleft & Hlong).
  exists pre, post. auto.
Qed.

Lemma match0_price_None t : match0 priceRe t = None -> ~ has_price t.
Proof.
  unfold match0, exec.
  destruct (exec_from priceRe true t) as [[[pre m1] post]|] eqn:E;
    [discriminate|].
  intros _. now apply (@exec_from_price_None t true).
Qed.

Lemma first_price_has t m : first_price t m -> has_price t.
Proof. intros (a & z & Ht & Hm & _). now exists a, m, z. Qed.

Lemma scanNodes_first pre t post :
  (forall t', In t' pre -> ~ has_price t') -> has_price t ->
  exists m, scanNodes (pre ++ t :: post) = m /\ first_price t m.
Proof.
  intros Hpre Ht. induction pre as [|t0 pre IH]; cbn [app scanNodes].
  - destruct (match0 priceRe t) as [m|] eqn:E.
    + exists m. split; [reflexivity|]. now apply match0_price_Some.
    + exfalso. now apply (@match0_price_None t E).
  - destruct (match0 priceRe t0) as [m|] eqn:E.
    + exfalso. apply (Hpre t0); [now left|].
      apply first_price_has with m. now apply match0_price_Some.
    + apply IH. intros t' Hin. apply Hpre. now right.
Qed.

Lemma scanNodes_none nodes :
  (forall t, In t nodes -> ~ has_price t) -> scanNodes nodes = [].
Proof.
  induction nodes as [|t nodes IH]; intros Hno; [reflexivity|].
  cbn [scanNodes]. destruct (match0 priceRe t) as [m|] eqn:E.
  - exfalso. apply (Hno t); [now left|].
    apply first_price_has with m. now apply match0_price_Some.
  - apply IH. intros t' Hin. apply Hno. now right.
Qed.

(** ** Document order *)

Lemma textNodes_order : forall n, doc_order n (textNodes n).
Proof.
  fix IH 1. intros [d|cs]; [apply order_text|].
  apply order_elem. induction cs as [|c cs IHcs]; [apply order_none|].
  change (textNodes (Elem (c :: cs)))
    with (textNodes c ++ textNodes (Elem cs)).
  apply order_next; [apply IH | exact IHcs].
Qed.

Lemma doc_order_unique : forall n nodes, doc_order n nodes -> nodes = textNodes n.
Proof.
  fix IH 1. intros [d|cs] nodes H.
  - inversion H. reflexivity.
  - inversion H as [|cs' l Hall]. subst cs' l. clear H.
    revert nodes Hall. induction cs as [|c cs IHcs]; intros nodes Hall.
    + inversion Hall. reflexivity.
    + inversion Hall as [|c' cs' a b Hc Hcs]. subst c' cs' nodes.
      change (textNodes (Elem (c :: cs)))
        with (textNodes c ++ textNodes (Elem cs)).
      f_equal; [apply IH; exact Hc | apply IHcs; exact Hcs].
Qed.

Lemma amount_has_digit s a m z :
  s = a ++ m ++ z -> claimed_amount m -> dollar_then_digit s = true.
Proof.
  intros -> (d & ds & frac & -> & Hd & _). revert Hd. clear.
  induction a as [|x a IH]; intros Hd.
  - cbn [app dollar_then_digit]. change (is_dollar 36%N) with true.
    now rewrite Hd.
  - specialize (IH Hd). cbn [app].
    destruct a as [|y a']; cbn [app dollar_then_digit] in *;
      rewrite IH; apply orb_true_r.
Qed.

(** C9.  [findPrice] goes through the text nodes of the body in
    document order: for the first node that holds a match of
    [/\$[\d,]+\.?\d{0,2}/] (a dollar sign, one or more digits or commas
    in any mix, an optional period, at most two digits) it returns the
    match of that node that starts first, the longest one that starts
    there, whatever the nodes after it hold; when no node holds a match
    it returns the empty string. *)
Theorem findPrice_first_match pg b :
  body pg = Some b ->
  (exists nodes, doc_order b nodes)
  /\ forall nodes,
       doc_order b nodes ->
       (forall pre t post,
           nodes = pre ++ t :: post ->
           (forall t', In t' pre -> ~ has_price t') -> has_price t ->
           exists m, findPrice pg = Ok m /\ first_price t m)
       /\ ((forall t, In t nodes -> ~ has_price t) -> findPrice pg = Ok []).
Proof.
  intros Hb. split; [exists (textNodes b); apply textNodes_order|].
  intros nodes Ho. apply doc_order_unique in Ho. subst nodes.
  unfold findPrice. rewrite Hb. split.
  - intros pre t post Hn Hpre Ht. rewrite Hn.
    destruct (@scanNodes_first pre t post Hpre Ht) as (m & Hm & Hf).
    exists m. now rewrite Hm.
  - intros Hno. now rewrite scanNodes_none.
Qed.

Lemma findPrice_first_match_witness :
  exists m,
    findPrice Sample.page = Ok m
    /\ first_price (js "Now only $1,234.56 (was $1,500)") m.
Proof.
  apply (proj1 (proj2 (findPrice_first_match Sample.page eq_refl)
                  [js "Acme Widget"; js "Now only $1,234.56 (was $1,500)"]
                  (textNodes_order _))
           [js "Acme Widget"] (js "Now only $1,234.56 (was $1,500)") []).
  - reflexivity.
  - intros t' [<-|[]]. apply match0_price_None. reflexivity.
  - apply first_price_has with (js "$1,234.56").
    apply match0_price_Some. reflexivity.
Defined.

(** The first text node of the page holds no amount in the words of
    the specification and the second holds "$5.00"; [findPrice] returns
    "$," from the first. *)
Lemma comma_alone_is_matched :
  (exists b,
      body Sample.commaPage = Some b
      /\ doc_order b [js "Save $, today"; js "Now $5.00"])
  /\ (forall a m z,
         js "Save $, today" = a ++ m ++ z -> ~ claimed_amount m)
  /\ claimed_amount (js "$5.00")
  /\ findPrice Sample.commaPage = Ok (js "$,")
  /\ ~ claimed_amount (js "$,").
Proof.
  split; [|split; [|split; [|split]]].
  - eexists. split; [reflexivity|].
    exact (textNodes_order
             (Elem [Elem [Text (js "Save $, today")]; Text (js "Now $5.00")])).
  - intros a m z H Hm. pose proof (amount_has_digit _ _ H Hm) as Hd.
    vm_compute in Hd. discriminate Hd.
  - exists 53%N, [], [46%N; 48%N; 48%N]. split; [reflexivity|].
    split; [reflexivity|]. split; [reflexivity|]. right.
    exists 48%N, 48%N. now repeat split.
  - reflexivity.
  - intros Hm. pose proof (@amount_has_digit (js "$,") [] _ [] 
                             (eq_sym (app_nil_r _)) Hm) as Hd.
    vm_compute in Hd. discriminate Hd.
Qed.

End ContentFacts.

(* ================================================================== *)
(** * Suggestion lines: facts *)
(* ================================================================== *)

Module LineFacts.
Import JS Spec StringFacts.

Lemma period_not_digit c : is_digit c = true -> is_period c = false.
Proof.
  unfold is_digit, is_period. intros H. apply andb_prop in H as [H _].
  apply N.leb_le in H. apply N.eqb_neq. lia.
Qed.

(** After the digits the pattern wants a period; giving digits back
    never helps, since a digit is no period. *)
Lemma star_digit_period bol s :
  star is_digit (run (Cls is_period) (fun _ rest => Some rest)) bol s
  = after_period (dropWhile is_digit s).
Proof.
  revert bol. induction s as [|c s IH]; intro bol; [reflexivity|].
  cbn [star dropWhile]. destruct (is_digit c) eqn:E.
  - rewrite IH. destruct (after_period (dropWhile is_digit s)); [reflexivity|].
    cbn. now rewrite (period_not_digit c E).
  - reflexivity.
Qed.

Lemma test_numberedRe s : test Popup.numberedRe s = numbered s.
Proof.
  unfold Popup.numberedRe. rewrite test_Bol. unfold matchAt, Plus. cbn [run].
  destruct s as [|c s]; [reflexivity|]. cbn [numbered].
  destruct (is_digit c); [|reflexivity]. cbn [andb].
  now rewrite star_digit_period.
Qed.

Lemma numbered_iff s : numbered s = true <-> starts_numbered s.
Proof.
  split.
  - destruct s as [|c s]; [discriminate|]. cbn [numbered].
    destruct (is_digit c) eqn:Hc; [|discriminate]. cbn [andb].
    destruct (dropWhile is_digit s) as [|p r] eqn:Hd; [discriminate|].
    cbn [after_period]. destruct (is_period p) eqn:Hp; [|discriminate].
    intros _. apply N.eqb_eq in Hp. subst p.
    exists (c :: takeWhile is_digit s), r. repeat split.
    + cbn [app]. f_equal.
      pose proof (take_drop_while is_digit s) as Ht.
      rewrite Hd in Ht. exact Ht.
    + discriminate.
    + cbn. now rewrite Hc, takeWhile_all.
  - intros (ds & rest & -> & Hne & Hds).
    destruct ds as [|d ds]; [congruence|].
    cbn in Hds. apply andb_prop in Hds as [Hd Hds].
    cbn [app numbered]. rewrite Hd. cbn [andb].
    rewrite dropWhile_app_stop; auto.
Qed.

Lemma test_bulletRe s :
  test Popup.bulletRe s
  = match s with c :: _ => Popup.is_bullet c | [] => false end.
Proof.
  unfold Popup.bulletRe. rewrite test_Bol. unfold matchAt. cbn [run].
  destruct s as [|c s]; [reflexivity|]. now destruct (Popup.is_bullet c).
Qed.

Lemma bullet_iff s :
  match s with c :: _ => Popup.is_bullet c | [] => false end = true
  <-> starts_bullet s.
Proof.
  split.
  - destruct s as [|c s]; [discriminate|]. unfold Popup.is_bullet.
    intros H. exists c, s. split; [reflexivity|].
    apply orb_prop in H as [H|H]; [apply orb_prop in H as [H|H]|];
      apply N.eqb_eq in H; auto.
  - intros (c & rest & -> & [->|[->| ->]]); reflexivity.
Qed.

Lemma kept_line_iff line :
  kept_line line = true <-> trim line <> [] /\ listed line.
Proof.
  unfold kept_line, listed. rewrite andb_true_iff, !orb_true_iff.
  rewrite nonempty_iff, test_numberedRe, numbered_iff, test_bulletRe, bullet_iff.
  rewrite Nat.ltb_lt. tauto.
Qed.

Lemma demo_kept_line_iff line :
  demo_kept_line line = true
  <-> trim line <> [] /\ startsWith line (js "-") = false.
Proof.
  unfold demo_kept_line.
  rewrite andb_true_iff, nonempty_iff, negb_true_iff. tauto.
Qed.

(** C4, as the scripts have it.  Both popups split the text at line
    feeds and drop the lines that are blank once trimmed.  The
    accessible popup then keeps, in order, exactly the lines whose
    trimmed text opens with one or more digits and a period or with
    one of [-], [•], [*], and the lines longer than ten code units;
    the popup with the hard-coded key keeps instead every line that
    does not open with [-].  Both show the two lines of
    ["1. Try X\n2. Try Y"], each opening with a digit and a period. *)
Theorem suggestion_lines_rule :
  (forall text,
      Popup.suggestionLines text = filter kept_line (split_lines text))
  /\ (forall line, kept_line line = true <-> trim line <> [] /\ listed line)
  /\ (forall text,
         PopupDemo.suggestionLines text
         = filter demo_kept_line (split_lines text))
  /\ (forall line,
         demo_kept_line line = true
         <-> trim line <> [] /\ startsWith line (js "-") = false)
  /\ (forall text,
         join_lines (split_lines text) = text
         /\ forall line, In line (split_lines text) -> ~ In nl line)
  /\ Popup.suggestionLines Sample.twoItems = [js "1. Try X"; js "2. Try Y"]
  /\ PopupDemo.suggestionLines Sample.twoItems = [js "1. Try X"; js "2. Try Y"]
  /\ starts_numbered (js "1. Try X") /\ starts_numbered (js "2. Try Y").
Proof.
  split; [|split; [|split; [|split; [|split; [|split; [|split; [|split]]]]]]].
  - intros text. unfold Popup.suggestionLines. cbv zeta.
    rewrite filter_filter. reflexivity.
  - apply kept_line_iff.
  - reflexivity.
  - apply demo_kept_line_iff.
  - intros text. split; [apply join_split | apply split_lines_no_nl].
  - reflexivity.
  - reflexivity.
  - apply numbered_iff. reflexivity.
  - apply numbered_iff. reflexivity.
Qed.

Lemma suggestion_lines_rule_witness :
  trim (js "  1. eBay") <> [] /\ listed (js "  1. eBay").
Proof.
  apply (proj1 (proj2 suggestion_lines_rule) (js "  1. eBay")).
  vm_compute. reflexivity.
Defined.

(** The popup with the hard-coded key keeps a short plain line, which
    is no list item and no longer than ten code units, and drops a
    long line that opens with a hyphen. *)
Lemma plain_short_line_kept :
  PopupDemo.suggestionLines (js "Try eBay") = [js "Try eBay"]
  /\ ~ listed (js "Try eBay")
  /\ PopupDemo.suggestionLines (js "- Try eBay first") = []
  /\ listed (js "- Try eBay first").
Proof.
  split; [reflexivity|]. split; [|split; [reflexivity|]].
  - intros H.
    assert (Hk : kept_line (js "Try eBay") = true).
    { apply kept_line_iff. split; [discriminate | exact H]. }
    discriminate Hk.
  - apply (proj1 (kept_line_iff (js "- Try eBay first"))). reflexivity.
Qed.

End LineFacts.

(* ================================================================== *)
(** * The background worker: facts *)
(* ================================================================== *)

Module BackgroundFacts.
Import JS Effects Net Background Spec StringFacts.

Ltac eff :=
  cbv beta iota zeta delta
    [bind ret throw catch lift get modify when emit fst snd].

Lemma getTokenSilent_run br t :
  getTokenSilent br t =
  (Ok match authToken br with
      | Some (c :: tk) => if lastError br then None else Some (c :: tk)
      | _ => None
      end, t ++ [GetAuthToken false]).
Proof.
  unfold getTokenSilent. eff.
  destruct (authToken br) as [[|c tk]|]; try reflexivity.
  now destruct (lastError br).
Qed.

Lemma getTokenSilent_signed_in br token t :
  signed_in br token ->
  getTokenSilent br t = (Ok (Some token), t ++ [GetAuthToken false]).
Proof.
  intros (Ht & Hne & He). rewrite getTokenSilent_run, Ht, He.
  destruct token; [congruence | reflexivity].
Qed.

Lemma handleAnalyze_no_token br product t :
  fst (getTokenSilent br []) = Ok None ->
  handleAnalyze br product t = (Throw notSignedIn, t ++ [GetAuthToken false]).
Proof.
  rewrite getTokenSilent_run. cbn [fst]. intros H.
  unfold handleAnalyze. unfold bind at 1. rewrite getTokenSilent_run.
  destruct (authToken br) as [[|c tk]|]; try reflexivity.
  destruct (lastError br); [reflexivity | discriminate].
Qed.

(** What the worker does once it holds a token. *)
Lemma handleAnalyze_signed_in br token product t :
  signed_in br token ->
  handleAnalyze br product t =
  let t' := t ++ [GetAuthToken false] ++ [Fetch (request token product)] in
  match fetch br (request token product) with
  | Throw e => (Throw e, t')
  | Ok resp =>
      if ok resp then
        match bodyJson resp with
        | Throw e => (Throw e, t')
        | Ok data =>
            if truthy (candidateText data) then
              match candidateText data with
              | VStr s => (Ok (trim s), t')
              | _ => (Throw (js "text.trim is not a function"), t')
              end
            else (Throw unexpectedFormat, t')
        end
      else
        match bodyText resp with
        | Throw e => (Throw e, t')
        | Ok text => (Throw (api_error (status resp) text), t')
        end
  end.
Proof.
  intros Hs. unfold handleAnalyze. unfold bind at 1.
  rewrite (getTokenSilent_signed_in t Hs).
  destruct Hs as (_ & Hne & _). destruct token as [|c tk]; [congruence|].
  eff. rewrite <- app_assoc. cbn [app].
  destruct (fetch br (request (c :: tk) product)) as [resp|e]; [|reflexivity].
  destruct (ok resp); cbn [negb].
  - destruct (bodyJson resp) as [data|e]; [|reflexivity].
    destruct (truthy (candidateText data)); cbn [negb]; [|reflexivity].
    now destruct (candidateText data).
  - now destruct (bodyText resp).
Qed.

Lemma token_cases br :
  fst (getTokenSilent br []) = Ok None \/ exists token, signed_in br token.
Proof.
  rewrite getTokenSilent_run. cbn [fst]. unfold signed_in.
  destruct (authToken br) as [[|c tk]|]; auto.
  destruct (lastError br); auto.
  right. exists (c :: tk). repeat split; congruence.
Qed.

Lemma candidateText_shape data text :
  candidate_shape data text -> candidateText data = VStr text.
Proof.
  intros (top & cand & cands & content & part & parts
          & -> & Hc & Hcontent & Hparts & Htext).
  unfold candidateText, opt. cbn [nullish member].
  rewrite Hc. cbn [nullish member nth].
  rewrite Hcontent. cbn [nullish member].
  rewrite Hparts. cbn [nullish member nth]. exact Htext.
Qed.

Lemma handleAnalyze_refused br data code body t :
  endpoint_refuses br data code body ->
  fst (handleAnalyze br data t) = Throw (api_error code body).
Proof.
  intros (token & resp & Hs & Hf & Hok & Hcode & Hbody).
  rewrite (handleAnalyze_signed_in data t Hs). cbv zeta.
  now rewrite Hf, Hok, Hbody, Hcode.
Qed.

Lemma handleAnalyze_empty br token product t resp data :
  signed_in br token ->
  fetch br (request token product) = Ok resp -> ok resp = true ->
  bodyJson resp = Ok data -> candidate_shape data [] ->
  fst (handleAnalyze br product t) = Throw unexpectedFormat.
Proof.
  intros Hs Hf Hok Hj Hshape.
  rewrite (handleAnalyze_signed_in product t Hs). cbv zeta.
  now rewrite Hf, Hok, Hj, (candidateText_shape Hshape).
Qed.

Lemma handleAnalyze_trimmed br product t s :
  fst (handleAnalyze br product t) = Ok s ->
  trimmed s /\ exists raw, s = trim raw.
Proof.
  destruct (token_cases br) as [Hn|(token & Hs)].
  - rewrite (@handleAnalyze_no_token br product t Hn). discriminate.
  - rewrite (handleAnalyze_signed_in product t Hs). cbv zeta.
    destruct (fetch br _) as [resp|e]; [|discriminate].
    destruct (ok resp).
    + destruct (bodyJson resp) as [data|e]; [|discriminate].
      destruct (truthy (candidateText data)); [|discriminate].
      destruct (candidateText data); try discriminate.
      cbn [fst]. intros [= <-]. split; [apply trim_trimmed | eauto].
    + destruct (bodyText resp); discriminate.
Qed.

Lemma onAnalyze_error br data msg :
  fst (handleAnalyze br data []) = Throw msg ->
  onAnalyzeWithAI br data []
  = (Ok (Error msg), snd (handleAnalyze br data [])).
Proof.
  unfold onAnalyzeWithAI, catch, bind.
  destruct (handleAnalyze br data []) as [[text|e] t]; cbn [fst snd];
    [discriminate|].
  now intros [= ->].
Qed.

(** C6.  When the silent lookup yields no token, [handleAnalyze] fails
    with the sign-in error having done nothing but the lookup: no
    request is issued, whatever the product. *)
Theorem no_token_no_post br product t :
  fst (getTokenSilent br []) = Ok None ->
  handleAnalyze br product t = (Throw notSignedIn, t ++ [GetAuthToken false])
  /\ forall req, ~ In (Fetch req) (snd (handleAnalyze br product [])).
Proof.
  intros H. split; [now apply handleAnalyze_no_token|].
  intros req. rewrite (@handleAnalyze_no_token br product [] H).
  cbn. intros [Hf|[]]. discriminate.
Qed.

Lemma no_token_no_post_witness :
  handleAnalyze Sample.signedOut Sample.widget []
  = (Throw notSignedIn, [GetAuthToken false])
  /\ forall req,
       ~ In (Fetch req) (snd (handleAnalyze Sample.signedOut Sample.widget [])).
Proof.
  apply (no_token_no_post Sample.signedOut Sample.widget []).
  vm_compute. reflexivity.
Defined.

End BackgroundFacts.

(* ================================================================== *)
(** * The popups: facts *)
(* ================================================================== *)

Module EffectFacts.
Import JS Effects.

Lemma bind_ok {S A B} (m : Eff S A) (f : A -> Eff S B) st a st' :
  m st = (Ok a, st') -> bind m f st = f a st'.
Proof. unfold bind. now intros ->. Qed.

Lemma bind_throw {S A B} (m : Eff S A) (f : A -> Eff S B) st e st' :
  m st = (Throw e, st') -> bind m f st = (Throw e, st').
Proof. unfold bind. now intros ->. Qed.

Lemma catch_throw {S A} (m : Eff S A) h st e st' :
  m st = (Throw e, st') -> catch m h st = h e st'.
Proof. unfold catch. now intros ->. Qed.

End EffectFacts.

Module UIFacts.
Import JS Effects UI Spec StringFacts EffectFacts.

(** ** What leaves the history alone *)

Lemma keeps_ret A (a : A) : Keeps (ret a).
Proof. now intros st. Qed.

Lemma keeps_throw A e : Keeps (@throw State A e).
Proof. now intros st. Qed.

Lemma keeps_lift A (r : Res A) : Keeps (@lift State A r).
Proof. now intros st. Qed.

Lemma keeps_get : Keeps (@get State).
Proof. now intros st. Qed.

Lemma keeps_bind A B (m : Eff State A) (f : A -> Eff State B) :
  Keeps m -> (forall a, Keeps (f a)) -> Keeps (bind m f).
Proof.
  intros Hm Hf st. unfold bind. specialize (Hm st).
  destruct (m st) as [[a|e] st1]; cbn [snd] in *; [|exact Hm].
  destruct (Hf a st1) as [H1 H2]. destruct Hm as [H3 H4]. split; congruence.
Qed.

Lemma keeps_catch A (m : Eff State A) h :
  Keeps m -> (forall e, Keeps (h e)) -> Keeps (catch m h).
Proof.
  intros Hm Hh st. unfold catch. specialize (Hm st).
  destruct (m st) as [[a|e] st1]; cbn [snd] in *; [exact Hm|].
  destruct (Hh e st1) as [H1 H2]. destruct Hm as [H3 H4]. split; congruence.
Qed.

Lemma keeps_modify (f : State -> State) :
  (forall st, history (f st) = history st
              /\ isTrackingEnabled (f st) = isTrackingEnabled st) ->
  Keeps (modify f).
Proof. intros H st. apply H. Qed.

Lemma keeps_when b (m : Eff State unit) : Keeps m -> Keeps (when b m).
Proof. destruct b; [auto | intros _; apply keeps_ret]. Qed.

Lemma keeps_if A (b : bool) (m1 m2 : Eff State A) :
  Keeps m1 -> Keeps m2 -> Keeps (if b then m1 else m2).
Proof. now destruct b. Qed.

Lemma keeps_emit e : Keeps (emit e).
Proof. now apply keeps_modify. Qed.

Lemma keeps_setOutput o : Keeps (setOutput o).
Proof. now apply keeps_modify. Qed.

Lemma keeps_appendOutput f : Keeps (appendOutput f).
Proof. now apply keeps_modify. Qed.

Lemma keeps_showLoading b : Keeps (showLoading b).
Proof. now apply keeps_modify. Qed.

Lemma keeps_currentState v : Keeps (modify (with_currentState v)).
Proof. now apply keeps_modify. Qed.

Lemma keeps_renderProduct d : Keeps (renderProduct d).
Proof. apply keeps_appendOutput. Qed.

Lemma keeps_showMessage m : Keeps (showMessage m).
Proof. apply keeps_setOutput. Qed.

Lemma keeps_showError m : Keeps (showError m).
Proof. apply keeps_setOutput. Qed.

Lemma keeps_events (g : Background.Event -> Event) events :
  Keeps (modify (fun st => fold_left (fun s e => with_event (g e) s) events st)).
Proof.
  apply keeps_modify. induction events as [|e events IH]; intros st; [easy|].
  cbn [fold_left]. destruct (IH (with_event (g e) st)) as [H1 H2].
  now rewrite H1, H2.
Qed.

Lemma keeps_activeTab env msg : Keeps (activeTab env msg).
Proof.
  unfold activeTab. apply keeps_bind; [apply keeps_lift|].
  intros [|tab tabs]; [apply keeps_throw|].
  destruct (tab_id tab) as [id|]; [|apply keeps_throw].
  destruct (N.eqb id 0); [apply keeps_throw | apply keeps_ret].
Qed.

Lemma keeps_requestExtraction tab : Keeps (requestExtraction tab).
Proof.
  unfold requestExtraction. destruct (tab_page tab) as [pg|]; [|apply keeps_throw].
  destruct (Content.onMessage pg _) as [[r|]|e];
    auto using keeps_ret, keeps_throw.
Qed.

Create HintDb keeps.

#[export] Hint Resolve keeps_ret keeps_throw keeps_lift keeps_get keeps_emit
  keeps_setOutput keeps_appendOutput keeps_showLoading keeps_currentState
  keeps_renderProduct keeps_showMessage keeps_showError
  keeps_events keeps_activeTab keeps_requestExtraction : keeps.

Ltac keeps :=
  repeat first
    [ solve [auto with keeps]
    | apply keeps_bind; [|intro]
    | apply keeps_catch; [|intro]
    | apply keeps_when
    | apply keeps_if ].

Ltac run_ui :=
  cbv beta iota zeta delta
    [bind ret throw catch lift get modify when emit setOutput appendOutput
     showLoading showMessage showError renderProduct
     Popup.renderSuggestions Popup.announceToScreenReader
     PopupDemo.renderSuggestions
     with_history with_currentState with_busy with_output with_event
     started demo_started];
  cbn [history isTrackingEnabled currentState outputDiv busy trace fst snd].

(** ** The history step *)

Lemma logHistory_run env data st :
  logHistory env data st =
  if isTrackingEnabled st then
    let h := splice 50 (unshift (entry env data) (history st)) in
    (storageSet env, with_event (StorageSet h) (with_history h st))
  else (Ok tt, st).
Proof.
  unfold logHistory, bind, get, when. destruct (isTrackingEnabled st); reflexivity.
Qed.

Lemma logHistory_logs env data st :
  logs_at_most_one env st (snd (logHistory env data st)).
Proof.
  rewrite logHistory_run. unfold logs_at_most_one.
  destruct (isTrackingEnabled st) eqn:E; cbn; [|auto].
  split; [assumption|]. right. split; [reflexivity|]. now exists data.
Qed.

Lemma logHistory_enabled env data st :
  isTrackingEnabled st = true ->
  history (snd (logHistory env data st))
  = entry env data :: firstn 49 (history st).
Proof. intros H. rewrite logHistory_run, H. reflexivity. Qed.

Lemma logs_keeps A env (m : Eff State A) : Keeps m -> Logs env m.
Proof. intros H st. destruct (H st) as [H1 H2]. split; auto. Qed.

Lemma logs_after A B env (m : Eff State A) (f : A -> Eff State B) :
  Keeps m -> (forall a, Logs env (f a)) -> Logs env (bind m f).
Proof.
  intros Hm Hf st. unfold bind. specialize (Hm st).
  destruct (m st) as [[a|e] st1]; cbn [snd] in *.
  - destruct Hm as [H1 H2]. specialize (Hf a st1).
    unfold logs_at_most_one in *. now rewrite H1, H2 in Hf.
  - destruct Hm as [H1 H2]. split; auto.
Qed.

Lemma logs_before A B env (m : Eff State A) (f : A -> Eff State B) :
  Logs env m -> (forall a, Keeps (f a)) -> Logs env (bind m f).
Proof.
  intros Hm Hf st. unfold bind. specialize (Hm st).
  destruct (m st) as [[a|e] st1]; cbn [snd] in *; [|exact Hm].
  destruct (Hf a st1) as [H1 H2]. unfold logs_at_most_one in *.
  now rewrite H1, H2.
Qed.

Lemma logs_catch A env (m : Eff State A) h :
  Logs env m -> (forall e, Keeps (h e)) -> Logs env (catch m h).
Proof.
  intros Hm Hh st. unfold catch. specialize (Hm st).
  destruct (m st) as [[a|e] st1]; cbn [snd] in *; [exact Hm|].
  destruct (Hh e st1) as [H1 H2]. unfold logs_at_most_one in *.
  now rewrite H1, H2.
Qed.

Lemma logs_bound env st st' :
  logs_at_most_one env st st' ->
  length (history st) <= 50 -> length (history st') <= 50.
Proof.
  intros [_ [->|(_ & data & ->)]] H; [assumption|].
  cbn [length]. rewrite length_firstn. lia.
Qed.

(** What is in the history after a [try] block that comes down to the
    history step followed by code that leaves the history alone. *)
Lemma history_after_log A env data (m : Eff State A)
  (tail : unit -> Eff State A) h st0 :
  m st0 = bind (logHistory env data) tail st0 ->
  (forall x, Keeps (tail x)) -> (forall e, Keeps (h e)) ->
  history (snd (catch m h st0)) = history (snd (logHistory env data st0)).
Proof.
  intros Hm Ht Hh. unfold catch. rewrite Hm. unfold bind.
  destruct (logHistory env data st0) as [[u|e] st1]; cbn [snd].
  - destruct (Ht u st1) as [H1 _].
    destruct (tail u st1) as [[a|e] st2]; cbn [snd] in *; [assumption|].
    destruct (Hh e st2) as [H2 _]. congruence.
  - apply Hh.
Qed.

(** ** Reaching the active tab's product *)

Lemma activeTab_run env msg st data :
  shows_product env data ->
  exists id tab pg,
    activeTab env msg st = (Ok (id, tab), st)
    /\ tab_page tab = Some pg
    /\ Content.extractProduct pg = Ok (Some data).
Proof.
  intros (tab & rest & id & pg & Hq & Hid & Hnz & Hpg & Hex).
  exists id, tab, pg. repeat split; auto.
  unfold activeTab, bind, lift. rewrite Hq, Hid.
  apply N.eqb_neq in Hnz. now rewrite Hnz.
Qed.

Lemma requestExtraction_run tab pg data st :
  tab_page tab = Some pg -> Content.extractProduct pg = Ok (Some data) ->
  requestExtraction tab st = (Ok (Some data), st).
Proof.
  intros Hpg Hex. unfold requestExtraction. rewrite Hpg.
  unfold Content.onMessage.
  replace (str_eqb (js "extractProduct") (js "extractProduct")) with true
    by reflexivity.
  unfold rbind. now rewrite Hex.
Qed.

Lemma outputDiv_events (g : Background.Event -> Event) events st :
  outputDiv (fold_left (fun s e => with_event (g e) s) events st) = outputDiv st.
Proof.
  revert st. induction events as [|e events IH]; intros st; [reflexivity|].
  cbn [fold_left]. now rewrite IH.
Qed.

End UIFacts.

Module PopupFacts.
Import JS Effects Net UI Spec StringFacts EffectFacts UIFacts.
Import BackgroundFacts ContentFacts.

#[local] Notation "x <- m ;; k" := (bind m (fun x => k))
  (at level 61, m at next level, right associativity).
#[local] Notation "m ;;; k" := (bind m (fun _ => k))
  (at level 61, right associativity).

Lemma keeps_renderSuggestions text : Keeps (Popup.renderSuggestions text).
Proof. apply keeps_appendOutput. Qed.

Lemma keeps_announce m : Keeps (Popup.announceToScreenReader m).
Proof. apply keeps_emit. Qed.

Lemma keeps_callBackgroundAI w data : Keeps (Popup.callBackgroundAI w data).
Proof.
  unfold Popup.callBackgroundAI.
  destruct (Popup.runtimeLastError w); [apply keeps_throw|].
  destruct (Background.onAnalyzeWithAI _ _ _) as [reply events].
  apply keeps_bind; [apply keeps_events|]. intros _.
  destruct reply as [[text|[|c m]]|e]; auto with keeps.
Qed.

#[export] Hint Resolve keeps_renderSuggestions keeps_announce
  keeps_callBackgroundAI : keeps.

Lemma keeps_analyzeCatch w e : Keeps (Popup.analyzeCatch w e).
Proof. unfold Popup.analyzeCatch. keeps. Qed.

Lemma logs_analyzeTry w : Logs (Popup.env w) (Popup.analyzeTry w).
Proof.
  unfold Popup.analyzeTry.
  apply logs_after; [keeps|]. intros _.
  apply logs_after; [keeps|]. intros t.
  apply logs_after; [keeps|]. intros [data|]; [|apply logs_keeps; keeps].
  destruct (negb (nonempty (Content.title data)));
    [apply logs_keeps; keeps|].
  apply logs_before; [intro; apply logHistory_logs|]. intros _. keeps.
Qed.

Lemma logs_analyzeProduct w : Logs (Popup.env w) (Popup.analyzeProduct w).
Proof.
  unfold Popup.analyzeProduct.
  do 4 (apply logs_after; [keeps|]; intros _).
  apply logs_catch; [apply logs_analyzeTry | apply keeps_analyzeCatch].
Qed.

Lemma analyzeProduct_started w st :
  Popup.analyzeProduct w st
  = catch (Popup.analyzeTry w) (Popup.analyzeCatch w) (started st).
Proof. reflexivity. Qed.

(** The [try] block once the key is accepted and the tab shows a
    product. *)
Lemma analyzeTry_run w st data :
  key_configured w -> shows_product (Popup.env w) data ->
  Popup.analyzeTry w st =
  (logHistory (Popup.env w) data ;;;
   suggestions <- Popup.callBackgroundAI w data ;;
   modify (with_currentState results) ;;;
   renderProduct data ;;;
   Popup.renderSuggestions suggestions ;;;
   showLoading false ;;;
   Popup.announceToScreenReader (js "Analysis complete")) st.
Proof.
  intros [Hk1 Hk2] Hp. unfold Popup.analyzeTry.
  apply nonempty_true in Hk1. rewrite Hk1, Hk2. cbn [negb orb when].
  erewrite bind_ok by reflexivity.
  destruct (@activeTab_run (Popup.env w) (js "No active tab found.") st data Hp)
    as (id & tab & pg & Ht & Hpg & Hex).
  erewrite bind_ok by exact Ht. cbn [snd].
  erewrite bind_ok by exact (@requestExtraction_run tab pg data st Hpg Hex).
  destruct (@extractProduct_Some pg data Hex) as [Htitle _]. now rewrite Htitle.
Qed.

Lemma analyzeProduct_logs w st data :
  isTrackingEnabled st = true ->
  key_configured w -> shows_product (Popup.env w) data ->
  history (snd (Popup.analyzeProduct w st))
  = entry (Popup.env w) data :: firstn 49 (history st).
Proof.
  intros Htr Hk Hp. rewrite analyzeProduct_started.
  erewrite history_after_log.
  - now rewrite logHistory_enabled.
  - apply (@analyzeTry_run w (started st) data Hk Hp).
  - intros x. cbv beta. keeps.
  - apply keeps_analyzeCatch.
Qed.

Lemma callBackgroundAI_error w data st msg events :
  Popup.runtimeLastError w = None ->
  Background.onAnalyzeWithAI (Popup.worker w) data []
  = (Ok (Background.Error msg), events) ->
  msg <> [] ->
  Popup.callBackgroundAI w data st
  = (Throw msg, fold_left (fun s e => with_event (Worker e) s) events st).
Proof.
  intros Hr Hb Hne. unfold Popup.callBackgroundAI. rewrite Hr, Hb.
  unfold bind, modify. destruct msg; [congruence | reflexivity].
Qed.

(** A click that gets an error from the worker ends in the [catch]
    block, on a panel still empty. *)
Lemma analyzeProduct_error w st data msg :
  asks_worker w st data ->
  fst (Background.handleAnalyze (Popup.worker w) data []) = Throw msg ->
  msg <> [] ->
  exists st2,
    Popup.analyzeProduct w st = Popup.analyzeCatch w msg st2
    /\ outputDiv st2 = [].
Proof.
  intros (Hkey & Hp & Hst & Hr) Hb Hne.
  apply onAnalyze_error in Hb.
  rewrite analyzeProduct_started.
  destruct (isTrackingEnabled st) eqn:Etr.
  - eexists. split.
    + apply catch_throw. rewrite (@analyzeTry_run w (started st) data Hkey Hp).
      erewrite bind_ok
        by (rewrite logHistory_run; cbn -[splice unshift];
            rewrite Etr, (Hst eq_refl); reflexivity).
      apply bind_throw. eapply callBackgroundAI_error; eassumption.
    + now rewrite outputDiv_events.
  - eexists. split.
    + apply catch_throw. rewrite (@analyzeTry_run w (started st) data Hkey Hp).
      erewrite bind_ok
        by (rewrite logHistory_run; cbn -[splice unshift];
            rewrite Etr; reflexivity).
      apply bind_throw. eapply callBackgroundAI_error; eassumption.
    + now rewrite outputDiv_events.
Qed.

Lemma analyzeCatch_demo w msg st :
  includes msg (js "API key") || includes msg (js "API error") = true ->
  outputDiv st = [] ->
  fst (Popup.analyzeCatch w msg st) = Ok tt
  /\ showed_demo w (snd (Popup.analyzeCatch w msg st))
  /\ outputDiv (snd (Popup.analyzeCatch w msg st)) = [Message Popup.demoNotice]
  /\ busy (snd (Popup.analyzeCatch w msg st)) = false.
Proof.
  intros Hi Ho. unfold Popup.analyzeCatch, showed_demo, fallback_panel.
  rewrite Hi. run_ui. rewrite Ho. cbn [app]. repeat split.
  rewrite !in_app_iff. cbn [In]. tauto.
Qed.

Lemma analyzeCatch_error w msg st :
  includes msg (js "API key") || includes msg (js "API error") = false ->
  fst (Popup.analyzeCatch w msg st) = Ok tt
  /\ outputDiv (snd (Popup.analyzeCatch w msg st))
     = [ErrorMessage (js "Analysis failed: " ++ msg)]
  /\ busy (snd (Popup.analyzeCatch w msg st)) = false.
Proof.
  intros Hi. unfold Popup.analyzeCatch. rewrite Hi. run_ui. repeat split.
Qed.

Lemma api_error_marked code body :
  includes (api_error code body) (js "API error") = true.
Proof.
  unfold api_error.
  change (js "API error " ++ digits_of code ++ js ": " ++ body)
    with (js "API error" ++ (js " " ++ digits_of code ++ js ": " ++ body)).
  apply includes_prefix.
Qed.

(** The accessible popup after a refusal, and after a failure whose
    message names neither the key nor an API error. *)
Lemma analyzeProduct_refused w st data code body :
  asks_worker w st data ->
  fst (Background.handleAnalyze (Popup.worker w) data [])
  = Throw (api_error code body) ->
  fst (Popup.analyzeProduct w st) = Ok tt
  /\ showed_demo w (snd (Popup.analyzeProduct w st))
  /\ outputDiv (snd (Popup.analyzeProduct w st)) = [Message Popup.demoNotice]
  /\ busy (snd (Popup.analyzeProduct w st)) = false.
Proof.
  intros Ha Hf.
  destruct (@analyzeProduct_error w st data _ Ha Hf) as (st2 & -> & Ho);
    [discriminate|].
  apply analyzeCatch_demo; [|exact Ho].
  rewrite api_error_marked. apply orb_true_r.
Qed.

Lemma analyzeProduct_failed w st data msg :
  asks_worker w st data ->
  fst (Background.handleAnalyze (Popup.worker w) data []) = Throw msg ->
  msg <> [] ->
  includes msg (js "API key") || includes msg (js "API error") = false ->
  fst (Popup.analyzeProduct w st) = Ok tt
  /\ outputDiv (snd (Popup.analyzeProduct w st))
     = [ErrorMessage (js "Analysis failed: " ++ msg)]
  /\ busy (snd (Popup.analyzeProduct w st)) = false.
Proof.
  intros Ha Hf Hne Hi.
  destruct (@analyzeProduct_error w st data msg Ha Hf Hne) as (st2 & -> & Ho).
  now apply analyzeCatch_error.
Qed.

End PopupFacts.

Module PopupDemoFacts.
Import JS Effects Net UI Spec StringFacts EffectFacts UIFacts.
Import ContentFacts.

#[local] Notation "x <- m ;; k" := (bind m (fun x => k))
  (at level 61, m at next level, right associativity).
#[local] Notation "m ;;; k" := (bind m (fun _ => k))
  (at level 61, right associativity).

(** The request of the popup with the hard-coded key, run. *)
Lemma callGeminiAPI_run w data st :
  PopupDemo.callGeminiAPI w data st =
  let st' := with_event (Post (PopupDemo.request data)) st in
  match PopupDemo.fetch w (PopupDemo.request data) with
  | Throw e => (Throw e, st')
  | Ok resp =>
      if ok resp then
        match bodyJson resp with
        | Throw e => (Throw e, st')
        | Ok json =>
            match prop json (Name (js "candidates")) with
            | Throw e => (Throw e, st')
            | Ok candidates =>
                if truthy candidates then
                  match PopupDemo.candidateText json with
                  | Throw e => (Throw e, st')
                  | Ok text =>
                      if truthy text then
                        match text with
                        | VStr s => (Ok (trim s), st')
                        | _ =>
                            (Throw (js "data.candidates[0].content.parts[0].text.trim is not a function"), st')
                        end
                      else (Throw PopupDemo.unexpectedResponse, st')
                  end
                else (Throw PopupDemo.unexpectedResponse, st')
            end
        end
      else
        match bodyText resp with
        | Throw e => (Throw e, st')
        | Ok body => (Throw (demo_api_error (status resp) body), st')
        end
  end.
Proof.
  unfold PopupDemo.callGeminiAPI.
  cbv beta iota zeta delta [bind lift emit modify throw ret].
  destruct (PopupDemo.fetch w _) as [resp|e]; [|reflexivity].
  destruct (ok resp); cbn [negb].
  - destruct (bodyJson resp) as [json|e]; [|reflexivity].
    destruct (prop json _) as [candidates|e]; [|reflexivity].
    destruct (truthy candidates); cbn [negb]; [|reflexivity].
    destruct (PopupDemo.candidateText json) as [text|e]; [|reflexivity].
    destruct (truthy text); cbn [negb]; [|reflexivity].
    now destruct text.
  - now destruct (bodyText resp).
Qed.

Lemma keeps_demo_renderSuggestions text :
  Keeps (PopupDemo.renderSuggestions text).
Proof. apply keeps_appendOutput. Qed.

Lemma keeps_callGeminiAPI w data : Keeps (PopupDemo.callGeminiAPI w data).
Proof.
  intros st. rewrite callGeminiAPI_run. cbv zeta.
  repeat match goal with
         | |- context [match ?x with _ => _ end] => destruct x
         end; split; reflexivity.
Qed.

#[export] Hint Resolve keeps_demo_renderSuggestions keeps_callGeminiAPI : keeps.

Lemma keeps_demo_analyzeCatch w e : Keeps (PopupDemo.analyzeCatch w e).
Proof. unfold PopupDemo.analyzeCatch. keeps. Qed.

Lemma logs_demo_analyzeTry w : Logs (PopupDemo.env w) (PopupDemo.analyzeTry w).
Proof.
  unfold PopupDemo.analyzeTry.
  apply logs_after; [keeps|]. intros _.
  apply logs_after; [keeps|]. intros t.
  apply logs_after; [keeps|]. intros [data|]; [|apply logs_keeps; keeps].
  destruct (negb (nonempty (Content.title data)));
    [apply logs_keeps; keeps|].
  apply logs_before; [intro; apply logHistory_logs|]. intros _. keeps.
Qed.

Lemma logs_demo_analyzeProduct w :
  Logs (PopupDemo.env w) (PopupDemo.analyzeProduct w).
Proof.
  unfold PopupDemo.analyzeProduct.
  do 2 (apply logs_after; [keeps|]; intros _).
  apply logs_catch; [apply logs_demo_analyzeTry | apply keeps_demo_analyzeCatch].
Qed.

Lemma demo_analyzeProduct_started w st :
  PopupDemo.analyzeProduct w st
  = catch (PopupDemo.analyzeTry w) (PopupDemo.analyzeCatch w) (demo_started st).
Proof. reflexivity. Qed.

Lemma demo_analyzeTry_run w st data :
  shows_product (PopupDemo.env w) data ->
  PopupDemo.analyzeTry w st =
  (logHistory (PopupDemo.env w) data ;;;
   suggestions <- PopupDemo.callGeminiAPI w data ;;
   renderProduct data ;;;
   PopupDemo.renderSuggestions suggestions ;;;
   showLoading false) st.
Proof.
  intros Hp. unfold PopupDemo.analyzeTry.
  replace (negb (nonempty PopupDemo.apiKey)
           || negb (startsWith PopupDemo.apiKey (js "AIza")))
    with false by reflexivity.
  cbn [when]. erewrite bind_ok by reflexivity.
  destruct (@activeTab_run (PopupDemo.env w) (js "No active tab found.")
              st data Hp)
    as (id & tab & pg & Ht & Hpg & Hex).
  erewrite bind_ok by exact Ht. cbn [snd].
  erewrite bind_ok by exact (@requestExtraction_run tab pg data st Hpg Hex).
  destruct (@extractProduct_Some pg data Hex) as [Htitle _]. now rewrite Htitle.
Qed.

Lemma demo_analyzeProduct_logs w st data :
  isTrackingEnabled st = true -> shows_product (PopupDemo.env w) data ->
  history (snd (PopupDemo.analyzeProduct w st))
  = entry (PopupDemo.env w) data :: firstn 49 (history st).
Proof.
  intros Htr Hp. rewrite demo_analyzeProduct_started.
  erewrite history_after_log.
  - now rewrite logHistory_enabled.
  - apply (@demo_analyzeTry_run w (demo_started st) data Hp).
  - intros x. cbv beta. keeps.
  - apply keeps_demo_analyzeCatch.
Qed.

Lemma demo_analyzeProduct_error w st data msg :
  asks_endpoint w st data ->
  (forall s, fst (PopupDemo.callGeminiAPI w data s) = Throw msg) ->
  exists st2,
    PopupDemo.analyzeProduct w st = PopupDemo.analyzeCatch w msg st2
    /\ outputDiv st2 = [].
Proof.
  intros (Hp & Hst) Hc.
  assert (Hc' : forall s,
             PopupDemo.callGeminiAPI w data s
             = (Throw msg, with_event (Post (PopupDemo.request data)) s)).
  { intros s. specialize (Hc s). rewrite callGeminiAPI_run in *. cbv zeta in *.
    repeat match goal with
           | H : context [match ?x with _ => _ end] |- _ => destruct x
           end; cbn [fst] in Hc; congruence. }
  rewrite demo_analyzeProduct_started.
  destruct (isTrackingEnabled st) eqn:Etr.
  - eexists. split.
    + apply catch_throw.
      rewrite (@demo_analyzeTry_run w (demo_started st) data Hp).
      erewrite bind_ok
        by (rewrite logHistory_run; cbn -[splice unshift];
            rewrite Etr, (Hst eq_refl); reflexivity).
      apply bind_throw. apply Hc'.
    + reflexivity.
  - eexists. split.
    + apply catch_throw.
      rewrite (@demo_analyzeTry_run w (demo_started st) data Hp).
      erewrite bind_ok
        by (rewrite logHistory_run; cbn -[splice unshift];
            rewrite Etr; reflexivity).
      apply bind_throw. apply Hc'.
    + reflexivity.
Qed.

Lemma demo_analyzeCatch_demo w msg st :
  includes msg (js "Demo mode") || includes msg (js "API error") = true ->
  outputDiv st = [] ->
  fst (PopupDemo.analyzeCatch w msg st) = Ok tt
  /\ outputDiv (snd (PopupDemo.analyzeCatch w msg st)) = demo_panel w
  /\ busy (snd (PopupDemo.analyzeCatch w msg st)) = false.
Proof.
  intros Hi Ho. unfold PopupDemo.analyzeCatch. rewrite Hi.
  run_ui. rewrite Ho. repeat split.
Qed.

Lemma demo_analyzeCatch_error w msg st :
  includes msg (js "Demo mode") || includes msg (js "API error") = false ->
  fst (PopupDemo.analyzeCatch w msg st) = Ok tt
  /\ outputDiv (snd (PopupDemo.analyzeCatch w msg st))
     = [ErrorMessage (js "Analysis failed: " ++ msg)]
  /\ busy (snd (PopupDemo.analyzeCatch w msg st)) = false.
Proof.
  intros Hi. unfold PopupDemo.analyzeCatch. rewrite Hi. run_ui. repeat split.
Qed.

Lemma demo_api_error_marked code body :
  includes (demo_api_error code body) (js "API error") = true.
Proof.
  unfold demo_api_error.
  change (js "API error: " ++ digits_of code ++ js " (" ++ body
          ++ js ") - Check key/limits at aistudio.google.com")
    with (js "API error" ++ (js ": " ++ digits_of code ++ js " (" ++ body
          ++ js ") - Check key/limits at aistudio.google.com")).
  apply includes_prefix.
Qed.

Lemma callGeminiAPI_refused w data code body st :
  demo_refuses w data code body ->
  fst (PopupDemo.callGeminiAPI w data st) = Throw (demo_api_error code body).
Proof.
  intros (resp & Hf & Hok & Hcode & Hbody).
  rewrite callGeminiAPI_run. cbv zeta. now rewrite Hf, Hok, Hbody, Hcode.
Qed.

Lemma demo_candidateText_shape json text :
  candidate_shape json text ->
  prop json (Name (js "candidates"))
  = Ok (member json (Name (js "candidates")))
  /\ truthy (member json (Name (js "candidates"))) = true
  /\ PopupDemo.candidateText json = Ok (VStr text).
Proof.
  intros (top & cand & cands & content & part & parts
          & -> & Hc & Hcontent & Hparts & Htext).
  unfold PopupDemo.candidateText, prop, opt, rbind. cbn [nullish member].
  rewrite Hc. cbn [nullish member nth truthy].
  rewrite Hcontent. cbn [nullish member].
  rewrite Hparts. cbn [nullish member nth]. now rewrite Htext.
Qed.

Lemma callGeminiAPI_empty w data st resp json :
  PopupDemo.fetch w (PopupDemo.request data) = Ok resp -> ok resp = true ->
  bodyJson resp = Ok json -> candidate_shape json [] ->
  fst (PopupDemo.callGeminiAPI w data st) = Throw PopupDemo.unexpectedResponse.
Proof.
  intros Hf Hok Hj Hshape.
  destruct (demo_candidateText_shape Hshape) as (Hp & Ht & Hc).
  rewrite callGeminiAPI_run. cbv zeta. now rewrite Hf, Hok, Hj, Hp, Ht, Hc.
Qed.

Lemma callGeminiAPI_trimmed w data st s :
  fst (PopupDemo.callGeminiAPI w data st) = Ok s ->
  trimmed s /\ exists raw, s = trim raw.
Proof.
  rewrite callGeminiAPI_run. cbv zeta.
  repeat match goal with
         | |- context [match ?x with _ => _ end] => destruct x
         end; cbn [fst]; try discriminate.
  intros [= <-]. split; [apply trim_trimmed | eauto].
Qed.

Lemma demo_analyzeProduct_refused w st data code body :
  asks_endpoint w st data ->
  (forall s, fst (PopupDemo.callGeminiAPI w data s)
             = Throw (demo_api_error code body)) ->
  fst (PopupDemo.analyzeProduct w st) = Ok tt
  /\ outputDiv (snd (PopupDemo.analyzeProduct w st)) = demo_panel w
  /\ busy (snd (PopupDemo.analyzeProduct w st)) = false.
Proof.
  intros Ha Hf.
  destruct (@demo_analyzeProduct_error w st data _ Ha Hf) as (st2 & -> & Ho).
  apply demo_analyzeCatch_demo; [|exact Ho].
  rewrite demo_api_error_marked. apply orb_true_r.
Qed.

Lemma demo_analyzeProduct_failed w st data msg :
  asks_endpoint w st data ->
  (forall s, fst (PopupDemo.callGeminiAPI w data s) = Throw msg) ->
  includes msg (js "Demo mode") || includes msg (js "API error") = false ->
  fst (PopupDemo.analyzeProduct w st) = Ok tt
  /\ outputDiv (snd (PopupDemo.analyzeProduct w st))
     = [ErrorMessage (js "Analysis failed: " ++ msg)]
  /\ busy (snd (PopupDemo.analyzeProduct w st)) = false.
Proof.
  intros Ha Hf Hi.
  destruct (@demo_analyzeProduct_error w st data msg Ha Hf) as (st2 & -> & Ho).
  now apply demo_analyzeCatch_error.
Qed.

End PopupDemoFacts.

(* ================================================================== *)
(** * History, failures and fallback *)
(* ================================================================== *)

Module Orchestration.
Import JS Effects Net UI Spec StringFacts UIFacts.
Import BackgroundFacts PopupFacts PopupDemoFacts.

Lemma clicks_bound ws st :
  length (history st) <= 50 -> length (history (clicks ws st)) <= 50.
Proof.
  revert st. induction ws as [|w ws IH]; intros st H; [exact H|].
  cbn [clicks fold_left]. apply IH.
  exact (logs_bound (logs_analyzeProduct w st) H).
Qed.

Lemma demo_clicks_bound ws st :
  length (history st) <= 50 -> length (history (demo_clicks ws st)) <= 50.
Proof.
  revert st. induction ws as [|w ws IH]; intros st H; [exact H|].
  cbn [demo_clicks fold_left]. apply IH.
  exact (logs_bound (logs_demo_analyzeProduct w st) H).
Qed.

(** C3.  In both popups a click leaves the history alone or, with
    tracking enabled, puts one new entry in front of the first 49 old
    ones, which keep their order: what is dropped is dropped at the
    back.  A history of at most 50 entries therefore stays so through
    any sequence of clicks, and a click on a tab that shows a product,
    with tracking enabled, logs that product with the time of the
    click at the front. *)
Theorem history_capped :
  (forall w st,
      logs_at_most_one (Popup.env w) st (snd (Popup.analyzeProduct w st)))
  /\ (forall w st,
         logs_at_most_one (PopupDemo.env w) st
           (snd (PopupDemo.analyzeProduct w st)))
  /\ (forall ws st,
         length (history st) <= 50 -> length (history (clicks ws st)) <= 50)
  /\ (forall ws st,
         length (history st) <= 50 ->
         length (history (demo_clicks ws st)) <= 50)
  /\ (forall w st data,
         isTrackingEnabled st = true ->
         key_configured w -> shows_product (Popup.env w) data ->
         history (snd (Popup.analyzeProduct w st))
         = entry (Popup.env w) data :: firstn 49 (history st))
  /\ (forall w st data,
         isTrackingEnabled st = true ->
         shows_product (PopupDemo.env w) data ->
         history (snd (PopupDemo.analyzeProduct w st))
         = entry (PopupDemo.env w) data :: firstn 49 (history st)).
Proof.
  split; [|split; [|split; [|split; [|split]]]].
  - intros w st. apply logs_analyzeProduct.
  - intros w st. apply logs_demo_analyzeProduct.
  - apply clicks_bound.
  - apply demo_clicks_bound.
  - apply analyzeProduct_logs.
  - apply demo_analyzeProduct_logs.
Qed.

Lemma sample_shows_product : shows_product Sample.env Sample.widget.
Proof.
  exists {| tab_id := Some 7%N; tab_page := Some Sample.page |}, [], 7%N,
    Sample.page.
  repeat split; try reflexivity. discriminate.
Defined.

Lemma sample_asks_worker br : asks_worker (Sample.world br) Sample.fresh Sample.widget.
Proof.
  repeat split; try reflexivity; try discriminate.
  apply sample_shows_product.
Defined.

Lemma sample_asks_endpoint resp :
  asks_endpoint (Sample.demoWorld resp) Sample.fresh Sample.widget.
Proof. split; [apply sample_shows_product | reflexivity]. Defined.

Lemma history_capped_witness :
  history (snd (Popup.analyzeProduct (Sample.world Sample.signedOut)
                  Sample.fresh))
  = [entry Sample.env Sample.widget]
  /\ length (history (clicks [Sample.world Sample.signedOut;
                              Sample.world Sample.signedOut] Sample.fresh)) <= 50
  /\ history (snd (Popup.analyzeProduct (Sample.world Sample.signedOut)
                     Sample2.crowded))
     = entry Sample.env Sample.widget :: repeat Sample2.oldEntry 49
  /\ length (history (clicks [Sample.world Sample.signedOut;
                              Sample.world Sample.signedOut] Sample2.crowded))
     <= 50.
Proof.
  split; [|split; [|split]].
  - apply (proj1 (proj2 (proj2 (proj2 (proj2 history_capped))))
             (Sample.world Sample.signedOut) Sample.fresh Sample.widget).
    + reflexivity.
    + split; [discriminate | reflexivity].
    + apply sample_shows_product.
  - apply (proj1 (proj2 (proj2 history_capped))). cbn. lia.
  - apply (proj1 (proj2 (proj2 (proj2 (proj2 history_capped))))
             (Sample.world Sample.signedOut) Sample2.crowded Sample.widget).
    + reflexivity.
    + split; [discriminate | reflexivity].
    + apply sample_shows_product.
  - apply (proj1 (proj2 (proj2 history_capped))). cbn. lia.
Defined.

Lemma sample_refuses :
  endpoint_refuses (Sample.signedIn Sample.tooManyRequests) Sample.widget
    429%N (js "quota exceeded").
Proof.
  exists (js "ya29.sample"), Sample.tooManyRequests.
  repeat split; try reflexivity. discriminate.
Defined.

Lemma sample_demo_refuses :
  demo_refuses (Sample.demoWorld Sample.tooManyRequests) Sample.widget
    429%N (js "quota exceeded").
Proof. exists Sample.tooManyRequests. repeat split; reflexivity. Defined.

(** C5.  A response with a status outside 200-299 and a readable body
    makes the worker fail with "API error <status>: <body>", and the
    click of the accessible popup that meets this failure returns
    normally.  Its catch block writes the demo product and the demo
    suggestions to the panel and then calls [showMessage], which
    assigns the panel: when the click ends the panel holds the
    demo-mode notice alone and nothing of the fallback content.  The
    popup that calls the endpoint itself fails with "API error:
    <status> (<body>) ..." and ends on the demo product and the demo
    suggestions.  When the body of the refusal cannot be read, the
    error either script raises is the one of the read, without the
    status. *)
Theorem refusal_fallback_is_replaced :
  (forall w st data code body,
      asks_worker w st data ->
      endpoint_refuses (Popup.worker w) data code body ->
      fst (Background.handleAnalyze (Popup.worker w) data [])
      = Throw (api_error code body)
      /\ fst (Popup.analyzeProduct w st) = Ok tt
      /\ showed_demo w (snd (Popup.analyzeProduct w st))
      /\ outputDiv (snd (Popup.analyzeProduct w st))
         = [Message Popup.demoNotice]
      /\ forall f,
           In f (fallback_panel w) ->
           ~ In f (outputDiv (snd (Popup.analyzeProduct w st))))
  /\ (forall w st data code body,
         asks_endpoint w st data -> demo_refuses w data code body ->
         fst (PopupDemo.callGeminiAPI w data st)
         = Throw (demo_api_error code body)
         /\ fst (PopupDemo.analyzeProduct w st) = Ok tt
         /\ outputDiv (snd (PopupDemo.analyzeProduct w st)) = demo_panel w)
  /\ (forall br token data resp e t,
         signed_in br token ->
         Background.fetch br (Background.request token data) = Ok resp ->
         ok resp = false -> bodyText resp = Throw e ->
         fst (Background.handleAnalyze br data t) = Throw e)
  /\ (forall w data resp e st,
         PopupDemo.fetch w (PopupDemo.request data) = Ok resp ->
         ok resp = false -> bodyText resp = Throw e ->
         fst (PopupDemo.callGeminiAPI w data st) = Throw e).
Proof.
  split; [|split; [|split]].
  - intros w st data code body Ha Hr.
    pose proof (@handleAnalyze_refused (Popup.worker w) data code body []
                  Hr) as Hb.
    destruct (@analyzeProduct_refused w st data code body Ha Hb)
      as (H1 & H2 & H3 & _).
    split; [exact Hb|]. split; [exact H1|]. split; [exact H2|].
    split; [exact H3|]. rewrite H3. intros f Hf [Hin|[]]. subst f.
    unfold fallback_panel in Hf. destruct Hf as [Hf|[Hf|[]]]; discriminate Hf.
  - intros w st data code body Ha Hr.
    split; [now apply callGeminiAPI_refused|].
    destruct (@demo_analyzeProduct_refused w st data code body Ha)
      as (H1 & H2 & _).
    + intros s. now apply callGeminiAPI_refused.
    + now split.
  - intros br token data resp e t Hs Hf Hok He.
    rewrite (handleAnalyze_signed_in data t Hs). cbv zeta.
    now rewrite Hf, Hok, He.
  - intros w data resp e st Hf Hok He.
    rewrite callGeminiAPI_run. cbv zeta. now rewrite Hf, Hok, He.
Qed.

Lemma refusal_fallback_is_replaced_witness :
  fst (Background.handleAnalyze (Sample.signedIn Sample.tooManyRequests)
         Sample.widget [])
  = Throw (js "API error 429: quota exceeded")
  /\ outputDiv (snd (Popup.analyzeProduct
                       (Sample.world (Sample.signedIn Sample.tooManyRequests))
                       Sample.fresh))
     = [Message Popup.demoNotice]
  /\ outputDiv (snd (PopupDemo.analyzeProduct
                       (Sample.demoWorld Sample.tooManyRequests) Sample.fresh))
     = demo_panel (Sample.demoWorld Sample.tooManyRequests).
Proof.
  destruct (proj1 refusal_fallback_is_replaced
              (Sample.world (Sample.signedIn Sample.tooManyRequests))
              Sample.fresh Sample.widget 429%N (js "quota exceeded")
              (sample_asks_worker _) sample_refuses)
    as (H1 & _ & _ & H4 & _).
  destruct (proj1 (proj2 refusal_fallback_is_replaced)
              (Sample.demoWorld Sample.tooManyRequests) Sample.fresh
              Sample.widget 429%N (js "quota exceeded")
              (sample_asks_endpoint _) sample_demo_refuses)
    as (_ & _ & H7).
  split; [exact H1|]. split; [exact H4 | exact H7].
Defined.


(** C7, as the scripts have it.  The popups fall back to the demo
    product and demo suggestions when the service fails with the error
    of a refused request; when it fails for want of a token or on a
    response without candidate text, the panel shows the error message
    ["Analysis failed: ..."] and nothing else. *)
Theorem fallback_only_for_api_errors :
  (forall w st data code body,
      asks_worker w st data ->
      fst (Background.handleAnalyze (Popup.worker w) data [])
      = Throw (api_error code body) ->
      fst (Popup.analyzeProduct w st) = Ok tt
      /\ showed_demo w (snd (Popup.analyzeProduct w st)))
  /\ (forall w st data,
         asks_worker w st data ->
         fst (Background.handleAnalyze (Popup.worker w) data [])
         = Throw Background.notSignedIn ->
         fst (Popup.analyzeProduct w st) = Ok tt
         /\ outputDiv (snd (Popup.analyzeProduct w st))
            = [ErrorMessage (js "Analysis failed: " ++ Background.notSignedIn)])
  /\ (forall w st data,
         asks_worker w st data ->
         fst (Background.handleAnalyze (Popup.worker w) data [])
         = Throw Background.unexpectedFormat ->
         fst (Popup.analyzeProduct w st) = Ok tt
         /\ outputDiv (snd (Popup.analyzeProduct w st))
            = [ErrorMessage
                 (js "Analysis failed: " ++ Background.unexpectedFormat)])
  /\ (forall w st data code body,
         asks_endpoint w st data ->
         (forall s, fst (PopupDemo.callGeminiAPI w data s)
                    = Throw (demo_api_error code body)) ->
         fst (PopupDemo.analyzeProduct w st) = Ok tt
         /\ outputDiv (snd (PopupDemo.analyzeProduct w st)) = demo_panel w)
  /\ (forall w st data,
         asks_endpoint w st data ->
         (forall s, fst (PopupDemo.callGeminiAPI w data s)
                    = Throw PopupDemo.unexpectedResponse) ->
         fst (PopupDemo.analyzeProduct w st) = Ok tt
         /\ outputDiv (snd (PopupDemo.analyzeProduct w st))
            = [ErrorMessage
                 (js "Analysis failed: " ++ PopupDemo.unexpectedResponse)]).
Proof.
  split; [|split; [|split; [|split]]].
  - intros w st data code body Ha Hf.
    destruct (@analyzeProduct_refused w st data code body Ha Hf)
      as (H1 & H2 & _).
    now split.
  - intros w st data Ha Hf.
    destruct (@analyzeProduct_failed w st data _ Ha Hf) as (H1 & H2 & _);
      [discriminate | reflexivity | now split].
  - intros w st data Ha Hf.
    destruct (@analyzeProduct_failed w st data _ Ha Hf) as (H1 & H2 & _);
      [discriminate | reflexivity | now split].
  - intros w st data code body Ha Hf.
    destruct (@demo_analyzeProduct_refused w st data code body Ha Hf)
      as (H1 & H2 & _).
    now split.
  - intros w st data Ha Hf.
    destruct (@demo_analyzeProduct_failed w st data _ Ha Hf) as (H1 & H2 & _);
      [reflexivity | now split].
Qed.

Lemma fallback_only_for_api_errors_witness :
  fst (Popup.analyzeProduct
         (Sample.world (Sample.signedIn (Sample.answer []))) Sample.fresh)
  = Ok tt
  /\ outputDiv (snd (Popup.analyzeProduct
                       (Sample.world (Sample.signedIn (Sample.answer [])))
                       Sample.fresh))
     = [ErrorMessage (js "Analysis failed: Unexpected API response format")].
Proof.
  apply (proj1 (proj2 (proj2 fallback_only_for_api_errors))
           (Sample.world (Sample.signedIn (Sample.answer []))) Sample.fresh
           Sample.widget).
  - apply sample_asks_worker.
  - vm_compute. reflexivity.
Defined.

(** Without a token the service fails with the sign-in error, and the
    accessible popup shows that error alone: the demo product and
    suggestions never reach the panel. *)
Lemma auth_failure_shows_error_only :
  asks_worker (Sample.world Sample.signedOut) Sample.fresh Sample.widget
  /\ fst (Background.handleAnalyze Sample.signedOut Sample.widget [])
     = Throw Background.notSignedIn
  /\ outputDiv (snd (Popup.analyzeProduct (Sample.world Sample.signedOut)
                       Sample.fresh))
     = [ErrorMessage (js "Analysis failed: " ++ Background.notSignedIn)]
  /\ ~ showed_demo (Sample.world Sample.signedOut)
         (snd (Popup.analyzeProduct (Sample.world Sample.signedOut)
                 Sample.fresh)).
Proof.
  split; [apply sample_asks_worker|].
  split; [reflexivity|]. split; [reflexivity|].
  unfold showed_demo. vm_compute.
  intros H. repeat destruct H as [H|H]; try discriminate H. exact H.
Qed.

Lemma sample_shape text :
  exists data,
    bodyJson (Sample.answer text) = Ok data /\ candidate_shape data text.
Proof.
  eexists. split; [reflexivity|].
  do 6 eexists. repeat split; reflexivity.
Defined.

Lemma handleAnalyze_returns br product t s :
  fst (Background.handleAnalyze br product t) = Ok s ->
  exists token resp data raw,
    signed_in br token
    /\ Background.fetch br (Background.request token product) = Ok resp
    /\ ok resp = true /\ bodyJson resp = Ok data
    /\ Background.candidateText data = VStr raw
    /\ raw <> [] /\ s = trim raw.
Proof.
  destruct (token_cases br) as [Hn|(token & Hs)].
  - rewrite (@handleAnalyze_no_token br product t Hn). discriminate.
  - rewrite (handleAnalyze_signed_in product t Hs). cbv zeta.
    destruct (Background.fetch br _) as [resp|e] eqn:Ef; [|discriminate].
    destruct (ok resp) eqn:Eok.
    + destruct (bodyJson resp) as [data|e] eqn:Ej; [|discriminate].
      destruct (truthy (Background.candidateText data)) eqn:Et;
        [|discriminate].
      destruct (Background.candidateText data) as [| |b|q|raw|xs|fs] eqn:Ec;
        try discriminate.
      cbn [fst]. intros [= <-]. exists token, resp, data, raw.
      split; [exact Hs|]. split; [exact Ef|]. split; [exact Eok|].
      split; [exact Ej|]. split; [exact Ec|].
      split; [|reflexivity]. intros ->. discriminate Et.
    + destruct (bodyText resp); discriminate.
Qed.

Lemma callGeminiAPI_returns w product st s :
  fst (PopupDemo.callGeminiAPI w product st) = Ok s ->
  exists resp data raw,
    PopupDemo.fetch w (PopupDemo.request product) = Ok resp
    /\ ok resp = true /\ bodyJson resp = Ok data
    /\ PopupDemo.candidateText data = Ok (VStr raw)
    /\ raw <> [] /\ s = trim raw.
Proof.
  rewrite callGeminiAPI_run. cbv zeta.
  destruct (PopupDemo.fetch w _) as [resp|e] eqn:Ef; [|discriminate].
  destruct (ok resp) eqn:Eok.
  - destruct (bodyJson resp) as [data|e] eqn:Ej; [|discriminate].
    destruct (prop data _) as [cands|e]; [|discriminate].
    destruct (truthy cands); [|discriminate].
    destruct (PopupDemo.candidateText data) as [text|e] eqn:Ec;
      [|discriminate].
    destruct (truthy text) eqn:Et; [|discriminate].
    destruct text as [| |b|q|raw|xs|fs]; try discriminate.
    cbn [fst]. intros [= <-]. exists resp, data, raw.
    split; [first [exact Ef | reflexivity]|].
    split; [first [exact Eok | reflexivity]|].
    split; [first [exact Ej | reflexivity]|].
    split; [first [exact Ec | reflexivity]|]. split; [|reflexivity].
    intros ->. discriminate Et.
  - destruct (bodyText resp); discriminate.
Qed.

(** C10.  A success response of the expected shape whose first
    candidate text is the empty string makes the service fail with its
    unexpected-response error, in the worker as in the popup that
    calls the endpoint itself.  With a first candidate text that is
    not empty the service returns that text trimmed; and a text the
    service returns is always the trimmed form of the non-empty first
    candidate text of a success response, so it neither starts nor
    ends with a character that [trim] strips. *)
Theorem empty_text_is_malformed :
  (forall br token product t resp data,
      signed_in br token ->
      Background.fetch br (Background.request token product) = Ok resp ->
      ok resp = true -> bodyJson resp = Ok data -> candidate_shape data [] ->
      fst (Background.handleAnalyze br product t)
      = Throw Background.unexpectedFormat)
  /\ (forall br token product t resp data text,
         signed_in br token ->
         Background.fetch br (Background.request token product) = Ok resp ->
         ok resp = true -> bodyJson resp = Ok data ->
         candidate_shape data text -> text <> [] ->
         fst (Background.handleAnalyze br product t) = Ok (trim text))
  /\ (forall br product t s,
         fst (Background.handleAnalyze br product t) = Ok s ->
         trimmed s
         /\ exists token resp data raw,
              signed_in br token
              /\ Background.fetch br (Background.request token product)
                 = Ok resp
              /\ ok resp = true /\ bodyJson resp = Ok data
              /\ Background.candidateText data = VStr raw
              /\ raw <> [] /\ s = trim raw)
  /\ (forall w product st resp data,
         PopupDemo.fetch w (PopupDemo.request product) = Ok resp ->
         ok resp = true -> bodyJson resp = Ok data -> candidate_shape data [] ->
         fst (PopupDemo.callGeminiAPI w product st)
         = Throw PopupDemo.unexpectedResponse)
  /\ (forall w product st resp data text,
         PopupDemo.fetch w (PopupDemo.request product) = Ok resp ->
         ok resp = true -> bodyJson resp = Ok data ->
         candidate_shape data text -> text <> [] ->
         fst (PopupDemo.callGeminiAPI w product st) = Ok (trim text))
  /\ (forall w product st s,
         fst (PopupDemo.callGeminiAPI w product st) = Ok s ->
         trimmed s
         /\ exists resp data raw,
              PopupDemo.fetch w (PopupDemo.request product) = Ok resp
              /\ ok resp = true /\ bodyJson resp = Ok data
              /\ PopupDemo.candidateText data = Ok (VStr raw)
              /\ raw <> [] /\ s = trim raw).
Proof.
  split; [|split; [|split; [|split; [|split]]]].
  - intros br token product t resp data. apply handleAnalyze_empty.
  - intros br token product t resp data text Hs Hf Hok Hj Hshape Hne.
    rewrite (handleAnalyze_signed_in product t Hs). cbv zeta.
    rewrite Hf, Hok, Hj, (candidateText_shape Hshape). cbn [truthy].
    destruct text; [congruence | reflexivity].
  - intros br product t s H.
    destruct (handleAnalyze_returns br product t H)
      as (token & resp & data & raw & H1 & H2 & H3 & H4 & H5 & H6 & ->).
    split; [apply trim_trimmed|]. now exists token, resp, data, raw.
  - intros w product st resp data. apply callGeminiAPI_empty.
  - intros w product st resp data text Hf Hok Hj Hshape Hne.
    rewrite callGeminiAPI_run. cbv zeta. rewrite Hf, Hok, Hj.
    destruct (demo_candidateText_shape Hshape) as (H1 & H2 & H3).
    rewrite H1, H2, H3. cbn [truthy].
    destruct text; [congruence | reflexivity].
  - intros w product st s H.
    destruct (callGeminiAPI_returns w product st H)
      as (resp & data & raw & H1 & H2 & H3 & H4 & H5 & ->).
    split; [apply trim_trimmed|]. now exists resp, data, raw.
Qed.

Lemma empty_text_is_malformed_witness :
  fst (Background.handleAnalyze (Sample.signedIn (Sample.answer []))
         Sample.widget [])
  = Throw Background.unexpectedFormat
  /\ fst (Background.handleAnalyze
            (Sample.signedIn
               (Sample.answer
                  (js "  1. Try X" ++ [nl] ++ js "2. Try Y" ++ [nl])))
            Sample.widget [])
     = Ok (js "1. Try X" ++ [nl] ++ js "2. Try Y").
Proof.
  split.
  - destruct (sample_shape []) as (data & Hj & Hshape).
    apply (proj1 empty_text_is_malformed
             (Sample.signedIn (Sample.answer [])) (js "ya29.sample")
             Sample.widget [] (Sample.answer []) data).
    + repeat split; try reflexivity. discriminate.
    + reflexivity.
    + reflexivity.
    + exact Hj.
    + exact Hshape.
  - destruct (sample_shape (js "  1. Try X" ++ [nl] ++ js "2. Try Y" ++ [nl]))
      as (data & Hj & Hshape).
    apply (proj1 (proj2 empty_text_is_malformed)
             (Sample.signedIn
                (Sample.answer
                   (js "  1. Try X" ++ [nl] ++ js "2. Try Y" ++ [nl])))
             (js "ya29.sample") Sample.widget []
             (Sample.answer (js "  1. Try X" ++ [nl] ++ js "2. Try Y" ++ [nl]))
             data (js "  1. Try X" ++ [nl] ++ js "2. Try Y" ++ [nl])).
    + repeat split; try reflexivity. discriminate.
    + reflexivity.
    + reflexivity.
    + exact Hj.
    + exact Hshape.
    + discriminate.
Defined.


End Orchestration.

(* ================================================================== *)
(** * More on the extractor ([content.js], 21-70) *)
(* ================================================================== *)

Module ExtractorMore.
Import JS Content Spec Props StringFacts ContentFacts.

Lemma forallb_filter {A} (f : A -> bool) l : forallb f (filter f l) = true.
Proof.
  induction l as [|x l IH]; [reflexivity|]. cbn.
  destruct (f x) eqn:E; [cbn; now rewrite E | exact IH].
Qed.

Lemma filter_all {A} (f : A -> bool) l : forallb f l = true -> filter f l = l.
Proof.
  induction l as [|x l IH]; [reflexivity|]. cbn. intros H.
  apply andb_prop in H as [Hx Hl]. rewrite Hx. f_equal. now apply IH.
Qed.

Lemma extractProduct_raw pg r :
  extractProduct pg = Ok (Some r) ->
  exists t raw img,
    extractFields pg = Ok (t, raw, img)
    /\ r = {| title := t; price := normalizePrice raw;
              image := img; url := href pg |}.
Proof.
  destruct (extractFields pg) as [[[t p] i]|msg] eqn:E.
  - rewrite (extractProduct_fields pg E).
    destruct (nonempty t && nonempty (normalizePrice p)); [|discriminate].
    intros [= <-]. now exists t, p, i.
  - unfold extractProduct. rewrite E. discriminate.
Qed.

(** X1. Every record that [extractProduct] returns has a price made
    of digits and periods only, and its [url] is the address of the
    page, whatever the site branch that produced the raw price. *)
Theorem record_price_is_numeric pg r :
  extractProduct pg = Ok (Some r) ->
  forallb kept_in_price (price r) = true /\ url r = href pg.
Proof.
  intros H. destruct (extractProduct_raw pg H) as (t & raw & img & _ & ->).
  cbn [price url]. split; [|reflexivity].
  rewrite normalizePrice_filter. apply forallb_filter.
Qed.

Lemma record_price_is_numeric_witness :
  forallb kept_in_price (price Sample.widget) = true
  /\ url Sample.widget = href Sample.page.
Proof.
  apply (@record_price_is_numeric Sample.page Sample.widget).
  vm_compute. reflexivity.
Defined.

(** ** Pages of no known site *)

Lemma extractFields_generic pg t raw img :
  unknown_site pg -> extractFields pg = Ok (t, raw, img) ->
  findPrice pg = Ok raw.
Proof.
  intros (Ha & He & Hw). unfold extractFields. rewrite Ha, He, Hw.
  unfold rbind.
  destruct (innerText_trim pg _) as [v|e]; [|discriminate].
  destruct (findPrice pg) as [p|e]; [|discriminate].
  destruct (attribute content pg _) as [i|e]; [|discriminate].
  congruence.
Qed.

Lemma scanNodes_shape nodes :
  scanNodes nodes = [] \/ price_shaped (scanNodes nodes).
Proof.
  induction nodes as [|t nodes IH]; [now left|]. cbn [scanNodes].
  destruct (match0 priceRe t) as [m|] eqn:E; [|exact IH].
  right. destruct (match0_price_Some t E) as (a & z & _ & Hm & _). exact Hm.
Qed.

Lemma kept_digits ds :
  forallb is_digit_or_comma ds = true ->
  forallb is_digit (filter kept_in_price ds) = true.
Proof.
  induction ds as [|c ds IH]; [reflexivity|]. cbn. intros H.
  apply andb_prop in H as [Hc Hds]. unfold kept_in_price at 1.
  destruct (is_digit c) eqn:Ed; cbn.
  - now rewrite Ed, IH.
  - unfold is_digit_or_comma in Hc. rewrite Ed in Hc. cbn in Hc.
    unfold is_comma in Hc. apply N.eqb_eq in Hc. subst c. cbn. now apply IH.
Qed.

Lemma digits_kept frac :
  forallb is_digit frac = true -> filter kept_in_price frac = frac.
Proof.
  intros H. apply filter_all. revert H.
  induction frac as [|c frac IH]; [reflexivity|]. cbn. intros H.
  apply andb_prop in H as [Hc Hf]. unfold kept_in_price at 1.
  now rewrite Hc, IH.
Qed.

Lemma normalize_shaped m :
  price_shaped m -> digits_then_fraction (normalizePrice m).
Proof.
  intros (ds & dot & frac & -> & _ & Hds & Hdot & Hlen & Hfrac).
  rewrite normalizePrice_filter. cbn [filter].
  replace (kept_in_price 36%N) with false by reflexivity.
  rewrite !filter_app.
  destruct Hdot as [-> | ->]; cbn [filter app].
  - exists (filter kept_in_price ds ++ frac), []. rewrite app_nil_r.
    split; [|split].
    + f_equal. now apply digits_kept.
    + rewrite forallb_app. apply andb_true_intro.
      split; [now apply kept_digits | exact Hfrac].
    + now left.
  - replace (kept_in_price 46%N) with true by reflexivity.
    exists (filter kept_in_price ds), (46%N :: frac).
    split; [|split].
    + f_equal. cbn [app]. f_equal. now apply digits_kept.
    + now apply kept_digits.
    + right. now exists frac.
Qed.

(** X2. On a page of none of the three known sites, the price of a
    returned record is not empty and is a run of digits, which may be
    empty, followed by nothing or by a period and at most two digits:
    the cleaning of line 56 applied to the match of [findPrice].  The
    run of digits can indeed be empty: a page whose text holds "$,."
    yields a record whose price is "." *)
Theorem generic_price_is_digits_then_fraction :
  (forall pg r,
      unknown_site pg -> extractProduct pg = Ok (Some r) ->
      digits_then_fraction (price r) /\ price r <> [])
  /\ unknown_site Sample2.dotPage
  /\ extractProduct Sample2.dotPage
     = Ok (Some {| title := js "Acme Widget"; price := [46%N];
                   image := []; url := href Sample2.dotPage |}).
Proof.
  split; [|split; [|reflexivity]].
  - intros pg r Hu H.
    destruct (extractProduct_raw pg H) as (t & raw & img & Hf & ->).
    destruct (extractProduct_Some pg H) as [_ Hne]. cbn [price] in *.
    split; [|intros E; rewrite E in Hne; discriminate Hne].
    pose proof (extractFields_generic Hu Hf) as Hp.
    unfold findPrice in Hp. destruct (body pg) as [b|]; [|discriminate].
    injection Hp as <-.
    destruct (scanNodes_shape (textNodes b)) as [He|Hs].
    + rewrite He in Hne. discriminate Hne.
    + now apply normalize_shaped.
  - repeat split; reflexivity.
Qed.

Lemma generic_price_is_digits_then_fraction_witness :
  digits_then_fraction (price Sample.widget) /\ price Sample.widget <> [].
Proof.
  apply (proj1 generic_price_is_digits_then_fraction Sample.page Sample.widget).
  - repeat split; reflexivity.
  - vm_compute. reflexivity.
Defined.

(** ** The first known site *)

Lemma filter_digits_kept l :
  filter kept_in_price (filter (fun c => negb (not_digit c)) l)
  = filter is_digit l.
Proof.
  induction l as [|c l IH]; [reflexivity|]. cbn [filter].
  unfold not_digit at 1. rewrite negb_involutive.
  destruct (is_digit c) eqn:E; [|exact IH].
  cbn [filter]. unfold kept_in_price at 1. rewrite E. cbn [orb]. now f_equal.
Qed.

Lemma extractFields_amazon pg w f t raw img :
  includes (href pg) (js "amazon.com") = true ->
  innerText_opt_trim pg (js ".a-price-whole") = Ok w ->
  innerText_opt_trim pg (js ".a-price-fraction") = Ok f ->
  extractFields pg = Ok (t, raw, img) ->
  raw = if nonempty (or_else w []) || nonempty (or_else f [])
        then or_else w []
             ++ (if nonempty (or_else f [])
                 then js "." ++ replaceAll (Cls not_digit) [] (or_else f [])
                 else [])
        else [].
Proof.
  intros Ha Hw Hf. unfold extractFields. rewrite Ha. unfold rbind.
  destruct (innerText_trim pg _) as [v|e]; [|discriminate].
  rewrite Hw, Hf.
  destruct (attribute src pg (js "#landingImage")) as [i|e]; [|discriminate].
  destruct (truthy i).
  - now intros [= _ <- _].
  - destruct (attribute src pg _) as [i'|e]; [|discriminate].
    now intros [= _ <- _].
Qed.

(** X3. On the first known site the price of a returned record is
    the whole part with everything but digits and periods removed,
    followed, when the fraction part is not empty, by a period and the
    digits of the fraction.  A period that the whole part carries
    itself is kept, so the price can hold two periods in a row. *)
Theorem amazon_price_composed pg r w f :
  includes (href pg) (js "amazon.com") = true ->
  innerText_opt_trim pg (js ".a-price-whole") = Ok w ->
  innerText_opt_trim pg (js ".a-price-fraction") = Ok f ->
  extractProduct pg = Ok (Some r) ->
  price r = filter kept_in_price (or_else w [])
            ++ (if nonempty (or_else f [])
                then 46%N :: filter is_digit (or_else f [])
                else []).
Proof.
  intros Ha Hw Hf H.
  destruct (extractProduct_raw pg H) as (t & raw & img & Hx & ->).
  cbn [price]. rewrite (extractFields_amazon pg Ha Hw Hf Hx).
  rewrite normalizePrice_filter.
  destruct (nonempty (or_else f [])) eqn:Ef.
  - rewrite orb_true_r, filter_app. f_equal.
    rewrite replaceAll_Cls. cbn [js map list_ascii_of_string app filter].
    replace (kept_in_price (N_of_ascii "."%char)) with true by reflexivity.
    replace (N_of_ascii "."%char) with 46%N by reflexivity.
    f_equal. apply filter_digits_kept.
  - rewrite orb_false_r.
    destruct (or_else w []) as [|c l]; cbn [nonempty];
      [reflexivity | now rewrite filter_app].
Qed.

Lemma amazon_price_composed_witness :
  extractProduct Sample2.amazonPage
  = Ok (Some {| title := js "Acme Widget"; price := js "1299..99";
                image := []; url := href Sample2.amazonPage |})
  /\ js "1299..99"
     = filter kept_in_price (js "1,299.") ++ 46%N :: filter is_digit (js "99").
Proof.
  split; [vm_compute; reflexivity|].
  apply (@amazon_price_composed Sample2.amazonPage
           {| title := js "Acme Widget"; price := js "1299..99";
              image := []; url := href Sample2.amazonPage |}
           (Some (js "1,299.")) (Some (js "99"))).
  - reflexivity.
  - vm_compute. reflexivity.
  - vm_compute. reflexivity.
  - vm_compute. reflexivity.
Defined.

(** ** No text scan on the known sites *)

Lemma no_raw_price pg :
  (exists msg, extractFields pg = Throw msg)
  \/ (exists t img, extractFields pg = Ok (t, [], img)) ->
  extractProduct pg = Ok None.
Proof.
  intros [(msg & H)|(t & img & H)].
  - unfold extractProduct. now rewrite H.
  - rewrite (extractProduct_fields pg H). now rewrite andb_false_r.
Qed.

Ltac fin :=
  solve [ left; eexists; reflexivity
        | right; do 2 eexists; reflexivity ].

(** X4. On the three known sites the price comes from the site's own
    price elements only: when these are absent [extractProduct]
    returns null, whatever amounts the text of the page holds
    ([findPrice] is not consulted). *)
Theorem known_sites_never_scan pg :
  (includes (href pg) (js "amazon.com") = true ->
   querySelector pg (js ".a-price-whole") = Ok None ->
   querySelector pg (js ".a-price-fraction") = Ok None ->
   extractProduct pg = Ok None)
  /\ (includes (href pg) (js "amazon.com") = false ->
      includes (href pg) (js "ebay.com") = true ->
      querySelector pg priceSelector = Ok None ->
      extractProduct pg = Ok None)
  /\ (includes (href pg) (js "amazon.com") = false ->
      includes (href pg) (js "ebay.com") = false ->
      includes (href pg) (js "walmart.com") = true ->
      querySelector pg (js ".w_iUH7") = Ok None ->
      extractProduct pg = Ok None).
Proof.
  split; [|split].
  - intros Ha Hw Hf. apply no_raw_price.
    assert (Hw' : innerText_opt_trim pg (js ".a-price-whole") = Ok None)
      by (unfold innerText_opt_trim, rbind; now rewrite Hw).
    assert (Hf' : innerText_opt_trim pg (js ".a-price-fraction") = Ok None)
      by (unfold innerText_opt_trim, rbind; now rewrite Hf).
    unfold extractFields. rewrite Ha, Hw', Hf'. unfold rbind.
    destruct (innerText_trim pg _) as [v|e]; [|fin].
    cbn [or_else nonempty orb].
    destruct (attribute src pg (js "#landingImage")) as [i|e]; [|fin].
    destruct (truthy i); [fin|].
    destruct (attribute src pg _) as [i'|e]; fin.
  - intros Ha He Hp. apply no_raw_price.
    assert (Hp' : innerText_trim pg priceSelector = Ok None)
      by (unfold innerText_trim, rbind; now rewrite Hp).
    unfold priceSelector in Hp'.
    unfold extractFields. rewrite Ha, He, Hp'. clear Hp'. unfold rbind.
    destruct (innerText_trim pg _) as [v|e]; [|fin].
    destruct (truthy v).
    + destruct (attribute src pg _) as [i|e]; fin.
    + destruct (innerText_trim pg (js "h1")) as [v'|e]; [|fin].
      destruct (attribute src pg _) as [i|e]; fin.
  - intros Ha He Hw Hp. apply no_raw_price.
    assert (Hp' : innerText_trim pg (js ".w_iUH7") = Ok None)
      by (unfold innerText_trim, rbind; now rewrite Hp).
    unfold extractFields. rewrite Ha, He, Hw, Hp'. clear Hp'. unfold rbind.
    destruct (innerText_trim pg _) as [v|e]; [|fin].
    destruct (attribute src pg _) as [i|e]; fin.
Qed.

Lemma known_sites_never_scan_witness :
  extractProduct Sample2.amazonWithoutPrice = Ok None.
Proof.
  apply (proj1 (known_sites_never_scan Sample2.amazonWithoutPrice));
    reflexivity.
Defined.

(** ** The title of a page of no known site *)

Lemma star_to_end p bol s :
  star p (run Eol (fun _ rest => Some rest)) bol s
  = if forallb p s then Some [] else None.
Proof.
  revert bol. induction s as [|c s IH]; intro bol; [reflexivity|].
  cbn [star forallb]. destruct (p c); cbn [andb]; [|reflexivity].
  rewrite IH. now destruct (forallb p s).
Qed.

Lemma matchAt_suffixRe bol s : matchAt suffixRe bol s = suffix_rest s.
Proof.
  unfold matchAt, suffixRe, suffix_rest. cbn [run].
  destruct s as [|a [|b [|c r]]]; try reflexivity.
  - now destruct (is_blank a).
  - destruct (is_blank a); [|reflexivity]. now destruct (is_hyphen b).
  - destruct (is_blank a); [|reflexivity].
    destruct (is_hyphen b); [|reflexivity].
    destruct (is_blank c); [|reflexivity].
    cbn [andb]. apply star_to_end.
Qed.

Lemma suffix_rest_Some s rest :
  suffix_rest s = Some rest ->
  rest = [] /\ startsWith s separator = true /\ no_line_terminator s.
Proof.
  destruct s as [|a [|b [|c r]]]; try discriminate. cbn [suffix_rest].
  destruct (is_blank a) eqn:Ea; [|discriminate].
  destruct (is_hyphen b) eqn:Eb; [|discriminate].
  destruct (is_blank c) eqn:Ec; [|discriminate].
  destruct (forallb not_line_terminator r) eqn:Er; [|discriminate].
  intros [= <-]. apply N.eqb_eq in Ea, Eb, Ec. subst a b c.
  split; [reflexivity|]. split; [cbn; now destruct r|].
  unfold no_line_terminator. cbn. exact Er.
Qed.

Lemma suffix_rest_here b :
  no_line_terminator b -> suffix_rest (separator ++ b) = Some [].
Proof. intros H. cbn. unfold no_line_terminator in H. now rewrite H. Qed.

Lemma firstn_whole (s rest : jsstring) :
  rest = [] -> firstn (length s - length rest) s = s.
Proof. intros ->. cbn [length]. rewrite Nat.sub_0_r. apply firstn_all. Qed.

Lemma exec_from_suffix_Some s :
  forall bol pre m post,
    exec_from suffixRe bol s = Some (pre, m, post) ->
    s = pre ++ m /\ post = []
    /\ startsWith m separator = true /\ no_line_terminator m.
Proof.
  induction s as [|c s IH]; intros bol pre m post.
  - cbn [exec_from]. rewrite matchAt_suffixRe. discriminate.
  - cbn [exec_from]. rewrite matchAt_suffixRe.
    destruct (suffix_rest (c :: s)) as [rest|] eqn:E.
    + destruct (suffix_rest_Some _ E) as (Hr & Hs & Hn).
      rewrite (firstn_whole (c :: s) Hr).
      intros [= <- <- <-]. rewrite Hr. auto.
    + destruct (exec_from suffixRe false s) as [[[pre' m1] post1]|] eqn:E';
        [|discriminate].
      intros [= <- <- <-].
      destruct (IH false pre' m1 post1 E') as (Hs & Hp & Hm).
      repeat split; try tauto. cbn. now f_equal.
Qed.

Lemma startsWith_longer u v p :
  length p <= length u -> startsWith (u ++ v) p = startsWith u p.
Proof.
  revert p. induction u as [|x u IHu]; intros [|y p] H; cbn in *;
    try reflexivity; try lia.
  - now destruct v.
  - rewrite IHu by lia. reflexivity.
Qed.

Lemma exec_from_suffix_none s :
  includes s separator = false ->
  forall bol, exec_from suffixRe bol s = None.
Proof.
  induction s as [|c s IH]; intros Hi bol.
  - cbn [exec_from]. now rewrite matchAt_suffixRe.
  - rewrite includes_unfold in Hi. apply orb_false_elim in Hi as [Hs Hi].
    cbn [exec_from]. rewrite matchAt_suffixRe.
    destruct (suffix_rest (c :: s)) as [rest|] eqn:E.
    + destruct (suffix_rest_Some _ E) as (_ & Hs' & _). congruence.
    + now rewrite (IH Hi).
Qed.

Lemma exec_from_hit r bol s rest :
  matchAt r bol s = Some rest ->
  exec_from r bol s = Some ([], firstn (length s - length rest) s, rest).
Proof. destruct s; cbn [exec_from]; now intros ->. Qed.

Lemma exec_from_suffix_cut a b :
  no_line_terminator b ->
  includes (a ++ js " -") separator = false ->
  forall bol,
    exec_from suffixRe bol (a ++ separator ++ b)
    = Some (a, separator ++ b, []).
Proof.
  intros Hb. induction a as [|x a IH]; intros Hi bol.
  - cbn [app].
    rewrite (@exec_from_hit suffixRe bol (separator ++ b) []).
    + now rewrite (firstn_whole (separator ++ b) eq_refl).
    + rewrite matchAt_suffixRe. apply (suffix_rest_here Hb).
  - rewrite includes_unfold in Hi. apply orb_false_elim in Hi as [Hs Hi].
    cbn [app] in *. cbn [exec_from]. rewrite matchAt_suffixRe.
    destruct (suffix_rest (x :: a ++ separator ++ b)) as [rest|] eqn:E.
    + destruct (suffix_rest_Some _ E) as (_ & Hs' & _).
      assert (Hsplit : x :: a ++ separator ++ b
                       = (x :: a ++ js " -") ++ js " " ++ b).
      { cbn [app]. f_equal. rewrite <- app_assoc. reflexivity. }
      rewrite Hsplit in Hs'.
      rewrite startsWith_longer in Hs'; [congruence|].
      cbn. rewrite length_app. cbn. lia.
    + now rewrite (IH Hi).
Qed.

(** X5. The title fallback of line 50, [document.title.replace(/ - .*$/, '')]:
    the result is the title with an ending removed, and a removed
    ending starts with " - " and holds no line terminator; a title
    without " - " is unchanged; a title whose first " - " is followed
    by no line terminator is cut at that first occurrence; and on a
    page of no known site without a heading element, the title of a
    returned record is this cut of [document.title]. *)
Theorem title_cut_at_first_separator :
  (forall t, exists z,
      t = replace suffixRe [] t ++ z
      /\ (z = [] \/ (startsWith z separator = true /\ no_line_terminator z)))
  /\ (forall t, includes t separator = false -> replace suffixRe [] t = t)
  /\ (forall a b,
         no_line_terminator b ->
         includes (a ++ js " -") separator = false ->
         replace suffixRe [] (a ++ separator ++ b) = a)
  /\ (forall pg r,
         unknown_site pg ->
         querySelector pg
           (js "h1, [itemprop=" ++ dq ++ js "name" ++ dq ++ js "], .product-title")
         = Ok None ->
         extractProduct pg = Ok (Some r) ->
         title r = replace suffixRe [] (doc_title pg)).
Proof.
  split; [|split; [|split]].
  - intros t. unfold replace, exec.
    destruct (exec_from suffixRe true t) as [[[pre m] post]|] eqn:E.
    + destruct (exec_from_suffix_Some _ _ E) as (Ht & -> & Hs & Hn).
      exists m. rewrite !app_nil_r. auto.
    + exists []. rewrite app_nil_r. auto.
  - intros t Hi. unfold replace, exec. now rewrite exec_from_suffix_none.
  - intros a b Hb Hi. unfold replace, exec.
    rewrite (exec_from_suffix_cut a Hb Hi). now rewrite !app_nil_r.
  - intros pg r (Ha & He & Hw) Hq H.
    destruct (extractProduct_raw pg H) as (t & raw & img & Hx & ->).
    cbn [title]. revert Hx. unfold extractFields. rewrite Ha, He, Hw.
    unfold innerText_trim at 1. rewrite Hq. unfold rbind.
    cbn [truthy].
    destruct (findPrice pg) as [p|e]; [|discriminate].
    destruct (attribute content pg _) as [i|e]; [|discriminate].
    now intros [= <- _ _].
Qed.

Lemma title_cut_at_first_separator_witness :
  replace suffixRe [] (js "Acme Widget" ++ separator ++ js "Example Shop - Home")
  = js "Acme Widget".
Proof.
  apply (proj1 (proj2 (proj2 title_cut_at_first_separator))
           (js "Acme Widget") (js "Example Shop - Home")); reflexivity.
Defined.

End ExtractorMore.

(* ================================================================== *)
(** * More on the worker ([content.js], 97-171) *)
(* ================================================================== *)

Module WorkerFacts.
Import JS Effects Net Background Spec Props StringFacts BackgroundFacts.

(** What [handleAnalyze] does to the outside, in every case. *)
Lemma handleAnalyze_trace br product t :
  snd (handleAnalyze br product t)
  = t ++ GetAuthToken false
         :: match authToken br with
            | Some (c :: tk) =>
                if lastError br then []
                else [Fetch (request (c :: tk) product)]
            | _ => []
            end.
Proof.
  destruct (token_cases br) as [Hn|(token & Hs)].
  - rewrite (@handleAnalyze_no_token br product t Hn). cbn [snd].
    rewrite getTokenSilent_run in Hn. cbn [fst] in Hn.
    destruct (authToken br) as [[|c tk]|]; try reflexivity.
    destruct (lastError br); [reflexivity | discriminate].
  - rewrite (handleAnalyze_signed_in product t Hs). cbv zeta.
    destruct Hs as (Ht & Hne & He). rewrite Ht, He.
    destruct token as [|c tk]; [congruence|].
    destruct (fetch br _) as [resp|e]; [|reflexivity].
    destruct (ok resp).
    + destruct (bodyJson resp) as [data|e]; [|reflexivity].
      destruct (truthy (candidateText data)); [|reflexivity].
      now destruct (candidateText data).
    + now destruct (bodyText resp).
Qed.

(** X6. With a token from the silent lookup, [handleAnalyze] does
    exactly two things to the outside, whatever the endpoint answers:
    the lookup, then one request carrying that token.  In every case
    it issues at most one request and never asks for interactive
    consent. *)
Theorem analysis_requests_once br product :
  (forall token t,
      signed_in br token ->
      snd (handleAnalyze br product t)
      = t ++ [GetAuthToken false; Fetch (request token product)])
  /\ length (filter is_fetch (snd (handleAnalyze br product []))) <= 1
  /\ ~ In (GetAuthToken true) (snd (handleAnalyze br product [])).
Proof.
  split; [|split].
  - intros token t (Ht & Hne & He). rewrite handleAnalyze_trace, Ht, He.
    destruct token; [congruence | reflexivity].
  - rewrite handleAnalyze_trace.
    destruct (authToken br) as [[|c tk]|]; cbn; try lia.
    destruct (lastError br); cbn; lia.
  - rewrite handleAnalyze_trace.
    destruct (authToken br) as [[|c tk]|]; cbn; try (intros [H|[]]; discriminate).
    destruct (lastError br); cbn; intros H;
      repeat destruct H as [H|H]; try discriminate; try contradiction.
Qed.

Lemma analysis_requests_once_witness :
  snd (handleAnalyze (Sample.signedIn Sample.tooManyRequests) Sample.widget [])
  = [GetAuthToken false;
     Fetch (request (js "ya29.sample") Sample.widget)].
Proof.
  apply (proj1 (analysis_requests_once
                  (Sample.signedIn Sample.tooManyRequests) Sample.widget)
           (js "ya29.sample") []).
  split; [reflexivity | split; [discriminate | reflexivity]].
Defined.

(** X7. When the worker holds a token and the endpoint answers a 2xx
    response of the expected shape whose first candidate text is not
    empty, [handleAnalyze] returns that text trimmed, and the listener
    replies with it as suggestions. *)
Theorem analysis_returns_trimmed_text br token product t resp data text :
  signed_in br token ->
  fetch br (request token product) = Ok resp -> ok resp = true ->
  bodyJson resp = Ok data -> candidate_shape data text -> text <> [] ->
  fst (handleAnalyze br product t) = Ok (trim text)
  /\ fst (onAnalyzeWithAI br product t) = Ok (Suggestions (trim text)).
Proof.
  intros Hs Hf Hok Hj Hshape Hne.
  assert (H : fst (handleAnalyze br product t) = Ok (trim text)).
  { rewrite (handleAnalyze_signed_in product t Hs). cbv zeta.
    rewrite Hf, Hok, Hj, (candidateText_shape Hshape). cbn [truthy].
    destruct text; [congruence | reflexivity]. }
  split; [exact H|].
  unfold onAnalyzeWithAI, catch, bind.
  destruct (handleAnalyze br product t) as [[s|e] t']; cbn [fst] in *;
    [|discriminate].
  now injection H as ->.
Qed.

Lemma analysis_returns_trimmed_text_witness :
  fst (handleAnalyze (Sample.signedIn (Sample.answer (js "  1. Try X  ")))
         Sample.widget [])
  = Ok (js "1. Try X").
Proof.
  refine (proj1 (@analysis_returns_trimmed_text
            (Sample.signedIn (Sample.answer (js "  1. Try X  ")))
            (js "ya29.sample") Sample.widget []
            (Sample.answer (js "  1. Try X  ")) _ (js "  1. Try X  ")
            _ _ _ _ _ _)).
  - split; [reflexivity | split; [discriminate | reflexivity]].
  - reflexivity.
  - reflexivity.
  - reflexivity.
  - repeat eexists; reflexivity.
  - discriminate.
Defined.

(** ** The listener *)

Lemma onAnalyze_answers br product t :
  exists reply,
    onAnalyzeWithAI br product t
    = (Ok reply, snd (handleAnalyze br product t)).
Proof.
  unfold onAnalyzeWithAI, catch, bind.
  destruct (handleAnalyze br product t) as [[s|e] t']; cbn [snd];
    eexists; reflexivity.
Qed.

Lemma onMessage_analyze c product :
  exists reply,
    Worker.onMessage c (js "analyzeWithAI") product
    = (map Worker.Did (snd (handleAnalyze (Worker.silent c) product [])),
       Some (Worker.Analysis reply))
    /\ fst (onAnalyzeWithAI (Worker.silent c) product []) = Ok reply.
Proof.
  destruct (onAnalyze_answers (Worker.silent c) product []) as (reply & H).
  exists reply. unfold Worker.onMessage.
  change (str_eqb (js "analyzeWithAI") (js "analyzeWithAI")) with true.
  cbv iota. now rewrite H.
Qed.

(** X8. The [signed] flag the listener reports for [isSignedIn]
    agrees with what an analysis would meet: it is true exactly when
    the silent lookup hands over a non-empty token without error, and
    it is false exactly when [analyzeWithAI] is answered with the
    sign-in error after the lookup alone. *)
Theorem signed_flag_agrees_with_analysis c product :
  exists signed,
    Worker.onMessage c (js "isSignedIn") product
    = ([Worker.Did (GetAuthToken false)], Some (Worker.SignedIn signed))
    /\ (signed = true <-> exists token, signed_in (Worker.silent c) token)
    /\ (signed = false <->
        Worker.onMessage c (js "analyzeWithAI") product
        = ([Worker.Did (GetAuthToken false)],
           Some (Worker.Analysis (Error notSignedIn)))).
Proof.
  destruct (onMessage_analyze c product) as (reply & Hm & Hr). rewrite Hm.
  rewrite handleAnalyze_trace. revert Hr.
  unfold onAnalyzeWithAI, catch, bind.
  rewrite (surjective_pairing (handleAnalyze (Worker.silent c) product [])).
  unfold signed_in.
  destruct (token_cases (Worker.silent c)) as [Hn|(token & Hs)].
  - rewrite (@handleAnalyze_no_token (Worker.silent c) product [] Hn).
    cbn [fst snd ret]. intros [= <-].
    rewrite getTokenSilent_run in Hn. cbn [fst] in Hn.
    exists false. unfold Worker.onMessage, Worker.isSignedIn.
    change (str_eqb (js "isSignedIn") (js "analyzeWithAI")) with false.
    change (str_eqb (js "isSignedIn") (js "signIn")) with false.
    change (str_eqb (js "isSignedIn") (js "signOut")) with false.
    change (str_eqb (js "isSignedIn") (js "isSignedIn")) with true.
    cbv iota.
    destruct (authToken (Worker.silent c)) as [[|ch tk]|] eqn:Ea.
    + split; [reflexivity|]. split; [|tauto].
      split; [discriminate|]. intros (token & Ht & Hne & _). congruence.
    + destruct (lastError (Worker.silent c)) eqn:El; [|discriminate].
      split; [reflexivity|]. split; [|tauto].
      split; [discriminate|]. intros (token & _ & _ & He). congruence.
    + split; [reflexivity|]. split; [|tauto].
      split; [discriminate|]. intros (token & Ht & _). congruence.
  - intros _. destruct Hs as (Ht & Hne & He).
    exists true. unfold Worker.onMessage, Worker.isSignedIn.
    change (str_eqb (js "isSignedIn") (js "analyzeWithAI")) with false.
    change (str_eqb (js "isSignedIn") (js "signIn")) with false.
    change (str_eqb (js "isSignedIn") (js "signOut")) with false.
    change (str_eqb (js "isSignedIn") (js "isSignedIn")) with true.
    cbv iota. rewrite Ht, He.
    destruct token as [|ch tk]; [congruence|]. cbn [negb map].
    split; [reflexivity|]. split.
    + split; [|reflexivity]. intros _. exists (ch :: tk). now repeat split.
    + split; [discriminate|]. intros H. discriminate H.
Qed.




End WorkerFacts.

(* ================================================================== *)
(** * More on one click ([popup.js], 153-227 and 435-522) *)
(* ================================================================== *)

Module ClickFacts.
Import JS Effects Net UI Spec Props StringFacts EffectFacts UIFacts.
Import PopupFacts PopupDemoFacts.

#[local] Notation "x <- m ;; k" := (bind m (fun x => k))
  (at level 61, m at next level, right associativity).
#[local] Notation "m ;;; k" := (bind m (fun _ => k))
  (at level 61, right associativity).

(** ** Steps that leave the state alone *)

Lemma activeTab_pure env msg st : snd (activeTab env msg st) = st.
Proof.
  unfold activeTab, bind, lift.
  destruct (tabsQuery env) as [[|tab tabs]|e]; try reflexivity.
  destruct (tab_id tab) as [id|]; [|reflexivity].
  now destruct (N.eqb id 0).
Qed.

Lemma requestExtraction_pure tab st : snd (requestExtraction tab st) = st.
Proof.
  unfold requestExtraction. destruct (tab_page tab) as [pg|]; [|reflexivity].
  now destruct (Content.onMessage pg _) as [[r|]|e].
Qed.

(** ** Events of the worker in the popup's trace *)

Lemma worker_events_fields ws st :
  trace (worker_events ws st) = trace st ++ map Worker ws
  /\ history (worker_events ws st) = history st
  /\ isTrackingEnabled (worker_events ws st) = isTrackingEnabled st
  /\ outputDiv (worker_events ws st) = outputDiv st
  /\ busy (worker_events ws st) = busy st
  /\ currentState (worker_events ws st) = currentState st.
Proof.
  revert st. induction ws as [|e ws IH]; intros st.
  - cbn. now rewrite app_nil_r.
  - cbn [worker_events fold_left map].
    destruct (IH (with_event (Worker e) st)) as (H1 & H2 & H3 & H4 & H5 & H6).
    unfold worker_events in *. rewrite H1, H2, H3, H4, H5, H6.
    cbn [trace with_event history isTrackingEnabled outputDiv busy currentState].
    rewrite <- app_assoc. now repeat split.
Qed.

(** ** The accessible popup, step by step *)

Lemma callBackgroundAI_cases w data st :
  exists r ws,
    Popup.callBackgroundAI w data st = (r, worker_events ws st)
    /\ (ws = []
        \/ ws = snd (Background.handleAnalyze (Popup.worker w) data [])).
Proof.
  unfold Popup.callBackgroundAI.
  destruct (Popup.runtimeLastError w) as [m|].
  - exists (Throw m), []. split; [reflexivity | now left].
  - destruct (WorkerFacts.onAnalyze_answers (Popup.worker w) data [])
      as (reply & H).
    rewrite H. unfold bind, modify.
    destruct reply as [text|[|c m]]; eexists; eexists;
      (split; [reflexivity | now right]).
Qed.

Lemma analyzeCatch_ends w e st :
  exists rest,
    fst (Popup.analyzeCatch w e st) = Ok tt
    /\ trace (snd (Popup.analyzeCatch w e st)) = trace st ++ rest
    /\ forallb is_display rest = true
    /\ history (snd (Popup.analyzeCatch w e st)) = history st
    /\ isTrackingEnabled (snd (Popup.analyzeCatch w e st))
       = isTrackingEnabled st
    /\ busy (snd (Popup.analyzeCatch w e st)) = false
    /\ currentState (snd (Popup.analyzeCatch w e st)) = error.
Proof.
  unfold Popup.analyzeCatch.
  destruct (includes e (js "API key") || includes e (js "API error"));
    run_ui; rewrite <- ?app_assoc; cbn [app];
    eexists; (split; [reflexivity|]); (split; [reflexivity|]);
    now repeat split.
Qed.

Lemma analyzeTry_cases w st :
  (exists e, Popup.analyzeTry w st = (Throw e, st))
  \/ (exists data,
         Popup.analyzeTry w st =
         (logHistory (Popup.env w) data ;;;
          suggestions <- Popup.callBackgroundAI w data ;;
          modify (with_currentState results) ;;;
          renderProduct data ;;;
          Popup.renderSuggestions suggestions ;;;
          showLoading false ;;;
          Popup.announceToScreenReader (js "Analysis complete")) st).
Proof.
  unfold Popup.analyzeTry.
  destruct (negb (nonempty (Popup.GEMINI_API_KEY w))
            || negb (startsWith (Popup.GEMINI_API_KEY w) (js "AIza")));
    cbn [when].
  { left. eexists. reflexivity. }
  erewrite bind_ok by reflexivity.
  pose proof (activeTab_pure (Popup.env w) (js "No active tab found.") st) as Ht.
  destruct (activeTab (Popup.env w) (js "No active tab found.") st)
    as [[t|e] s1] eqn:Et; cbn [snd] in Ht; subst s1.
  2:{ left. exists e. now apply bind_throw. }
  erewrite bind_ok by exact Et.
  pose proof (requestExtraction_pure (snd t) st) as Hr.
  destruct (requestExtraction (snd t) st) as [[[data|]|e] s1] eqn:Er;
    cbn [snd] in Hr; subst s1.
  - erewrite bind_ok by exact Er. cbv beta iota.
    destruct (negb (nonempty (Content.title data))).
    + left. eexists. reflexivity.
    + right. now exists data.
  - erewrite bind_ok by exact Er. left. eexists. reflexivity.
  - left. exists e. now apply bind_throw.
Qed.

Lemma catch_bind_ok {S A B} (m : Eff S A) (f : A -> Eff S B) h st a st' :
  m st = (Ok a, st') -> catch (bind m f) h st = catch (f a) h st'.
Proof. unfold catch, bind. now intros ->. Qed.

Lemma catch_bind_throw {S A B} (m : Eff S A) (f : A -> Eff S B) h st e st' :
  m st = (Throw e, st') -> catch (bind m f) h st = h e st'.
Proof. unfold catch, bind. now intros ->. Qed.

Lemma catch_ext {S A} (m m' : Eff S A) h st :
  m st = m' st -> catch m h st = catch m' h st.
Proof. unfold catch. now intros ->. Qed.

(** What follows the history step, with the [catch] block around it. *)
Lemma after_log w data st :
  let r :=
    catch (suggestions <- Popup.callBackgroundAI w data ;;
           modify (with_currentState results) ;;;
           renderProduct data ;;;
           Popup.renderSuggestions suggestions ;;;
           showLoading false ;;;
           Popup.announceToScreenReader (js "Analysis complete"))
          (Popup.analyzeCatch w) st in
  exists ws rest,
    trace (snd r) = trace st ++ map Worker ws ++ rest
    /\ (ws = []
        \/ ws = snd (Background.handleAnalyze (Popup.worker w) data []))
    /\ forallb is_display rest = true
    /\ history (snd r) = history st
    /\ isTrackingEnabled (snd r) = isTrackingEnabled st
    /\ fst r = Ok tt
    /\ busy (snd r) = false
    /\ (currentState (snd r) = results \/ currentState (snd r) = error).
Proof.
  cbv zeta.
  destruct (callBackgroundAI_cases w data st) as (r & ws & Hc & Hws).
  destruct (worker_events_fields ws st) as (Ht & Hh & Htr & _).
  destruct r as [text|e].
  - rewrite (@catch_bind_ok _ _ _ _ _ _ _ _ _ Hc). run_ui.
    exists ws. eexists. rewrite Ht, Hh, Htr.
    rewrite <- !app_assoc. cbn [app].
    split; [reflexivity|]. split; [exact Hws|]. now repeat split; auto.
  - rewrite (@catch_bind_throw _ _ _ _ _ _ _ _ _ Hc).
    destruct (analyzeCatch_ends w e (worker_events ws st))
      as (rest & H1 & H2 & H3 & H4 & H5 & H6 & H7).
    exists ws, rest. rewrite H1, H2, H4, H5, H6, H7, Ht, Hh, Htr.
    rewrite <- app_assoc. now repeat split; auto.
Qed.

(** One click of the accessible popup, in every case. *)
Lemma click_anatomy w st :
  exists hs ws rest,
    trace (snd (Popup.analyzeProduct w st))
    = trace st ++ [Panel []; Announce (js "Analyzing product")]
      ++ hs ++ map Worker ws ++ rest
    /\ ((hs = [] /\ history (snd (Popup.analyzeProduct w st)) = history st)
        \/ (isTrackingEnabled st = true
            /\ hs = [StorageSet (history (snd (Popup.analyzeProduct w st)))]
            /\ exists data,
                 history (snd (Popup.analyzeProduct w st))
                 = entry (Popup.env w) data :: firstn 49 (history st)))
    /\ (ws = []
        \/ exists data,
             ws = snd (Background.handleAnalyze (Popup.worker w) data []))
    /\ forallb is_display rest = true
    /\ fst (Popup.analyzeProduct w st) = Ok tt
    /\ busy (snd (Popup.analyzeProduct w st)) = false
    /\ (currentState (snd (Popup.analyzeProduct w st)) = results
        \/ currentState (snd (Popup.analyzeProduct w st)) = error).
Proof.
  rewrite analyzeProduct_started.
  assert (Ht0 : trace (started st)
                = trace st ++ [Panel []; Announce (js "Analyzing product")]).
  { unfold started. cbn. now rewrite <- app_assoc. }
  assert (Hh0 : history (started st) = history st) by reflexivity.
  assert (Htr0 : isTrackingEnabled (started st) = isTrackingEnabled st)
    by reflexivity.
  destruct (analyzeTry_cases w (started st)) as [(e & He)|(data & Hd)].
  - rewrite (@catch_throw _ _ _ _ _ _ _ He).
    destruct (analyzeCatch_ends w e (started st))
      as (rest & H1 & H2 & H3 & H4 & H5 & H6 & H7).
    exists [], [], rest. rewrite H1, H2, H4, H6, H7, Ht0, Hh0.
    cbn [map app]. rewrite <- app_assoc.
    now repeat split; auto.
  - rewrite (@catch_ext _ _ _ _ (Popup.analyzeCatch w) _ Hd).
    pose proof (logHistory_run (Popup.env w) data (started st)) as Hl.
    rewrite Htr0, Hh0 in Hl. cbv zeta in Hl.
    destruct (isTrackingEnabled st) eqn:Etr.
    + destruct (storageSet (Popup.env w)) as [[]|e] eqn:Es.
      * rewrite (@catch_bind_ok _ _ _ _ _ _ _ _ _ Hl). cbv beta.
        destruct (after_log w data
                    (with_event
                       (StorageSet (splice 50 (unshift (entry (Popup.env w) data)
                                                 (history st))))
                       (with_history (splice 50 (unshift (entry (Popup.env w) data)
                                                   (history st)))
                          (started st))))
          as (ws & rest & H1 & H2 & H3 & H4 & H5 & H6 & H7 & H8).
        exists [StorageSet (splice 50 (unshift (entry (Popup.env w) data)
                                        (history st)))], ws, rest.
        rewrite H1, H4, H6, H7.
        cbn [trace history with_event with_history]. rewrite Ht0.
        rewrite <- !app_assoc. cbn [app].
        split; [reflexivity|]. split.
        { right. split; [reflexivity|]. split; [reflexivity|].
          now exists data. }
        split; [destruct H2; eauto|]. now repeat split; auto.
      * rewrite (@catch_bind_throw _ _ _ _ _ _ _ _ _ Hl).
        destruct (analyzeCatch_ends w e
                    (with_event
                       (StorageSet (splice 50 (unshift (entry (Popup.env w) data)
                                                 (history st))))
                       (with_history (splice 50 (unshift (entry (Popup.env w) data)
                                                   (history st)))
                          (started st))))
          as (rest & H1 & H2 & H3 & H4 & H5 & H6 & H7).
        exists [StorageSet (splice 50 (unshift (entry (Popup.env w) data)
                                        (history st)))], [], rest.
        rewrite H1, H2, H4, H6, H7.
        cbn [trace history with_event with_history]. rewrite Ht0.
        rewrite <- !app_assoc. cbn [app map].
        split; [reflexivity|]. split.
        { right. split; [reflexivity|]. split; [reflexivity|].
          now exists data. }
        now repeat split; auto.
    + rewrite (@catch_bind_ok _ _ _ _ _ _ _ _ _ Hl). cbv beta.
      destruct (after_log w data (started st))
        as (ws & rest & H1 & H2 & H3 & H4 & H5 & H6 & H7 & H8).
      exists [], ws, rest. rewrite H1, H4, H6, H7, Ht0, Hh0.
      rewrite <- !app_assoc. cbn [app].
      split; [reflexivity|]. split; [now left|].
      split; [destruct H2; eauto|]. now repeat split; auto.
Qed.

(** ** The popup with the hard-coded key, step by step *)

Lemma callGeminiAPI_cases w data st :
  exists r,
    PopupDemo.callGeminiAPI w data st
    = (r, with_event (Post (PopupDemo.request data)) st).
Proof.
  rewrite callGeminiAPI_run. cbv zeta.
  repeat match goal with
         | |- context [match ?x with _ => _ end] => destruct x
         end; eexists; reflexivity.
Qed.

Lemma demo_analyzeCatch_ends w e st :
  exists rest,
    fst (PopupDemo.analyzeCatch w e st) = Ok tt
    /\ trace (snd (PopupDemo.analyzeCatch w e st)) = trace st ++ rest
    /\ forallb is_display rest = true
    /\ history (snd (PopupDemo.analyzeCatch w e st)) = history st
    /\ isTrackingEnabled (snd (PopupDemo.analyzeCatch w e st))
       = isTrackingEnabled st
    /\ busy (snd (PopupDemo.analyzeCatch w e st)) = false.
Proof.
  unfold PopupDemo.analyzeCatch.
  destruct (includes e (js "Demo mode") || includes e (js "API error"));
    run_ui; rewrite <- ?app_assoc; cbn [app];
    eexists; (split; [reflexivity|]); (split; [reflexivity|]);
    now repeat split.
Qed.

Lemma demo_analyzeTry_cases w st :
  (exists e, PopupDemo.analyzeTry w st = (Throw e, st))
  \/ (exists data,
         PopupDemo.analyzeTry w st =
         (logHistory (PopupDemo.env w) data ;;;
          suggestions <- PopupDemo.callGeminiAPI w data ;;
          renderProduct data ;;;
          PopupDemo.renderSuggestions suggestions ;;;
          showLoading false) st).
Proof.
  unfold PopupDemo.analyzeTry.
  replace (negb (nonempty PopupDemo.apiKey)
           || negb (startsWith PopupDemo.apiKey (js "AIza")))
    with false by reflexivity.
  cbn [when]. erewrite bind_ok by reflexivity.
  pose proof (activeTab_pure (PopupDemo.env w) (js "No active tab found.") st)
    as Ht.
  destruct (activeTab (PopupDemo.env w) (js "No active tab found.") st)
    as [[t|e] s1] eqn:Et; cbn [snd] in Ht; subst s1.
  2:{ left. exists e. now apply bind_throw. }
  erewrite bind_ok by exact Et.
  pose proof (requestExtraction_pure (snd t) st) as Hr.
  destruct (requestExtraction (snd t) st) as [[[data|]|e] s1] eqn:Er;
    cbn [snd] in Hr; subst s1.
  - erewrite bind_ok by exact Er. cbv beta iota.
    destruct (negb (nonempty (Content.title data))).
    + left. eexists. reflexivity.
    + right. now exists data.
  - erewrite bind_ok by exact Er. left. eexists. reflexivity.
  - left. exists e. now apply bind_throw.
Qed.

Lemma demo_after_log w data st :
  let r :=
    catch (suggestions <- PopupDemo.callGeminiAPI w data ;;
           renderProduct data ;;;
           PopupDemo.renderSuggestions suggestions ;;;
           showLoading false)
          (PopupDemo.analyzeCatch w) st in
  exists rest,
    trace (snd r) = trace st ++ Post (PopupDemo.request data) :: rest
    /\ forallb is_display rest = true
    /\ history (snd r) = history st
    /\ isTrackingEnabled (snd r) = isTrackingEnabled st
    /\ fst r = Ok tt
    /\ busy (snd r) = false.
Proof.
  cbv zeta.
  destruct (callGeminiAPI_cases w data st) as (r & Hc).
  destruct r as [text|e].
  - rewrite (@catch_bind_ok _ _ _ _ _ _ _ _ _ Hc). run_ui.
    eexists. rewrite <- !app_assoc. cbn [app].
    split; [reflexivity|]. now repeat split.
  - rewrite (@catch_bind_throw _ _ _ _ _ _ _ _ _ Hc).
    destruct (demo_analyzeCatch_ends w e
                (with_event (Post (PopupDemo.request data)) st))
      as (rest & H1 & H2 & H3 & H4 & H5 & H6).
    exists rest. rewrite H1, H2, H4, H5, H6.
    cbn [trace with_event history isTrackingEnabled].
    rewrite <- app_assoc. now repeat split.
Qed.

(** One click of the popup with the hard-coded key, in every case. *)
Lemma demo_click_anatomy w st :
  exists hs ps rest,
    trace (snd (PopupDemo.analyzeProduct w st))
    = trace st ++ [Panel []] ++ hs ++ ps ++ rest
    /\ ((hs = [] /\ history (snd (PopupDemo.analyzeProduct w st)) = history st)
        \/ (isTrackingEnabled st = true
            /\ hs = [StorageSet (history (snd (PopupDemo.analyzeProduct w st)))]
            /\ exists data,
                 history (snd (PopupDemo.analyzeProduct w st))
                 = entry (PopupDemo.env w) data :: firstn 49 (history st)))
    /\ (ps = [] \/ exists data, ps = [Post (PopupDemo.request data)])
    /\ forallb is_display rest = true
    /\ fst (PopupDemo.analyzeProduct w st) = Ok tt
    /\ busy (snd (PopupDemo.analyzeProduct w st)) = false.
Proof.
  rewrite demo_analyzeProduct_started.
  assert (Ht0 : trace (demo_started st) = trace st ++ [Panel []])
    by reflexivity.
  assert (Hh0 : history (demo_started st) = history st) by reflexivity.
  assert (Htr0 : isTrackingEnabled (demo_started st) = isTrackingEnabled st)
    by reflexivity.
  destruct (demo_analyzeTry_cases w (demo_started st))
    as [(e & He)|(data & Hd)].
  - rewrite (@catch_throw _ _ _ _ _ _ _ He).
    destruct (demo_analyzeCatch_ends w e (demo_started st))
      as (rest & H1 & H2 & H3 & H4 & H5 & H6).
    exists [], [], rest. rewrite H1, H2, H4, H6, Ht0, Hh0.
    cbn [app]. rewrite <- app_assoc.
    now repeat split; auto.
  - rewrite (@catch_ext _ _ _ _ (PopupDemo.analyzeCatch w) _ Hd).
    pose proof (logHistory_run (PopupDemo.env w) data (demo_started st)) as Hl.
    rewrite Htr0, Hh0 in Hl. cbv zeta in Hl.
    destruct (isTrackingEnabled st) eqn:Etr.
    + destruct (storageSet (PopupDemo.env w)) as [[]|e] eqn:Es.
      * rewrite (@catch_bind_ok _ _ _ _ _ _ _ _ _ Hl). cbv beta.
        destruct (demo_after_log w data
                    (with_event
                       (StorageSet
                          (splice 50 (unshift (entry (PopupDemo.env w) data)
                                        (history st))))
                       (with_history
                          (splice 50 (unshift (entry (PopupDemo.env w) data)
                                        (history st)))
                          (demo_started st))))
          as (rest & H1 & H3 & H4 & H5 & H6 & H7).
        exists [StorageSet (splice 50 (unshift (entry (PopupDemo.env w) data)
                                        (history st)))],
               [Post (PopupDemo.request data)], rest.
        rewrite H1, H4, H6, H7.
        cbn [trace history with_event with_history]. rewrite Ht0.
        rewrite <- !app_assoc. cbn [app].
        split; [reflexivity|]. split.
        { right. split; [reflexivity|]. split; [reflexivity|].
          now exists data. }
        split; [eauto|]. now repeat split; auto.
      * rewrite (@catch_bind_throw _ _ _ _ _ _ _ _ _ Hl).
        destruct (demo_analyzeCatch_ends w e
                    (with_event
                       (StorageSet
                          (splice 50 (unshift (entry (PopupDemo.env w) data)
                                        (history st))))
                       (with_history
                          (splice 50 (unshift (entry (PopupDemo.env w) data)
                                        (history st)))
                          (demo_started st))))
          as (rest & H1 & H2 & H3 & H4 & H5 & H6).
        exists [StorageSet (splice 50 (unshift (entry (PopupDemo.env w) data)
                                        (history st)))], [], rest.
        rewrite H1, H2, H4, H6.
        cbn [trace history with_event with_history]. rewrite Ht0.
        rewrite <- !app_assoc. cbn [app].
        split; [reflexivity|]. split.
        { right. split; [reflexivity|]. split; [reflexivity|].
          now exists data. }
        now repeat split; auto.
    + rewrite (@catch_bind_ok _ _ _ _ _ _ _ _ _ Hl). cbv beta.
      destruct (demo_after_log w data (demo_started st))
        as (rest & H1 & H3 & H4 & H5 & H6 & H7).
      exists [], [Post (PopupDemo.request data)], rest.
      rewrite H1, H4, H6, H7, Ht0, Hh0.
      rewrite <- !app_assoc. cbn [app].
      split; [reflexivity|]. split; [now left|].
      split; [eauto|]. now repeat split; auto.
Qed.

(** ** What one click adds to the trace *)

Lemma new_events_app st st' evs :
  trace st' = trace st ++ evs -> new_events st st' = evs.
Proof.
  unfold new_events. intros ->. generalize (trace st) as l.
  induction l as [|x l IH]; [reflexivity | exact IH].
Qed.

Lemma display_not_write rest h :
  forallb is_display rest = true -> ~ In (StorageSet h) rest.
Proof.
  intros H Hin. rewrite forallb_forall in H. specialize (H _ Hin).
  discriminate H.
Qed.

Lemma capped A (x : A) l : length (x :: firstn 49 l) <= 50.
Proof. cbn [length]. pose proof (firstn_le_length 49 l). lia. Qed.


(** X10. Every click on Analyze returns normally with the spinner
    off and the button enabled again, whatever the browser, the page,
    the storage and the service answer.  The accessible popup is then
    in its results or its error state, never left loading. *)
Theorem click_always_returns :
  (forall w st,
      fst (Popup.analyzeProduct w st) = Ok tt
      /\ busy (snd (Popup.analyzeProduct w st)) = false
      /\ (currentState (snd (Popup.analyzeProduct w st)) = results
          \/ currentState (snd (Popup.analyzeProduct w st)) = error))
  /\ (forall w st,
         fst (PopupDemo.analyzeProduct w st) = Ok tt
         /\ busy (snd (PopupDemo.analyzeProduct w st)) = false).
Proof.
  split; intros w st.
  - destruct (click_anatomy w st) as (hs & ws & rest & _ & _ & _ & _ & H).
    exact H.
  - destruct (demo_click_anatomy w st) as (hs & ps & rest & _ & _ & _ & _ & H).
    exact H.
Qed.


Lemma write_in_click w st h :
  In (StorageSet h) (new_events st (snd (Popup.analyzeProduct w st))) ->
  h = history (snd (Popup.analyzeProduct w st))
  /\ length h <= 50 /\ isTrackingEnabled st = true.
Proof.
  destruct (click_anatomy w st) as (hs & ws & rest & Ht & Hh & _ & Hr & _).
  rewrite (@new_events_app _ _ _ Ht). intros Hin.
  cbn [app] in Hin. destruct Hin as [Hin|[Hin|Hin]]; try discriminate.
  apply in_app_or in Hin as [Hin|Hin].
  - destruct Hh as [[-> _]|(Htr & -> & data & Hd)]; [contradiction|].
    destruct Hin as [[= <-]|[]]. split; [reflexivity|].
    split; [|exact Htr]. rewrite Hd. apply capped.
  - apply in_app_or in Hin as [Hin|Hin].
    + apply in_map_iff in Hin as (e & He & _). discriminate.
    + now apply display_not_write in Hin.
Qed.

Lemma demo_write_in_click w st h :
  In (StorageSet h) (new_events st (snd (PopupDemo.analyzeProduct w st))) ->
  h = history (snd (PopupDemo.analyzeProduct w st))
  /\ length h <= 50 /\ isTrackingEnabled st = true.
Proof.
  destruct (demo_click_anatomy w st)
    as (hs & ps & rest & Ht & Hh & Hp & Hr & _).
  rewrite (@new_events_app _ _ _ Ht). intros Hin.
  cbn [app] in Hin. destruct Hin as [Hin|Hin]; try discriminate.
  apply in_app_or in Hin as [Hin|Hin].
  - destruct Hh as [[-> _]|(Htr & -> & data & Hd)]; [contradiction|].
    destruct Hin as [[= <-]|[]]. split; [reflexivity|].
    split; [|exact Htr]. rewrite Hd. apply capped.
  - apply in_app_or in Hin as [Hin|Hin].
    + destruct Hp as [->|(data & ->)]; [contradiction|].
      destruct Hin as [Hin|[]]. discriminate.
    + now apply display_not_write in Hin.
Qed.

(** X12. Whatever list a click writes to storage is the history the
    popup holds in memory when the click ends, and it has at most 50
    entries, whatever the length of the history before the click. *)
Theorem stored_history_is_memory :
  (forall w st h,
      In (StorageSet h) (new_events st (snd (Popup.analyzeProduct w st))) ->
      h = history (snd (Popup.analyzeProduct w st)) /\ length h <= 50)
  /\ (forall w st h,
         In (StorageSet h)
            (new_events st (snd (PopupDemo.analyzeProduct w st))) ->
         h = history (snd (PopupDemo.analyzeProduct w st))
         /\ length h <= 50).
Proof.
  split; intros w st h Hin.
  - destruct (write_in_click w st h Hin) as (H1 & H2 & _). now split.
  - destruct (demo_write_in_click w st h Hin) as (H1 & H2 & _). now split.
Qed.

Lemma stored_history_is_memory_witness :
  [entry Sample.env Sample.widget]
  = history (snd (Popup.analyzeProduct (Sample.world Sample.signedOut)
                    Sample.fresh))
  /\ length [entry Sample.env Sample.widget] <= 50.
Proof.
  apply (proj1 stored_history_is_memory (Sample.world Sample.signedOut)
           Sample.fresh [entry Sample.env Sample.widget]).
  vm_compute. right. right. left. reflexivity.
Defined.

Lemma keeps_when_untracked w st :
  isTrackingEnabled st = false ->
  history (snd (Popup.analyzeProduct w st)) = history st.
Proof.
  intros Htr. destruct (logs_analyzeProduct w st) as [_ [H|(H & _)]];
    [exact H | congruence].
Qed.

Lemma demo_keeps_when_untracked w st :
  isTrackingEnabled st = false ->
  history (snd (PopupDemo.analyzeProduct w st)) = history st.
Proof.
  intros Htr. destruct (logs_demo_analyzeProduct w st) as [_ [H|(H & _)]];
    [exact H | congruence].
Qed.

(** X13. With tracking switched off, a click leaves the history as
    it is and writes nothing to storage, whatever else happens. *)
Theorem tracking_off_writes_nothing :
  (forall w st,
      isTrackingEnabled st = false ->
      history (snd (Popup.analyzeProduct w st)) = history st
      /\ forall h,
           ~ In (StorageSet h)
                (new_events st (snd (Popup.analyzeProduct w st))))
  /\ (forall w st,
         isTrackingEnabled st = false ->
         history (snd (PopupDemo.analyzeProduct w st)) = history st
         /\ forall h,
              ~ In (StorageSet h)
                   (new_events st (snd (PopupDemo.analyzeProduct w st)))).
Proof.
  split; intros w st Htr.
  - split; [now apply keeps_when_untracked|]. intros h Hin.
    destruct (write_in_click w st h Hin) as (_ & _ & H). congruence.
  - split; [now apply demo_keeps_when_untracked|]. intros h Hin.
    destruct (demo_write_in_click w st h Hin) as (_ & _ & H). congruence.
Qed.

Lemma tracking_off_writes_nothing_witness :
  history (snd (Popup.analyzeProduct
                  (Sample.world (Sample.signedIn (Sample.answer Sample.twoItems)))
                  Sample2.untracked))
  = []
  /\ forall h,
       ~ In (StorageSet h)
            (new_events Sample2.untracked
               (snd (Popup.analyzeProduct
                       (Sample.world
                          (Sample.signedIn (Sample.answer Sample.twoItems)))
                       Sample2.untracked))).
Proof.
  apply (proj1 tracking_off_writes_nothing
           (Sample.world (Sample.signedIn (Sample.answer Sample.twoItems)))
           Sample2.untracked).
  reflexivity.
Defined.

(** ** Clicks that stop early *)

Lemma activeTab_ok env msg st tab rest id :
  tabsQuery env = Ok (tab :: rest) -> tab_id tab = Some id -> id <> 0%N ->
  activeTab env msg st = (Ok (id, tab), st).
Proof.
  intros Hq Hid Hne. unfold activeTab, bind, lift. rewrite Hq, Hid.
  apply N.eqb_neq in Hne. now rewrite Hne.
Qed.

Lemma requestExtraction_none tab pg st :
  tab_page tab = Some pg -> Content.extractProduct pg = Ok None ->
  requestExtraction tab st = (Ok None, st).
Proof.
  intros Hp He. unfold requestExtraction. rewrite Hp.
  unfold Content.onMessage.
  change (str_eqb (js "extractProduct") (js "extractProduct")) with true.
  cbv iota. now rewrite He.
Qed.

Lemma analyzeTry_no_product w st :
  key_configured w -> shows_no_product (Popup.env w) ->
  Popup.analyzeTry w st = (Throw Popup.noProduct, st).
Proof.
  intros [Hk1 Hk2] (tab & rest & id & pg & Hq & Hid & Hne & Hp & He).
  unfold Popup.analyzeTry.
  apply nonempty_true in Hk1. rewrite Hk1, Hk2. cbn [negb orb when].
  erewrite bind_ok by reflexivity.
  erewrite bind_ok
    by exact (@activeTab_ok (Popup.env w) _ st tab rest id Hq Hid Hne).
  cbn [snd].
  erewrite bind_ok by exact (@requestExtraction_none tab pg st Hp He).
  reflexivity.
Qed.

Lemma demo_analyzeTry_no_product w st :
  shows_no_product (PopupDemo.env w) ->
  PopupDemo.analyzeTry w st = (Throw PopupDemo.noProduct, st).
Proof.
  intros (tab & rest & id & pg & Hq & Hid & Hne & Hp & He).
  unfold PopupDemo.analyzeTry.
  replace (negb (nonempty PopupDemo.apiKey)
           || negb (startsWith PopupDemo.apiKey (js "AIza")))
    with false by reflexivity.
  cbn [when]. erewrite bind_ok by reflexivity.
  erewrite bind_ok
    by exact (@activeTab_ok (PopupDemo.env w) _ st tab rest id Hq Hid Hne).
  cbn [snd].
  erewrite bind_ok by exact (@requestExtraction_none tab pg st Hp He).
  reflexivity.
Qed.

Lemma started_events st rest st' :
  trace st' = trace (started st) ++ rest ->
  forallb is_display rest = true ->
  forallb is_display (new_events st st') = true.
Proof.
  intros Ht Hr.
  rewrite (@new_events_app st st'
             ([Panel []; Announce (js "Analyzing product")] ++ rest)).
  - exact Hr.
  - rewrite Ht. unfold started. cbn. now rewrite <- !app_assoc.
Qed.

Lemma demo_started_events st rest st' :
  trace st' = trace (demo_started st) ++ rest ->
  forallb is_display rest = true ->
  forallb is_display (new_events st st') = true.
Proof.
  intros Ht Hr.
  rewrite (@new_events_app st st' ([Panel []] ++ rest)).
  - exact Hr.
  - rewrite Ht. unfold demo_started. cbn. now rewrite <- !app_assoc.
Qed.

(** X14. When the active tab's page yields no product, the click
    ends on the error block "Analysis failed: No product detected..."
    having only shown things: nothing is logged or stored and the
    service is not contacted. *)
Theorem no_product_no_effects :
  (forall w st,
      key_configured w -> shows_no_product (Popup.env w) ->
      outputDiv (snd (Popup.analyzeProduct w st))
      = [ErrorMessage (js "Analysis failed: " ++ Popup.noProduct)]
      /\ currentState (snd (Popup.analyzeProduct w st)) = error
      /\ history (snd (Popup.analyzeProduct w st)) = history st
      /\ forallb is_display
           (new_events st (snd (Popup.analyzeProduct w st))) = true)
  /\ (forall w st,
         shows_no_product (PopupDemo.env w) ->
         outputDiv (snd (PopupDemo.analyzeProduct w st))
         = [ErrorMessage (js "Analysis failed: " ++ PopupDemo.noProduct)]
         /\ history (snd (PopupDemo.analyzeProduct w st)) = history st
         /\ forallb is_display
              (new_events st (snd (PopupDemo.analyzeProduct w st))) = true).
Proof.
  split.
  - intros w st Hk Hp. rewrite analyzeProduct_started.
    rewrite (@catch_throw _ _ _ _ _ _ _
               (@analyzeTry_no_product w (started st) Hk Hp)).
    destruct (analyzeCatch_ends w Popup.noProduct (started st))
      as (rest & _ & H2 & H3 & H4 & _ & _ & H7).
    destruct (@analyzeCatch_error w Popup.noProduct (started st) eq_refl)
      as (_ & Ho & _).
    split; [exact Ho|]. split; [exact H7|]. split; [exact H4|].
    exact (@started_events _ _ _ H2 H3).
  - intros w st Hp. rewrite demo_analyzeProduct_started.
    rewrite (@catch_throw _ _ _ _ _ _ _
               (@demo_analyzeTry_no_product w (demo_started st) Hp)).
    destruct (demo_analyzeCatch_ends w PopupDemo.noProduct (demo_started st))
      as (rest & _ & H2 & H3 & H4 & _).
    destruct (@demo_analyzeCatch_error w PopupDemo.noProduct (demo_started st)
                eq_refl) as (_ & Ho & _).
    split; [exact Ho|]. split; [exact H4|].
    exact (@demo_started_events _ _ _ H2 H3).
Qed.

Lemma no_product_no_effects_witness :
  outputDiv (snd (Popup.analyzeProduct Sample2.onBrokenPage Sample.fresh))
  = [ErrorMessage
       (js "Analysis failed: No product detected. Try an e-commerce site like Amazon, eBay, or Walmart.")]
  /\ history (snd (Popup.analyzeProduct Sample2.onBrokenPage Sample.fresh)) = [].
Proof.
  destruct (proj1 no_product_no_effects Sample2.onBrokenPage Sample.fresh)
    as (H1 & _ & H3 & _).
  - split; [discriminate | reflexivity].
  - exists {| tab_id := Some 7%N; tab_page := Some Sample.brokenPage |},
      [], 7%N, Sample.brokenPage.
    repeat split; try reflexivity. discriminate.
  - split; [exact H1 | exact H3].
Defined.

Lemma analyzeTry_rejected w st :
  key_rejected w ->
  Popup.analyzeTry w st
  = (Throw (js "API key not configured. Please check your .env file."), st).
Proof.
  intros Hk. unfold Popup.analyzeTry.
  replace (negb (nonempty (Popup.GEMINI_API_KEY w))
           || negb (startsWith (Popup.GEMINI_API_KEY w) (js "AIza")))
    with true; [reflexivity|].
  destruct Hk as [-> | ->]; [reflexivity | now rewrite orb_true_r].
Qed.

(** X15. When the key given to the accessible popup is empty or does
    not start with "AIza", a click shows the demo product and
    suggestions, ends on the demo-mode notice, and does nothing else:
    the history is untouched, nothing is stored, and the worker is not
    contacted, whatever the active tab shows. *)
Theorem rejected_key_skips_the_tab w st :
  key_rejected w ->
  outputDiv (snd (Popup.analyzeProduct w st)) = [Message Popup.demoNotice]
  /\ showed_demo w (snd (Popup.analyzeProduct w st))
  /\ history (snd (Popup.analyzeProduct w st)) = history st
  /\ forallb is_display
       (new_events st (snd (Popup.analyzeProduct w st))) = true.
Proof.
  intros Hk. rewrite analyzeProduct_started.
  rewrite (@catch_throw _ _ _ _ _ _ _
             (@analyzeTry_rejected w (started st) Hk)).
  destruct (analyzeCatch_ends w
              (js "API key not configured. Please check your .env file.")
              (started st))
    as (rest & _ & H2 & H3 & H4 & _).
  destruct (@analyzeCatch_demo w
              (js "API key not configured. Please check your .env file.")
              (started st) eq_refl eq_refl) as (_ & Hd & Ho & _).
  split; [exact Ho|]. split; [exact Hd|]. split; [exact H4|].
  exact (@started_events _ _ _ H2 H3).
Qed.

Lemma rejected_key_skips_the_tab_witness :
  outputDiv (snd (Popup.analyzeProduct Sample2.keyless Sample.fresh))
  = [Message Popup.demoNotice]
  /\ history (snd (Popup.analyzeProduct Sample2.keyless Sample.fresh)) = [].
Proof.
  destruct (@rejected_key_skips_the_tab Sample2.keyless Sample.fresh)
    as (H1 & _ & H3 & _).
  - left. reflexivity.
  - split; [exact H1 | exact H3].
Defined.

(** ** A write that fails *)

Lemma logHistory_fails env data st e :
  isTrackingEnabled st = true -> storageSet env = Throw e ->
  logHistory env data st
  = (Throw e,
     with_event
       (StorageSet (splice 50 (unshift (entry env data) (history st))))
       (with_history (splice 50 (unshift (entry env data) (history st))) st)).
Proof. intros Htr Hs. rewrite logHistory_run, Htr. cbv zeta. now rewrite Hs. Qed.

(** X16. When the write to storage fails, the new entry is already
    in the history held in memory, the click stops there (the service
    is not contacted: after the write only display events follow), and
    the accessible popup is in its error state. *)
Theorem failed_write_stops_the_click :
  (forall w st data e,
      key_configured w -> shows_product (Popup.env w) data ->
      isTrackingEnabled st = true -> storageSet (Popup.env w) = Throw e ->
      history (snd (Popup.analyzeProduct w st))
      = entry (Popup.env w) data :: firstn 49 (history st)
      /\ currentState (snd (Popup.analyzeProduct w st)) = error
      /\ exists rest,
           new_events st (snd (Popup.analyzeProduct w st))
           = [Panel []; Announce (js "Analyzing product");
              StorageSet (history (snd (Popup.analyzeProduct w st)))] ++ rest
           /\ forallb is_display rest = true)
  /\ (forall w st data e,
         shows_product (PopupDemo.env w) data ->
         isTrackingEnabled st = true ->
         storageSet (PopupDemo.env w) = Throw e ->
         history (snd (PopupDemo.analyzeProduct w st))
         = entry (PopupDemo.env w) data :: firstn 49 (history st)
         /\ exists rest,
              new_events st (snd (PopupDemo.analyzeProduct w st))
              = [Panel [];
                 StorageSet (history (snd (PopupDemo.analyzeProduct w st)))]
                ++ rest
              /\ forallb is_display rest = true).
Proof.
  split.
  - intros w st data e Hk Hp Htr Hs.
    pose proof (@analyzeProduct_logs w st data Htr Hk Hp) as Hh.
    rewrite Hh. split; [reflexivity|]. revert Hh.
    rewrite analyzeProduct_started.
    rewrite (@catch_ext _ _ _ _ (Popup.analyzeCatch w) _
               (@analyzeTry_run w (started st) data Hk Hp)).
    rewrite (@catch_bind_throw _ _ _ _ _ _ _ _ _
               (@logHistory_fails (Popup.env w) data (started st) e Htr Hs)).
    set (s1 := with_event _ _).
    destruct (analyzeCatch_ends w e s1)
      as (rest & _ & H2 & H3 & H4 & _ & _ & H7).
    intros Hh. split; [exact H7|]. exists rest. split; [|exact H3].
    apply new_events_app. rewrite H2. subst s1.
    cbn [trace with_event with_history started with_output with_busy
         with_currentState].
    rewrite <- !app_assoc. reflexivity.
  - intros w st data e Hp Htr Hs.
    pose proof (@demo_analyzeProduct_logs w st data Htr Hp) as Hh.
    rewrite Hh. split; [reflexivity|]. revert Hh.
    rewrite demo_analyzeProduct_started.
    rewrite (@catch_ext _ _ _ _ (PopupDemo.analyzeCatch w) _
               (@demo_analyzeTry_run w (demo_started st) data Hp)).
    rewrite (@catch_bind_throw _ _ _ _ _ _ _ _ _
               (@logHistory_fails (PopupDemo.env w) data (demo_started st) e
                  Htr Hs)).
    set (s1 := with_event _ _).
    destruct (demo_analyzeCatch_ends w e s1)
      as (rest & _ & H2 & H3 & H4 & _).
    intros Hh. exists rest. split; [|exact H3].
    apply new_events_app. rewrite H2. subst s1.
    cbn [trace with_event with_history demo_started with_output with_busy].
    rewrite <- !app_assoc. reflexivity.
Qed.

Lemma failed_write_stops_the_click_witness :
  history (snd (Popup.analyzeProduct Sample2.onFullStore Sample.fresh))
  = [entry Sample.env Sample.widget]
  /\ currentState (snd (Popup.analyzeProduct Sample2.onFullStore Sample.fresh))
     = error.
Proof.
  destruct (proj1 failed_write_stops_the_click Sample2.onFullStore
              Sample.fresh Sample.widget (js "QUOTA_BYTES quota exceeded"))
    as (H1 & H2 & _).
  - split; [discriminate | reflexivity].
  - exists {| tab_id := Some 7%N; tab_page := Some Sample.page |},
      [], 7%N, Sample.page.
    repeat split; try reflexivity. discriminate.
  - reflexivity.
  - reflexivity.
  - split; [exact H1 | exact H2].
Defined.

(** ** A click that gets suggestions *)

Lemma onAnalyze_answer br token data resp text t :
  signed_in br token ->
  Background.fetch br (Background.request token data) = Ok resp ->
  answers resp text ->
  Background.onAnalyzeWithAI br data t
  = (Ok (Background.Suggestions (trim text)),
     snd (Background.handleAnalyze br data t)).
Proof.
  intros Hs Hf (Hok & json & Hj & Hshape & Hne).
  unfold Background.onAnalyzeWithAI, catch, bind.
  rewrite (BackgroundFacts.handleAnalyze_signed_in data t Hs). cbv zeta.
  rewrite Hf, Hok, Hj, (BackgroundFacts.candidateText_shape Hshape).
  cbn [truthy]. destruct text; [congruence | reflexivity].
Qed.

Lemma callBackgroundAI_ok w data st text events :
  Popup.runtimeLastError w = None ->
  Background.onAnalyzeWithAI (Popup.worker w) data []
  = (Ok (Background.Suggestions text), events) ->
  Popup.callBackgroundAI w data st = (Ok text, worker_events events st).
Proof.
  intros Hr Hb. unfold Popup.callBackgroundAI. now rewrite Hr, Hb.
Qed.

Lemma logHistory_passes env data st :
  (isTrackingEnabled st = true -> storageSet env = Ok tt) ->
  exists st',
    logHistory env data st = (Ok tt, st') /\ outputDiv st' = outputDiv st.
Proof.
  intros Hs. rewrite logHistory_run. cbv zeta.
  destruct (isTrackingEnabled st).
  - rewrite (Hs eq_refl). eexists. split; reflexivity.
  - eexists. split; reflexivity.
Qed.

(** X17. When the service answers with a non-empty first candidate
    text, the click ends with the panel holding the extracted product
    followed by the suggestion lines of the trimmed text; the
    accessible popup is then in its results state and its last act is
    the announcement "Analysis complete". *)
Theorem answer_is_rendered :
  (forall w st data token resp text,
      asks_worker w st data ->
      signed_in (Popup.worker w) token ->
      Background.fetch (Popup.worker w) (Background.request token data)
      = Ok resp ->
      answers resp text ->
      outputDiv (snd (Popup.analyzeProduct w st))
      = [ProductInfo data; SuggestionList (Popup.suggestionLines (trim text))]
      /\ currentState (snd (Popup.analyzeProduct w st)) = results
      /\ exists evs,
           trace (snd (Popup.analyzeProduct w st))
           = evs ++ [Announce (js "Analysis complete")])
  /\ (forall w st data resp text,
         asks_endpoint w st data ->
         PopupDemo.fetch w (PopupDemo.request data) = Ok resp ->
         answers resp text ->
         outputDiv (snd (PopupDemo.analyzeProduct w st))
         = [ProductInfo data;
            SuggestionList (PopupDemo.suggestionLines (trim text))]).
Proof.
  split.
  - intros w st data token resp text (Hk & Hp & Hst & Hr) Hs Hf Ha.
    rewrite analyzeProduct_started.
    rewrite (@catch_ext _ _ _ _ (Popup.analyzeCatch w) _
               (@analyzeTry_run w (started st) data Hk Hp)).
    destruct (@logHistory_passes (Popup.env w) data (started st) Hst)
      as (s1 & Hl & Ho).
    rewrite (@catch_bind_ok _ _ _ _ _ _ _ _ _ Hl). cbv beta.
    pose proof (@callBackgroundAI_ok w data s1 _ _ Hr
                  (@onAnalyze_answer _ _ data _ _ [] Hs Hf Ha)) as Hc.
    rewrite (@catch_bind_ok _ _ _ _ _ _ _ _ _ Hc).
    destruct (worker_events_fields
                (snd (Background.handleAnalyze (Popup.worker w) data [])) s1)
      as (_ & _ & _ & Hw & _).
    run_ui. rewrite Hw, Ho. cbn [outputDiv started with_event with_output].
    split; [reflexivity|]. split; [reflexivity|].
    eexists. reflexivity.
  - intros w st data resp text (Hp & Hst) Hf (Hok & json & Hj & Hshape & Hne).
    rewrite demo_analyzeProduct_started.
    rewrite (@catch_ext _ _ _ _ (PopupDemo.analyzeCatch w) _
               (@demo_analyzeTry_run w (demo_started st) data Hp)).
    destruct (@logHistory_passes (PopupDemo.env w) data (demo_started st) Hst)
      as (s1 & Hl & Ho).
    rewrite (@catch_bind_ok _ _ _ _ _ _ _ _ _ Hl). cbv beta.
    assert (Hc : PopupDemo.callGeminiAPI w data s1
                 = (Ok (trim text),
                    with_event (Post (PopupDemo.request data)) s1)).
    { rewrite callGeminiAPI_run. cbv zeta. rewrite Hf, Hok, Hj.
      destruct (demo_candidateText_shape Hshape) as (H1 & H2 & H3).
      rewrite H1, H2, H3. cbn [truthy].
      destruct text; [congruence | reflexivity]. }
    rewrite (@catch_bind_ok _ _ _ _ _ _ _ _ _ Hc).
    run_ui. rewrite Ho. reflexivity.
Qed.

Lemma answer_is_rendered_witness :
  outputDiv (snd (Popup.analyzeProduct
                    (Sample.world (Sample.signedIn (Sample.answer Sample.twoItems)))
                    Sample.fresh))
  = [ProductInfo Sample.widget;
     SuggestionList [js "1. Try X"; js "2. Try Y"]].
Proof.
  destruct (proj1 answer_is_rendered
              (Sample.world (Sample.signedIn (Sample.answer Sample.twoItems)))
              Sample.fresh Sample.widget (js "ya29.sample")
              (Sample.answer Sample.twoItems) Sample.twoItems)
    as (H & _).
  - split; [split; [discriminate | reflexivity]|].
    split; [|split; [reflexivity | reflexivity]].
    exists {| tab_id := Some 7%N; tab_page := Some Sample.page |},
      [], 7%N, Sample.page.
    repeat split; try reflexivity. discriminate.
  - split; [reflexivity | split; [discriminate | reflexivity]].
  - reflexivity.
  - split; [reflexivity|]. eexists. split; [reflexivity|].
    split; [|discriminate]. repeat eexists; reflexivity.
  - exact H.
Defined.

End ClickFacts.

(* ================================================================== *)
(** * Escaping and the other views ([popup.js]) *)
(* ================================================================== *)

Module MarkupFacts.
Import JS Markup Props.

Lemma escapeHtml_cons c t : escapeHtml (c :: t) = entity c ++ escapeHtml t.
Proof. reflexivity. Qed.

Lemma entity_cases c :
  (c = 38%N /\ entity c = js "&amp;")
  \/ (c = 60%N /\ entity c = js "&lt;")
  \/ (c = 62%N /\ entity c = js "&gt;")
  \/ (c = 160%N /\ entity c = js "&nbsp;")
  \/ (is_plain c = true /\ entity c = [c]).
Proof.
  unfold entity, is_plain.
  destruct (c =? 38)%N eqn:E1; [apply N.eqb_eq in E1; auto|].
  destruct (c =? 60)%N eqn:E2; [apply N.eqb_eq in E2; auto|].
  destruct (c =? 62)%N eqn:E3; [apply N.eqb_eq in E3; auto 6|].
  destruct (c =? 160)%N eqn:E4; [apply N.eqb_eq in E4; auto 6|].
  auto 8.
Qed.

Lemma unescape_entity c rest :
  unescape 0 (entity c ++ rest) = c :: unescape 0 rest.
Proof.
  destruct (entity_cases c)
    as [(-> & ->)|[(-> & ->)|[(-> & ->)|[(-> & ->)|(Hp & ->)]]]];
    try (destruct rest; reflexivity).
  cbn [app unescape]. unfold is_plain in Hp.
  destruct (c =? 38)%N; [discriminate | reflexivity].
Qed.

Lemma escapeHtml_unescape t : unescape 0 (escapeHtml t) = t.
Proof.
  induction t as [|c t IH]; [reflexivity|].
  rewrite escapeHtml_cons, unescape_entity. now f_equal.
Qed.

Lemma entity_no_angle c : forallb (fun d => negb (is_angle d)) (entity c) = true.
Proof.
  destruct (entity_cases c)
    as [(-> & ->)|[(-> & ->)|[(-> & ->)|[(-> & ->)|(Hp & ->)]]]];
    try reflexivity.
  cbn. unfold is_plain in Hp. unfold is_angle.
  destruct (c =? 38)%N, (c =? 60)%N, (c =? 62)%N; cbn in *;
    try discriminate; reflexivity.
Qed.

(** X18. [escapeHtml] loses nothing and leaves no tag: the text can
    be read back from its markup, so distinct texts have distinct
    markups; the markup holds no "<" and no ">"; and a text without
    "&", "<", ">" and no-break space is returned as it is, single and
    double quotes included. *)
Theorem escapeHtml_keeps_the_text :
  (forall t, unescape 0 (escapeHtml t) = t)
  /\ (forall a b, escapeHtml a = escapeHtml b -> a = b)
  /\ (forall t, forallb (fun d => negb (is_angle d)) (escapeHtml t) = true)
  /\ (forall t, forallb is_plain t = true -> escapeHtml t = t)
  /\ is_plain 34%N = true /\ is_plain 39%N = true.
Proof.
  split; [exact escapeHtml_unescape|]. split; [|split; [|split]].
  - intros a b H. rewrite <- (escapeHtml_unescape a), <- (escapeHtml_unescape b).
    now f_equal.
  - induction t as [|c t IH]; [reflexivity|].
    rewrite escapeHtml_cons, forallb_app, entity_no_angle. exact IH.
  - induction t as [|c t IH]; [reflexivity|]. cbn [forallb]. intros H.
    apply andb_prop in H as [Hc Ht]. rewrite escapeHtml_cons, (IH Ht).
    destruct (entity_cases c)
      as [(-> & _)|[(-> & _)|[(-> & _)|[(-> & _)|(_ & ->)]]]];
      try discriminate. reflexivity.
  - split; reflexivity.
Qed.

Lemma escapeHtml_keeps_the_text_witness :
  escapeHtml (js "a < b & c") = js "a &lt; b &amp; c"
  /\ escapeHtml (js "it's") = js "it's".
Proof.
  split; [reflexivity|].
  apply (proj1 (proj2 (proj2 (proj2 escapeHtml_keeps_the_text)))).
  reflexivity.
Defined.

End MarkupFacts.

Module ViewFacts.
Import JS Effects Net UI Spec Props StringFacts EffectFacts UIFacts.
Import PopupFacts PopupDemoFacts ClickFacts.

(** ** The history view *)

Lemma firstn_10_logged A (x : A) l :
  firstn 10 (x :: firstn 49 l) = x :: firstn 9 l.
Proof.
  change (firstn 10 (x :: firstn 49 l)) with (x :: firstn 9 (firstn 49 l)).
  f_equal. rewrite firstn_firstn. reflexivity.
Qed.

(** X19. The history view lists the first ten entries of the
    history, newest first, and never more; with an empty history it
    shows the no-history notice instead.  Right after a click that
    logged a product, the list opens with that product, followed by
    the nine most recent earlier views. *)
Theorem recent_views_lead_with_the_latest :
  (forall st items,
      PopupView.showHistory st = PopupView.RecentViews items ->
      items = firstn 10 (history st) /\ 1 <= length items <= 10)
  /\ (forall st,
         history st = [] ->
         PopupView.showHistory st
         = PopupView.NoHistory (Message PopupView.noHistoryYet)
         /\ PopupDemoView.showHistory st
            = PopupView.NoHistory (ErrorMessage PopupDemoView.noHistoryYet))
  /\ (forall w st data,
         isTrackingEnabled st = true ->
         key_configured w -> shows_product (Popup.env w) data ->
         PopupView.showHistory (snd (Popup.analyzeProduct w st))
         = PopupView.RecentViews
             (entry (Popup.env w) data :: firstn 9 (history st)))
  /\ (forall w st data,
         isTrackingEnabled st = true ->
         shows_product (PopupDemo.env w) data ->
         PopupDemoView.showHistory (snd (PopupDemo.analyzeProduct w st))
         = PopupView.RecentViews
             (entry (PopupDemo.env w) data :: firstn 9 (history st))).
Proof.
  split; [|split; [|split]].
  - intros st items. unfold PopupView.showHistory.
    destruct (history st) as [|e h] eqn:E; [discriminate|].
    intros [= <-]. split; [reflexivity|].
    pose proof (firstn_le_length 10 (e :: h)) as H.
    cbn [firstn length] in *. lia.
  - intros st H. unfold PopupView.showHistory, PopupDemoView.showHistory.
    now rewrite H.
  - intros w st data Htr Hk Hp. unfold PopupView.showHistory.
    rewrite (@analyzeProduct_logs w st data Htr Hk Hp).
    now rewrite firstn_10_logged.
  - intros w st data Htr Hp. unfold PopupDemoView.showHistory.
    rewrite (@demo_analyzeProduct_logs w st data Htr Hp).
    now rewrite firstn_10_logged.
Qed.

Lemma recent_views_lead_with_the_latest_witness :
  PopupView.showHistory
    (snd (Popup.analyzeProduct (Sample.world Sample.signedOut) Sample.fresh))
  = PopupView.RecentViews [entry Sample.env Sample.widget]
  /\ PopupView.showHistory
       (snd (Popup.analyzeProduct (Sample.world Sample.signedOut)
               Sample2.crowded))
     = PopupView.RecentViews
         (entry Sample.env Sample.widget :: repeat Sample2.oldEntry 9).
Proof.
  split.
  - apply (proj1 (proj2 (proj2 recent_views_lead_with_the_latest))
             (Sample.world Sample.signedOut) Sample.fresh Sample.widget).
    + reflexivity.
    + split; [discriminate | reflexivity].
    + exists {| tab_id := Some 7%N; tab_page := Some Sample.page |},
        [], 7%N, Sample.page.
      repeat split; try reflexivity. discriminate.
  - apply (proj1 (proj2 (proj2 recent_views_lead_with_the_latest))
             (Sample.world Sample.signedOut) Sample2.crowded Sample.widget).
    + reflexivity.
    + split; [discriminate | reflexivity].
    + exists {| tab_id := Some 7%N; tab_page := Some Sample.page |},
        [], 7%N, Sample.page.
      repeat split; try reflexivity. discriminate.
Defined.

(** ** The Escape key *)

Lemma reset_run st :
  PopupView.resetToInitial st
  = (Ok tt, with_busy false (with_output [] (with_currentState initial st))).
Proof. reflexivity. Qed.

(** X20. After any click on Analyze of the accessible popup, the
    Escape key brings the popup back to its initial state with an
    empty panel and the spinner off, and keeps the history and the
    tracking flag.  Any other key, and any key in the initial state,
    changes nothing. *)
Theorem escape_resets_after_a_click :
  (forall w st,
      let after := snd (Popup.analyzeProduct w st) in
      let r := PopupView.handleKeyboardNavigation (js "Escape") after in
      fst r = Ok tt
      /\ currentState (snd r) = initial
      /\ outputDiv (snd r) = []
      /\ busy (snd r) = false
      /\ history (snd r) = history after
      /\ isTrackingEnabled (snd r) = isTrackingEnabled after)
  /\ (forall key st,
         str_eqb key (js "Escape") = false ->
         PopupView.handleKeyboardNavigation key st = (Ok tt, st))
  /\ (forall key st,
         currentState st = initial ->
         PopupView.handleKeyboardNavigation key st = (Ok tt, st)).
Proof.
  split; [|split].
  - intros w st. cbv zeta.
    destruct (click_anatomy w st) as (_ & _ & _ & _ & _ & _ & _ & _ & _ & Hs).
    unfold PopupView.handleKeyboardNavigation, bind, get.
    change (str_eqb (js "Escape") (js "Escape")) with true.
    destruct Hs as [-> | ->]; cbn [PopupView.is_initial negb andb];
      rewrite reset_run; now repeat split.
  - intros key st H. unfold PopupView.handleKeyboardNavigation, bind, get.
    now rewrite H.
  - intros key st H. unfold PopupView.handleKeyboardNavigation, bind, get.
    rewrite H. cbn [PopupView.is_initial negb]. now rewrite andb_false_r.
Qed.

Lemma escape_resets_after_a_click_witness :
  PopupView.handleKeyboardNavigation (js "Enter")
    (snd (Popup.analyzeProduct (Sample.world Sample.signedOut) Sample.fresh))
  = (Ok tt,
     snd (Popup.analyzeProduct (Sample.world Sample.signedOut) Sample.fresh)).
Proof.
  apply (proj1 (proj2 escape_resets_after_a_click)). reflexivity.
Defined.

(** ** Signing in and out through the worker *)

Lemma deliver_signOut c product :
  PopupAuth.deliver c None (js "signOut") product
  = Some (Worker.SignOutResult true).
Proof.
  unfold PopupAuth.deliver, Worker.onMessage.
  change (str_eqb (js "signOut") (js "analyzeWithAI")) with false.
  change (str_eqb (js "signOut") (js "signIn")) with false.
  change (str_eqb (js "signOut") (js "signOut")) with true.
  cbv iota. unfold Worker.signOut.
  destruct (Background.lastError (Worker.silent c));
    now destruct (Background.authToken (Worker.silent c)) as [[|ch tk]|].
Qed.

Lemma deliver_signIn c product :
  PopupAuth.deliver c None (js "signIn") product
  = Some (snd (Worker.signIn c)).
Proof. reflexivity. Qed.

Lemma deliver_isSignedIn c product :
  PopupAuth.deliver c None (js "isSignedIn") product
  = Some (snd (Worker.isSignedIn c)).
Proof. reflexivity. Qed.

(** X21. Signing out through the worker always shows "Signed out":
    the text "Signed out (cache cleared)" can only appear when no
    response of the worker was delivered.  Signing in through the
    worker shows "Signed in successfully" exactly when the interactive
    lookup yields a non-empty token without error, and otherwise the
    bare "Sign-in failed", without the reason.  The status line reads
    "Signed in" exactly when the silent lookup hands over a token. *)
Theorem auth_views_follow_the_worker c product st :
  PopupAuth.signOut (PopupAuth.deliver c None (js "signOut") product) st
  = (Ok true, with_output [Message (js "Signed out")] st)
  /\ (forall resp,
         outputDiv (snd (PopupAuth.signOut resp st))
         = [Message (js "Signed out (cache cleared)")] ->
         resp <> PopupAuth.deliver c None (js "signOut") product)
  /\ (exists b : bool,
         PopupAuth.signIn None
           (PopupAuth.deliver c None (js "signIn") product) st
         = (Ok b,
            with_output
              (if b then [Message (js "Signed in successfully")]
               else [ErrorMessage (js "Sign-in failed")]) st)
         /\ (b = true <->
             Worker.refusal (Worker.consent c) = None
             /\ exists ch tk,
                  Worker.granted (Worker.consent c) = Some (ch :: tk)))
  /\ (PopupAuth.authStatus
        (PopupAuth.updateAuthStatus
           (PopupAuth.deliver c None (js "isSignedIn") product))
      = js "Signed in"
      <-> exists token, signed_in (Worker.silent c) token).
Proof.
  split; [|split; [|split]].
  - now rewrite deliver_signOut.
  - intros resp H E. subst resp. rewrite deliver_signOut in H. discriminate H.
  - rewrite deliver_signIn. unfold Worker.signIn. cbn [snd].
    destruct (Worker.refusal (Worker.consent c)) as [m|] eqn:Er.
    + exists false. split; [reflexivity|].
      split; [discriminate|]. intros [H _]. discriminate H.
    + destruct (Worker.granted (Worker.consent c)) as [[|ch tk]|] eqn:Eg.
      * exists false. split; [reflexivity|].
        split; [discriminate|]. intros [_ (ch & tk & H)]. discriminate H.
      * exists true. split; [reflexivity|].
        split; [|reflexivity]. intros _. split; [reflexivity|]. eauto.
      * exists false. split; [reflexivity|].
        split; [discriminate|]. intros [_ (ch & tk & H)]. discriminate H.
  - rewrite deliver_isSignedIn. unfold Worker.isSignedIn, signed_in.
    cbn [snd PopupAuth.updateAuthStatus PopupAuth.authStatus PopupAuth.signed].
    destruct (Background.authToken (Worker.silent c)) as [[|ch tk]|] eqn:Ea.
    + split; [discriminate|]. intros (token & Ht & Hne & _). congruence.
    + destruct (Background.lastError (Worker.silent c)) eqn:El; cbn [negb].
      * split; [discriminate|]. intros (token & _ & _ & H). discriminate H.
      * split; [|reflexivity]. intros _. exists (ch :: tk).
        split; [reflexivity|]. split; [discriminate | reflexivity].
    + split; [discriminate|]. intros (token & Ht & _). discriminate Ht.
Qed.

Lemma auth_views_follow_the_worker_witness :
  outputDiv (snd (PopupAuth.signOut None Sample.fresh))
  = [Message (js "Signed out (cache cleared)")]
  /\ None <> PopupAuth.deliver
               {| Worker.silent := Sample.signedOut;
                  Worker.consent := {| Worker.granted := None;
                                       Worker.refusal := None |} |}
               None (js "signOut") Sample.widget.
Proof.
  split; [reflexivity|].
  apply (proj1 (proj2 (auth_views_follow_the_worker
           {| Worker.silent := Sample.signedOut;
              Worker.consent := {| Worker.granted := None;
                                   Worker.refusal := None |} |}
           Sample.widget Sample.fresh)) None).
  reflexivity.
Defined.

(** ** Saving a key *)

(** X22. [saveApiKey] always returns and leaves the history alone;
    the key it sets is the value of the input trimmed, and the empty
    string when there is no input element; the notice says saved for
    a key that is not empty and cleared otherwise.  A saved key that
    starts with "AIza" passes the check of the next click; with any
    other key, an input of blanks included, the next click ends on
    the demo-mode notice having only shown things. *)
Theorem saved_key_decides_the_next_click :
  (forall v st, fst (PopupAuth.saveApiKey (Some v) st) = Ok (trim v))
  /\ (forall st, fst (PopupAuth.saveApiKey None st) = Ok [])
  /\ (forall input st key,
         fst (PopupAuth.saveApiKey input st) = Ok key ->
         trimmed key
         /\ snd (PopupAuth.saveApiKey input st)
            = with_output
                [Message (if nonempty key then js "API key saved locally."
                          else js "API key cleared.")] st)
  /\ (forall input st key w,
         fst (PopupAuth.saveApiKey input st) = Ok key ->
         startsWith key (js "AIza") = true ->
         key_configured (PopupAuth.with_key key w))
  /\ (forall input st key w,
         fst (PopupAuth.saveApiKey input st) = Ok key ->
         startsWith key (js "AIza") = false ->
         outputDiv (snd (Popup.analyzeProduct (PopupAuth.with_key key w)
                           (snd (PopupAuth.saveApiKey input st))))
         = [Message Popup.demoNotice]
         /\ forallb is_display
              (new_events (snd (PopupAuth.saveApiKey input st))
                 (snd (Popup.analyzeProduct (PopupAuth.with_key key w)
                         (snd (PopupAuth.saveApiKey input st)))))
            = true).
Proof.
  split; [reflexivity|]. split; [reflexivity|]. split; [|split].
  - intros input st key H. injection H as <-. split; [|reflexivity].
    destruct input as [v|]; [apply trim_trimmed|].
    split; intros c r H; [discriminate H | now destruct r].
  - intros input st key w _ H. split; [|exact H].
    cbn [PopupAuth.with_key Popup.GEMINI_API_KEY].
    intros E. rewrite E in H. discriminate H.
  - intros input st key w _ H.
    set (st' := snd (PopupAuth.saveApiKey input st)).
    rewrite analyzeProduct_started.
    rewrite (@catch_throw _ _ _ _ _ _ _
               (@analyzeTry_rejected (PopupAuth.with_key key w) (started st')
                  (or_intror H))).
    destruct (analyzeCatch_ends (PopupAuth.with_key key w)
                (js "API key not configured. Please check your .env file.")
                (started st'))
      as (rest & _ & H2 & H3 & _).
    destruct (@analyzeCatch_demo (PopupAuth.with_key key w)
                (js "API key not configured. Please check your .env file.")
                (started st') eq_refl eq_refl) as (_ & _ & Ho & _).
    split; [exact Ho | exact (@started_events _ _ _ H2 H3)].
Qed.

Lemma saved_key_decides_the_next_click_witness :
  fst (PopupAuth.saveApiKey (Some (js "  AIzaSample ")) Sample.fresh)
  = Ok (js "AIzaSample")
  /\ key_configured (PopupAuth.with_key (js "AIzaSample") Sample2.keyless)
  /\ outputDiv (snd (Popup.analyzeProduct
                       (PopupAuth.with_key [] Sample2.onFullStore)
                       (snd (PopupAuth.saveApiKey (Some (js "  "))
                               Sample.fresh))))
     = [Message Popup.demoNotice].
Proof.
  split; [|split].
  - apply (proj1 saved_key_decides_the_next_click).
  - apply (proj1 (proj2 (proj2 (proj2 saved_key_decides_the_next_click)))
             (Some (js "  AIzaSample ")) Sample.fresh (js "AIzaSample")
             Sample2.keyless); reflexivity.
  - apply (proj2 (proj2 (proj2 (proj2 saved_key_decides_the_next_click)))
             (Some (js "  ")) Sample.fresh [] Sample2.onFullStore);
      reflexivity.
Defined.

End ViewFacts.

(* ================================================================== *)
(** * Sessions ([popup.js], 27-85 and 400-430) *)
(* ================================================================== *)

Module SessionFacts.
Import JS Effects Net UI Spec Props Session.
Import StringFacts EffectFacts UIFacts PopupFacts PopupDemoFacts ClickFacts.

Lemma persist_app a b s : persist (a ++ b) s = persist b (persist a s).
Proof. apply fold_left_app. Qed.

Lemma persist_display evs s :
  forallb is_display evs = true -> persist evs s = s.
Proof.
  revert s. induction evs as [|e evs IH]; intros s H; [reflexivity|].
  cbn [forallb] in H. apply andb_prop in H as [He Hevs].
  cbn [persist fold_left]. destruct e; try discriminate; now apply IH.
Qed.

Lemma persist_workers ws s : persist (map Worker ws) s = s.
Proof.
  revert s. induction ws as [|e ws IH]; intros s; [reflexivity|]. apply IH.
Qed.

Lemma persist_click st st' hs mid rest s pre :
  trace st' = trace st ++ pre ++ hs ++ mid ++ rest ->
  forallb is_display pre = true ->
  (forall s', persist mid s' = s') ->
  forallb is_display rest = true ->
  persist (new_events st st') s = persist hs s.
Proof.
  intros Ht Hpre Hmid Hrest. rewrite (@new_events_app _ _ _ Ht).
  rewrite !persist_app, (@persist_display pre s Hpre), Hmid.
  now apply persist_display.
Qed.

Lemma click_synced w s :
  synced s -> saves (Analyze w) = true -> synced (step (Analyze w) s).
Proof.
  intros [Hf Hh] Hs. unfold synced, step, after_click. cbn [popup stored].
  cbn [saves] in Hs.
  destruct (storageSet (Popup.env w)) as [u|e]; [clear Hs | discriminate].
  destruct (click_anatomy w (popup s))
    as (hs & ws & rest & Ht & Hhs & _ & Hr & _).
  destruct (logs_analyzeProduct w (popup s)) as [Hflag _].
  rewrite (@persist_click (popup s) _ hs (map Worker ws) rest (stored s)
             [Panel []; Announce (js "Analyzing product")] Ht eq_refl
             (persist_workers ws) Hr).
  destruct Hhs as [[-> Hsame]|(_ & -> & _)].
  - cbn [persist fold_left]. split; congruence.
  - cbn [persist fold_left]. unfold loaded_tracking, loaded_hist in *.
    cbn [tracking hist]. split; [congruence | reflexivity].
Qed.

Lemma persist_post ps s :
  (ps = [] \/ exists data, ps = [Post (PopupDemo.request data)]) ->
  persist ps s = s.
Proof. now intros [->|(data & ->)]. Qed.

Lemma demo_click_synced w s :
  synced s -> saves (DemoAnalyze w) = true -> synced (step (DemoAnalyze w) s).
Proof.
  intros [Hf Hh] Hs. unfold synced, step, after_click. cbn [popup stored].
  cbn [saves] in Hs.
  destruct (storageSet (PopupDemo.env w)) as [u|e]; [clear Hs | discriminate].
  destruct (demo_click_anatomy w (popup s))
    as (hs & ps & rest & Ht & Hhs & Hp & Hr & _).
  destruct (logs_demo_analyzeProduct w (popup s)) as [Hflag _].
  rewrite (@persist_click (popup s) _ hs ps rest (stored s)
             [Panel []] Ht eq_refl
             (fun s' => @persist_post ps s' Hp) Hr).
  destruct Hhs as [[-> Hsame]|(_ & -> & _)].
  - cbn [persist fold_left]. split; congruence.
  - cbn [persist fold_left]. unfold loaded_tracking, loaded_hist in *.
    cbn [tracking hist]. split; [congruence | reflexivity].
Qed.

Lemma step_synced x s : synced s -> saves x = true -> synced (step x s).
Proof.
  destruct x as [w|w|checked saved|checked saved|].
  - apply click_synced.
  - apply demo_click_synced.
  - intros [Hf Hh] Hs. cbn [saves] in Hs. subst saved.
    split; [reflexivity | exact Hh].
  - intros [Hf Hh] Hs. cbn [saves] in Hs. subst saved.
    split; [now destruct checked | now destruct checked].
  - intros _ _. split; reflexivity.
Qed.

Lemma run_synced steps s :
  synced s -> forallb saves steps = true -> synced (run steps s).
Proof.
  revert s. induction steps as [|x steps IH]; intros s Hs H; [exact Hs|].
  cbn [forallb] in H. apply andb_prop in H as [Hx Hsteps].
  cbn [run fold_left]. apply IH; [now apply step_synced | exact Hsteps].
Qed.

Lemma reopen_loads s :
  isTrackingEnabled (popup (step Reopen s)) = loaded_tracking (stored s)
  /\ history (popup (step Reopen s)) = loaded_hist (stored s).
Proof. split; reflexivity. Qed.

(** X23. Closing and reopening restores the popup: after [init] and
    any sequence of clicks and checkbox changes in either popup whose
    writes all reach the storage, a further [init] loads exactly the
    tracking flag and the history the popup held.  [init] itself never
    raises, and when the load fails it leaves the state as it is and
    shows "Storage load failed: ..." *)
Theorem reopening_restores_the_session :
  (forall steps s,
      forallb saves steps = true ->
      let s' := run (Reopen :: steps) s in
      isTrackingEnabled (popup (step Reopen s')) = isTrackingEnabled (popup s')
      /\ history (popup (step Reopen s')) = history (popup s'))
  /\ (forall got wiring st, fst (init got wiring st) = Ok tt)
  /\ (forall e wiring st,
         init (Throw e) wiring st
         = (Ok tt,
            with_output [ErrorMessage (js "Storage load failed: " ++ e)] st)).
Proof.
  split; [|split].
  - intros steps s H. cbv zeta.
    assert (Hs : synced (run (Reopen :: steps) s)).
    { change (run (Reopen :: steps) s) with (run steps (step Reopen s)).
      apply run_synced; [|exact H]. split; reflexivity. }
    destruct Hs as [Hf Hh].
    destruct (reopen_loads (run (Reopen :: steps) s)) as [H1 H2].
    split; congruence.
  - intros got wiring st. unfold init, catch, bind, lift, modify, showError,
      setOutput.
    destruct got as [s|e]; [|reflexivity]. now destruct wiring as [[]|e].
  - reflexivity.
Qed.

Lemma reopening_restores_the_session_witness :
  history (popup (step Reopen
                    (run [Reopen; Toggle true true;
                          Analyze (Sample.world Sample.signedOut)]
                       {| popup := blank;
                          stored := {| tracking := None; hist := None |} |})))
  = [entry Sample.env Sample.widget].
Proof.
  destruct (proj1 reopening_restores_the_session
              [Toggle true true; Analyze (Sample.world Sample.signedOut)]
              {| popup := blank;
                 stored := {| tracking := None; hist := None |} |})
    as [_ H].
  - reflexivity.
  - cbv zeta in H. rewrite H. reflexivity.
Defined.

(** X24. An entry whose write failed is forgotten on reopening: the
    click puts it in the history held in memory, but the next [init]
    loads the history as it was before the click. *)
Theorem failed_write_is_forgotten w s data e :
  synced s ->
  key_configured w -> shows_product (Popup.env w) data ->
  isTrackingEnabled (popup s) = true ->
  storageSet (Popup.env w) = Throw e ->
  history (popup (step (Analyze w) s))
  = entry (Popup.env w) data :: firstn 49 (history (popup s))
  /\ history (popup (step Reopen (step (Analyze w) s))) = history (popup s).
Proof.
  intros [Hf Hh] Hk Hp Htr Hs. split.
  - cbn [step popup]. now apply analyzeProduct_logs.
  - unfold step at 1. cbn [popup stored step after_click].
    unfold after_click. rewrite Hs. now rewrite Hh.
Qed.

Lemma failed_write_is_forgotten_witness :
  history (popup (step (Analyze Sample2.onFullStore)
                    {| popup := Sample.fresh;
                       stored := {| tracking := Some true; hist := None |} |}))
  = [entry Sample.env Sample.widget]
  /\ history (popup (step Reopen
                       (step (Analyze Sample2.onFullStore)
                          {| popup := Sample.fresh;
                             stored := {| tracking := Some true;
                                          hist := None |} |})))
     = [].
Proof.
  apply (@failed_write_is_forgotten Sample2.onFullStore
           {| popup := Sample.fresh;
              stored := {| tracking := Some true; hist := None |} |}
           Sample.widget (js "QUOTA_BYTES quota exceeded")).
  - split; reflexivity.
  - split; [discriminate | reflexivity].
  - exists {| tab_id := Some 7%N; tab_page := Some Sample.page |},
      [], 7%N, Sample.page.
    repeat split; try reflexivity. discriminate.
  - reflexivity.
  - reflexivity.
Defined.

End SessionFacts.
